(** * openaddr.cache: source acquisition and content-addressed caching

    A shallow embedding of [openaddr/cache.py]: the cache reconciliation
    ([compare_cache_details]), the extension resolver
    ([guess_url_file_extension]), the flat-file download task
    ([URLDownloadTask]) and the ESRI REST pagination engine
    ([EsriRestDownloadTask]).

    Python exceptions are values of [exn]; every effectful function runs in
    the monad [M] over a [World] that holds the file system, the number of
    HTTP requests issued so far and a log of the observable events.
    Functions of the Python standard library and of third-party packages
    (urlparse, md5, sha1, mimetypes, requests, ogr) are variables of the
    sections below, so that every theorem holds whatever they compute. *)

From stdpp Require Import gmap strings list fin_maps pretty.
From Stdlib Require Import ZArith Strings.Byte Ascii String QArith.
From Equations Require Import Equations.

Local Open Scope string_scope.
Local Open Scope list_scope.
Local Open Scope Z_scope.

#[local] Set Warnings "-clear-no-such-hyp".

(** ** Exceptions and outcomes *)

(** What a [DownloadError] was raised for: one constructor per [raise
    DownloadError(...)] of the module, with the values formatted into its
    message. *)
Inductive DownloadErrorKind :=
| CouldNotConnect
| ResponseFrom (status : Z) (url : string)
| FieldNamesHTTP (status : Z) (text : string)
| ProblemQueryingFieldNames (message : string)
| NoFieldsAvailable
| NoObjectidField
| NoGeometryType
| DataEnvelopeHTTP (status : Z) (text : string)
| ProblemQueryingDataset (message : string)
| ProblemParsingResponse.

#[warnings="-register-all"]
Inductive exn :=
| DownloadError (kind : DownloadErrorKind) (cause : option exn)
| Exception (msg : string)
| ValueError (msg : string)
| KeyError (key : string)
| IndexError
| TypeError (msg : string)
| ZeroDivisionError
| RuntimeError (msg : string)
| StopIteration
| UnboundLocalError (name : string)
| OSError (path : string)
| RequestException (msg : string).

Definition is_DownloadError (e : exn) : bool :=
  match e with DownloadError _ _ => true | _ => false end.

(** The result of running a piece of the program: it returns, it raises, or
    the recursion bound of the model was reached. *)
Inductive outcome (A : Type) :=
| Ok (a : A)
| Raise (e : exn)
| OutOfFuel.
Arguments Ok {A} a.
Arguments Raise {A} e.
Arguments OutOfFuel {A}.

(** ** The world *)

Inductive Event :=
| EvRequest (url : string) (params : list (string * string))
| EvSleep (seconds : Z)
| EvLog (msg : string).

Record World := mkWorld {
  files : gmap string (list byte);
  dirs : gset string;
  requests : nat;
  log : list Event
}.

Definition set_files (f : gmap string (list byte) -> gmap string (list byte))
    (w : World) : World :=
  mkWorld (f (files w)) (dirs w) (requests w) (log w).

Definition set_dirs (f : gset string -> gset string) (w : World) : World :=
  mkWorld (files w) (f (dirs w)) (requests w) (log w).

Definition emit (e : Event) (w : World) : World :=
  mkWorld (files w) (dirs w) (requests w) (log w ++ [e]).

Definition tick (w : World) : World :=
  mkWorld (files w) (dirs w) (S (requests w)) (log w).

(** ** The monad of effectful code *)

Definition M (A : Type) : Type := World -> outcome A * World.

Definition ret {A} (a : A) : M A := fun w => (Ok a, w).

Definition bind {A B} (m : M A) (k : A -> M B) : M B :=
  fun w =>
    match m w with
    | (Ok a, w') => k a w'
    | (Raise e, w') => (Raise e, w')
    | (OutOfFuel, w') => (OutOfFuel, w')
    end.

Definition raise {A} (e : exn) : M A := fun w => (Raise e, w).

Definition out_of_fuel {A} : M A := fun w => (OutOfFuel, w).

Definition get_world : M World := fun w => (Ok w, w).

Definition modify (f : World -> World) : M unit := fun w => (Ok tt, f w).

(** [try: m except: h] runs [h e] when [m] raises [e]; the handler re-raises
    what it does not catch. *)
Definition try_except {A} (m : M A) (h : exn -> M A) : M A :=
  fun w =>
    match m w with
    | (Raise e, w') => h e w'
    | r => r
    end.

Declare Scope py_scope.
Delimit Scope py_scope with py.
Notation "x <- m ;; k" := (bind m (fun x => k))
  (at level 100, m at next level, right associativity) : py_scope.
Notation "m ;;; k" := (bind m (fun _ => k))
  (at level 100, right associativity) : py_scope.
Local Open Scope py_scope.

Definition lift_option {A} (o : option A) (e : exn) : M A :=
  match o with Some a => ret a | None => raise e end.

(** ** os.path *)

Definition slash : ascii := "/"%char.
Definition extsep : ascii := "."%char.

(** [p[i:]] with [i = p.rfind('/') + 1]: [cur] is the text read since the
    last separator. *)
Fixpoint basename_from (cur p : string) : string :=
  match p with
  | EmptyString => cur
  | String c p' =>
      if Ascii.eqb c slash then basename_from "" p'
      else basename_from (cur +:+ String c "") p'
  end.

Definition basename (p : string) : string := basename_from "" p.

Definition startswith_slash (p : string) : bool :=
  match p with String c _ => Ascii.eqb c slash | EmptyString => false end.

Fixpoint endswith_slash (p : string) : bool :=
  match p with
  | EmptyString => false
  | String c EmptyString => Ascii.eqb c slash
  | String _ p' => endswith_slash p'
  end.

(** posixpath.join of two components. *)
Definition path_join (a b : string) : string :=
  if startswith_slash b then b
  else if (String.eqb a "" || endswith_slash a)%bool then a +:+ b
  else a +:+ "/" +:+ b.

(** The text is made of separators only: the root, or nothing. *)
Fixpoint all_slashes (p : string) : bool :=
  match p with
  | EmptyString => true
  | String c p' => Ascii.eqb c slash && all_slashes p'
  end.

(** [p.rstrip('/')] *)
Fixpoint rstrip_slash (p : string) : string :=
  match p with
  | EmptyString => EmptyString
  | String c p' =>
      let rest := rstrip_slash p' in
      if (String.eqb rest "" && Ascii.eqb c slash)%bool then EmptyString
      else String c rest
  end.

(** [p[:i]] with [i = p.rfind('/') + 1]: [head] is the text up to the last
    separator read, [cur] the text read since. *)
Fixpoint head_from (head cur p : string) : string :=
  match p with
  | EmptyString => head
  | String c p' =>
      if Ascii.eqb c slash then head_from (head +:+ cur +:+ String c "") "" p'
      else head_from head (cur +:+ String c "") p'
  end.

(** posixpath.dirname *)
Definition dirname (p : string) : string :=
  let head := head_from "" "" p in
  if all_slashes head then head else rstrip_slash head.

(** Index of the last occurrence of [c], as [str.rfind]: [-1] when absent. *)
Fixpoint rfind_from (c : ascii) (p : string) (i : Z) (found : Z) : Z :=
  match p with
  | EmptyString => found
  | String d p' => rfind_from c p' (i + 1) (if Ascii.eqb d c then i else found)
  end.

Definition rfind (c : ascii) (p : string) : Z := rfind_from c p 0 (-1).

Definition char_at (p : string) (i : Z) : option ascii :=
  if i <? 0 then None else String.get (Z.to_nat i) p.

Definition slice_to (p : string) (i : Z) : string :=
  String.substring 0 (Z.to_nat i) p.

Definition slice_from (p : string) (i : Z) : string :=
  String.substring (Z.to_nat i) (String.length p - Z.to_nat i) p.

(** The loop of genericpath._splitext that skips the leading dots of the
    last component; [n] bounds the iterations by the distance to the dot. *)
Fixpoint splitext_scan (n : nat) (p : string) (filenameIndex dotIndex : Z)
    : string * string :=
  match n with
  | O => (p, "")
  | S n' =>
      if filenameIndex <? dotIndex then
        if negb (bool_decide (char_at p filenameIndex = Some extsep)) then
          (slice_to p dotIndex, slice_from p dotIndex)
        else splitext_scan n' p (filenameIndex + 1) dotIndex
      else (p, "")
  end.

Definition splitext (p : string) : string * string :=
  let sepIndex := rfind slash p in
  let dotIndex := rfind extsep p in
  if sepIndex <? dotIndex then
    splitext_scan (Z.to_nat (dotIndex - sepIndex)) p (sepIndex + 1) dotIndex
  else (p, "").

(** ** urllib.parse *)

Record ParseResult := mkParseResult {
  scheme : string;
  netloc : string;
  path : string;
  params : string;
  query : string;
  fragment : string
}.

(** ** Files *)

Definition path_exists (p : string) (w : World) : bool :=
  bool_decide (is_Some (files w !! p)) || bool_decide (p ∈ dirs w).

Definition os_path_exists (p : string) : M bool :=
  fun w => (Ok (path_exists p w), w).

(** [open(p, 'rb')] followed by reading the whole file. *)
Definition read_file (p : string) : M (list byte) :=
  fun w =>
    match files w !! p with
    | Some content => (Ok content, w)
    | None => (Raise (OSError p), w)
    end.

(** [open(p, 'wb')] followed by writing [content] and closing. *)
Definition write_file (p : string) (content : list byte) : M unit :=
  modify (set_files (insert p content)).

(** [open(p, 'ab')]-style growth of a file that is being written. *)
Definition append_file (p : string) (content : list byte) : M unit :=
  modify (set_files (fun fs => <[p := default [] (fs !! p) ++ content]> fs)).

(** os.path.isdir *)
Definition isdir (p : string) (w : World) : bool := bool_decide (p ∈ dirs w).

(** The directory that holds [p] is there. The current directory (an
    empty directory part) and the root always are; any other has to be a
    directory of the world. Paths are compared as texts: the world has no
    links, and a path is written in one way. *)
Definition parent_isdir (p : string) (w : World) : bool :=
  all_slashes (dirname p) || isdir (dirname p) w.

(** os.mkdir: FileExistsError when something is at the path (the root
    always is), FileNotFoundError for the empty path and when the
    directory that holds the path is missing, NotADirectoryError when that
    is a regular file; all of them are OSErrors. *)
Definition mkdir (p : string) : M unit :=
  fun w =>
    if path_exists p w || all_slashes p then (Raise (OSError p), w)
    else if negb (parent_isdir p w) then (Raise (OSError p), w)
    else (Ok tt, set_dirs (union {[p]}) w).

(** shutil.move of a source that is a regular file, or nothing. When the
    destination is a directory the file goes inside it, under its own
    name, unless something is there already (shutil.Error, an OSError).
    Otherwise os.rename puts the file at the destination, replacing a
    regular file that is there; when the directory that holds the
    destination is missing or is a regular file, the rename and the copy
    that is tried after it both raise. Nothing of the file stays behind. *)
Definition move (src dst : string) : M unit :=
  fun w =>
    if isdir dst w then
      let real_dst := path_join dst (basename (rstrip_slash src)) in
      if path_exists real_dst w then (Raise (OSError real_dst), w)
      else
        match files w !! src with
        | Some content =>
            (Ok tt, set_files (fun fs => <[real_dst := content]> (delete src fs)) w)
        | None => (Raise (OSError src), w)
        end
    else
      match files w !! src with
      | Some content =>
          if parent_isdir dst w then
            (Ok tt, set_files (fun fs => <[dst := content]> (delete src fs)) w)
          else (Raise (OSError dst), w)
      | None => (Raise (OSError src), w)
      end.

(** shutil.copy. When the destination is a directory the copy goes inside
    it, under the name of the source. SameFileError (an OSError) when
    source and destination are one file; the errors of [open] when the
    source is missing, when the place of the copy is a directory, and when
    the directory that holds it is missing or is a regular file. *)
Definition copy (src dst : string) : M unit :=
  fun w =>
    let inside := isdir dst w in
    let real_dst := if inside then path_join dst (basename src) else dst in
    match files w !! src with
    | Some content =>
        if String.eqb src real_dst then (Raise (OSError src), w)
        else if isdir real_dst w then (Raise (OSError real_dst), w)
        else if inside || parent_isdir real_dst w then
          (Ok tt, set_files (insert real_dst content) w)
        else (Raise (OSError real_dst), w)
    | None => (Raise (OSError src), w)
    end.

(** [mkdirsp]: os.makedirs, where an existing directory is not an error. *)
Definition mkdirsp (p : string) : M unit :=
  fun w =>
    if bool_decide (p ∈ dirs w) then (Ok tt, w)
    else if bool_decide (is_Some (files w !! p)) then (Raise (OSError p), w)
    else (Ok tt, set_dirs (union {[p]}) w).

(** Iterating over a file opened in binary mode yields its lines, each with
    its terminating newline. *)
Definition newline : byte := x0a.

Fixpoint readlines_from (cur content : list byte) : list (list byte) :=
  match content with
  | [] => match cur with [] => [] | _ => [cur] end
  | b :: rest =>
      if Byte.eqb b newline then (cur ++ [b]) :: readlines_from [] rest
      else readlines_from (cur ++ [b]) rest
  end.

Definition readlines (content : list byte) : list (list byte) :=
  readlines_from [] content.

(** ** compare_cache_details *)

Section Cache.

(** hashlib.md5: the hex digest of the bytes fed to the hash object. *)
Variable md5_hexdigest : list byte -> string.
Variable urlparse : string -> ParseResult.
(** os.path.abspath, which depends on the working directory. *)
Variable abspath : string -> string.

(** The hash object: the bytes it has been updated with so far. *)
Definition md5_new : list byte := [].
Definition md5_update (h line : list byte) : list byte := h ++ line.

Definition compare_cache_details (filepath resultdir : string)
    (data : gmap string string) : M (string * string) :=
  present <- os_path_exists filepath ;;
  if negb present then raise (Exception ("cached file " +:+ filepath +:+ " is missing"))
  else
    content <- read_file filepath ;;
    let fingerprint := foldl md5_update md5_new (readlines content) in
    unchanged <-
      (if (String.eqb (scheme (urlparse (default "" (data !! "cache")))) "http"
           && bool_decide (is_Some (data !! "fingerprint")))%bool
       then
         declared <- lift_option (data !! "fingerprint") (KeyError "fingerprint") ;;
         if String.eqb (md5_hexdigest fingerprint) declared then
           cache <- lift_option (data !! "cache") (KeyError "cache") ;;
           ret (Some (cache, declared))
         else ret None
       else ret None) ;;
    match unchanged with
    | Some known => ret known
    | None =>
        let cache_name := basename filepath in
        present <- os_path_exists resultdir ;;
        (if negb present then mkdir resultdir else ret tt) ;;;
        move filepath (path_join resultdir cache_name) ;;;
        let data_cache := "file://" +:+ path_join (abspath resultdir) cache_name in
        ret (data_cache, md5_hexdigest fingerprint)
    end.

End Cache.

(** ** requests *)

(** What [requests.get] does: it returns a response, or raises one of the
    exceptions of the requests package. *)
Inductive Reply (R : Type) :=
| Responds (r : R)
| Fails (msg : string).
Arguments Responds {R} r.
Arguments Fails {R} msg.

Record HttpResponse := mkHttpResponse {
  status_code : Z;
  headers : gmap string string;
  content : list byte
}.

Definition logging (msg : string) : M unit := modify (emit (EvLog msg)).

(** [x in range(lo, hi)] for an integer [x]. *)
Definition in_range (x lo hi : Z) : bool := (lo <=? x) && (x <? hi).

(** [s.split(';')[0]] *)
Fixpoint before_semicolon (s : string) : string :=
  match s with
  | EmptyString => ""
  | String c s' =>
      if Ascii.eqb c ";"%char then "" else String c (before_semicolon s')
  end.

(** ** guess_url_file_extension *)

Section Resolver.

Variable urlparse : string -> ParseResult.
(** mimetypes.guess_extension(type, False), with the registration of
    application/x-zip-compressed done. *)
Variable guess_extension : string -> option string.
(** The mime type that the [file] utility reports for a chunk of content
    ([get_content_mimetype]). *)
Variable get_content_mimetype : list byte -> string.
(** The [filename] group of the match of the Content-Disposition pattern,
    when the header matches. *)
Variable match_attachment : string -> option string.
(** The answer of the network to the n-th request of the run. *)
Variable requests_get : nat -> string -> Reply HttpResponse.

Definition http_get (url : string) : M HttpResponse :=
  fun w =>
    let w' := emit (EvRequest url []) (tick w) in
    match requests_get (requests w) url with
    | Responds r => (Ok r, w')
    | Fails msg => (Raise (RequestException msg), w')
    end.

(** [next(response.iter_content(99))] *)
Definition first_chunk (body : list byte) : M (list byte) :=
  match body with
  | [] => raise StopIteration
  | _ => ret (take 99 body)
  end.

Definition bad_extensions : list string :=
  [""; ".cgi"; ".php"; ".aspx"; ".asp"; ".do"].

Definition falsy (path_ext : option string) : bool :=
  match path_ext with
  | None => true
  | Some s => String.eqb s ""
  end.

(** The result is an extension, or [None] for Python's [None] and
    [False]. *)
Definition guess_url_file_extension (url : string) : M (option string) :=
  let u := urlparse url in
  let likely_ext := snd (splitext (path u)) in
  if (String.eqb (query u) "" && negb (bool_decide (likely_ext ∈ bad_extensions)))%bool
  then
    logging "URL says" ;;;
    ret (Some likely_ext)
  else
    hc <-
      (if bool_decide (scheme u ∈ ["http"; "https"]) then
         response <- http_get url ;;
         content_chunk <- first_chunk (content response) ;;
         ret (headers response, content_chunk)
       else if bool_decide (scheme u ∈ ["file"; ""]) then
         file <- read_file (path u) ;;
         ret (∅, take 99 file)
       else raise (ValueError ("Unknown scheme " +:+ scheme u +:+ ": " +:+ url))) ;;
    let hdrs : gmap string string := fst hc in
    let content_chunk := snd hc in
    path_ext <-
      match hdrs !! "content-type" with
      | Some ct =>
          let content_type := before_semicolon ct in
          logging "Content-Type says" ;;;
          let path_ext := guess_extension content_type in
          match hdrs !! "content-disposition" with
          | Some cd =>
              match match_attachment cd with
              | Some filename =>
                  let attachment_ext := snd (splitext filename) in
                  if bool_decide (path_ext = Some attachment_ext) then
                    logging "Content-Disposition agrees" ;;;
                    ret path_ext
                  else
                    logging "Content-Disposition disagrees" ;;;
                    ret None
              | None => ret path_ext
              end
          | None => ret path_ext
          end
      | None => ret None
      end ;;
    if falsy path_ext then
      let mime_type := get_content_mimetype content_chunk in
      logging "file says" ;;;
      ret (guess_extension mime_type)
    else ret path_ext.

End Resolver.

(** ** URLDownloadTask *)

Module URLDownloadTask.

Section Task.

Variable urlparse : string -> ParseResult.
Variable sha1_hexdigest : string -> string.
Variable guess_extension : string -> option string.
Variable get_content_mimetype : list byte -> string.
Variable match_attachment : string -> option string.
Variable requests_get : nat -> string -> Reply HttpResponse.
(** The attribute of the task. *)
Variable source_prefix : option string.

Abbreviation guess_url_file_extension :=
  (guess_url_file_extension urlparse guess_extension get_content_mimetype
     match_attachment requests_get).
Abbreviation http_get := (http_get requests_get).

(** [hexdigest()[:8]] *)
Definition hash8 (s : string) : string :=
  String.substring 0 8 (sha1_hexdigest s).

Definition get_file_path (url dir_path : string) : M string :=
  let u := urlparse url in
  let path_base := fst (splitext (path u)) in
  let name_base :=
    match source_prefix with
    | None => basename path_base
    | Some prefix => prefix +:+ "-" +:+ hash8 (netloc u +:+ path_base)
    end in
  path_ext <- guess_url_file_extension url ;;
  logging "Guessed" ;;;
  match path_ext with
  | Some ext => ret (path_join dir_path (name_base +:+ ext))
  | None => raise (TypeError "can only concatenate str to str")
  end.

(** The body of the loop of [download] for one URL: the path it appends to
    [output_files]. *)
Definition download_one (download_path source_url : string) : M string :=
  file_path <- get_file_path source_url download_path ;;
  let u := urlparse source_url in
  (if String.eqb (scheme u) "file" then copy (path u) file_path else ret tt) ;;;
  present <- os_path_exists file_path ;;
  if present then
    logging "File exists" ;;;
    ret file_path
  else
    logging "Requesting" ;;;
    resp <- try_except (http_get source_url)
              (fun e => raise (DownloadError CouldNotConnect (Some e))) ;;
    if in_range (status_code resp) 400 499 then
      raise (DownloadError (ResponseFrom (status_code resp) source_url) None)
    else
      (* the chunks of iter_content, written one after the other *)
      write_file file_path (content resp) ;;;
      logging "Downloaded" ;;;
      ret file_path.

(** The loop [for source_url in source_urls]. *)
Fixpoint download_from (download_path : string) (source_urls : list string)
    (output_files : list string) : M (list string) :=
  match source_urls with
  | [] => ret output_files
  | source_url :: rest =>
      file_path <- download_one download_path source_url ;;
      download_from download_path rest (output_files ++ [file_path])
  end.

Definition download (source_urls : list string) (workdir : string)
    : M (list string) :=
  let download_path := path_join workdir "http" in
  mkdirsp download_path ;;;
  download_from download_path source_urls [].

End Task.

End URLDownloadTask.

(** ** Numbers and attribute values *)

(** Python's floats, with the operations the module applies to them. The
    development never looks inside: every theorem holds for any
    arithmetic. *)
Class Float (num : Type) := {
  float_eq_dec :: EqDecision num;
  float_countable :: Countable num;
  of_Z : Z -> num;
  fadd : num -> num -> num;
  (** true division, by a divisor that is not zero *)
  fdiv : num -> num -> num;
  (** [round(x, ndigits)] *)
  round_to : num -> Z -> num;
  (** [str(x)] *)
  float_str : num -> string
}.

(** 'needle' in 'haystack' *)
Fixpoint contains (needle haystack : string) : bool :=
  String.prefix needle haystack ||
  match haystack with
  | EmptyString => false
  | String _ rest => contains needle rest
  end.

(** [','.join(parts)] *)
Fixpoint join_comma (parts : list string) : string :=
  match parts with
  | [] => ""
  | [p] => p
  | p :: rest => p +:+ "," +:+ join_comma rest
  end.

(** ** The documents and the geometries of an ESRI layer *)

Section EsriLayer.

Context {num : Type} `{Float num}.

(** The scalar values of a feature's attributes. Python takes an integer
    and a float for equal when they are the same number; here [VInt] and
    [VFloat] are kept apart (the identifiers of a layer are integers). *)
Inductive Value :=
| VNone
| VBool (b : bool)
| VInt (z : Z)
| VFloat (x : num)
| VStr (s : string).

#[global] Instance Value_eq_dec : EqDecision Value.
Proof. solve_decision. Defined.

Definition Value_encode (v : Value) : unit + bool + Z + num + string :=
  match v with
  | VNone => inl (inl (inl (inl tt)))
  | VBool b => inl (inl (inl (inr b)))
  | VInt z => inl (inl (inr z))
  | VFloat x => inl (inr x)
  | VStr s => inr s
  end.

Definition Value_decode (c : unit + bool + Z + num + string) : Value :=
  match c with
  | inl (inl (inl (inl _))) => VNone
  | inl (inl (inl (inr b))) => VBool b
  | inl (inl (inr z)) => VInt z
  | inl (inr x) => VFloat x
  | inr s => VStr s
  end.

#[global] Instance Value_countable : Countable Value.
Proof.
  apply (inj_countable' Value_encode Value_decode).
  intros []; reflexivity.
Defined.

(** A row: the [attributes] dictionary of a feature. *)
Abbreviation Row := (gmap string Value).

(** *** The JSON documents of an ESRI layer *)

(** A [geometry] dictionary, with the keys this module reads. A point of
    [points], [rings] or [paths] is the list of its coordinates. *)
Record EsriGeometry := mkEsriGeometry {
  g_x : option num;
  g_y : option num;
  g_points : option (list (list num));
  g_rings : option (list (list (list num)));
  g_paths : option (list (list (list num)))
}.

Record Feature := mkFeature {
  attributes : option Row;
  geometry : option EsriGeometry
}.

Record ErrorObject := mkErrorObject {
  err_code : option Z;
  err_message : option string
}.

Record Field := mkField {
  field_name : string;
  field_type : string
}.

Record Extent := mkExtent {
  e_xmin : num;
  e_ymin : num;
  e_xmax : num;
  e_ymax : num;
  e_wkid : Z
}.

(** The dictionary that [response.json()] returns, for the layer root and
    for a query alike: a key that is absent is [None]. *)
Record Payload := mkPayload {
  p_error : option ErrorObject;
  p_fields : option (list Field);
  p_geometryType : option string;
  p_maxRecordCount : option Z;
  p_extent : option Extent;
  p_features : option (list Feature)
}.

(** [esri_json] is [None] when [response.json()] raises. *)
Record EsriResponse := mkEsriResponse {
  esri_status : Z;
  esri_text : string;
  esri_json : option Payload
}.

Record BBox := mkBBox {
  xmin : num;
  ymin : num;
  xmax : num;
  ymax : num
}.

(** *** ogr *)

Inductive OgrGeometry :=
| wkbPoint (x y : num)
| wkbMultiPoint (points : list (num * num))
| wkbPolygon (rings : list (list (num * num)))
| wkbMultiLineString (lines : list (list (num * num))).

(** What [esri_feature['geometry']] is: a dictionary for a feature of a
    response; a scalar when the argument is a row of attributes that has a
    column of that name. *)
Inductive GeometryEntry :=
| GeomDict (g : EsriGeometry)
| GeomScalar (v : Value).

(** What the metadata of a layer gives to the queries. *)
Record LayerInfo := mkLayerInfo {
  li_field_names : list string;
  li_objectid_fieldname : string;
  li_geometry_type : string;
  li_max_record_count : Z;
  li_extent : BBox
}.

End EsriLayer.

(** ** EsriRestDownloadTask *)

Module EsriRestDownloadTask.

Section Task.

Context {num : Type} `{Float num}.

Abbreviation Value := (@Value num).
Abbreviation Row := (gmap string Value).
Abbreviation Feature := (@Feature num).
Abbreviation Payload := (@Payload num).
Abbreviation EsriResponse := (@EsriResponse num).
Abbreviation EsriGeometry := (@EsriGeometry num).
Abbreviation GeometryEntry := (@GeometryEntry num).
Abbreviation OgrGeometry := (@OgrGeometry num).
Abbreviation BBox := (@BBox num).
Abbreviation LayerInfo := (@LayerInfo num).

(** [Centroid] returns the coordinates of the centroid or raises a
    RuntimeError with a message; [GetEnvelope] returns
    (xmin, xmax, ymin, ymax). *)
Variable Centroid : OgrGeometry -> string + num * num.
Variable GetEnvelope : OgrGeometry -> num * num * num * num.
Variable ExportToWkt : OgrGeometry -> string.
(** [Transform] with the coordinate transformation from one EPSG code to
    another. *)
Variable Transform : Z -> Z -> OgrGeometry -> OgrGeometry.

(** *** The names of .conform and the writer of .compat *)

Variable X_FIELDNAME Y_FIELDNAME GEOM_FIELDNAME : string.
Variable csv_header : list string -> list byte.
Variable csv_row : list string -> Row -> list byte.

Variable urlparse : string -> ParseResult.
Variable sha1_hexdigest : string -> string.
(** The answer of the server to the n-th request of the run. *)
Variable requests_get : nat -> string -> list (string * string) -> Reply EsriResponse.
(** The attribute of the task. *)
Variable source_prefix : option string.

Definition esri_get (url : string) (params : list (string * string))
    : M EsriResponse :=
  fun w =>
    let w' := emit (EvRequest url params) (tick w) in
    match requests_get (requests w) url params with
    | Responds r => (Ok r, w')
    | Fails msg => (Raise (RequestException msg), w')
    end.

Definition sleep (seconds : Z) : M unit := modify (emit (EvSleep seconds)).

(** *** build_ogr_geometry *)

Definition feature_geometry (f : Feature) : option GeometryEntry :=
  GeomDict <$> geometry f.

Definition row_geometry (r : Row) : option GeometryEntry :=
  GeomScalar <$> r !! "geometry".

(** [entry[key]] *)
Definition geometry_item {A} (entry : GeometryEntry)
    (get : EsriGeometry -> option A) (key : string) : M A :=
  match entry with
  | GeomDict g => lift_option (get g) (KeyError key)
  | GeomScalar _ => raise (TypeError "object is not subscriptable")
  end.

(** [(pt[0], pt[1])] *)
Definition xy (pt : list num) : M (num * num) :=
  match pt with
  | x :: y :: _ => ret (x, y)
  | _ => raise IndexError
  end.

Fixpoint add_points (pts : list (list num)) : M (list (num * num)) :=
  match pts with
  | [] => ret []
  | pt :: rest =>
      p <- xy pt ;;
      ps <- add_points rest ;;
      ret (p :: ps)
  end.

Fixpoint add_parts (parts : list (list (list num))) : M (list (list (num * num))) :=
  match parts with
  | [] => ret []
  | part :: rest =>
      p <- add_points part ;;
      ps <- add_parts rest ;;
      ret (p :: ps)
  end.

Definition build_ogr_geometry (geom_type : option string)
    (entry : option GeometryEntry) : M OgrGeometry :=
  match entry with
  | None => raise (TypeError "No geometry for feature")
  | Some g =>
      if bool_decide (geom_type = Some "esriGeometryPoint") then
        x <- geometry_item g g_x "x" ;;
        y <- geometry_item g g_y "y" ;;
        ret (wkbPoint x y)
      else if bool_decide (geom_type = Some "esriGeometryMultipoint") then
        points <- geometry_item g g_points "points" ;;
        pts <- add_points points ;;
        ret (wkbMultiPoint pts)
      else if bool_decide (geom_type = Some "esriGeometryPolygon") then
        rings <- geometry_item g g_rings "rings" ;;
        rs <- add_parts rings ;;
        ret (wkbPolygon rs)
      else if bool_decide (geom_type = Some "esriGeometryPolyline") then
        paths <- geometry_item g g_paths "paths" ;;
        ls <- add_parts paths ;;
        ret (wkbMultiLineString ls)
      else raise (KeyError "Don't know how to convert esri geometry type")
  end.

Definition linear_ring_message : string :=
  "Invalid number of points in LinearRing found".

(** The statement [try: centroid = ogr_geom.Centroid() ... except ... else],
    which [get_bbox] and the loop that writes the file both have: the
    centroid of a geometry, rounded, written into the X and Y columns of a
    row; the middle of the envelope when the centroid cannot be computed for
    a ring with too few points; any other RuntimeError raised again. *)
Definition set_centroid (ogr_geom : OgrGeometry) (row : Row) : M Row :=
  match Centroid ogr_geom with
  | inl msg =>
      if negb (contains linear_ring_message msg) then raise (RuntimeError msg)
      else
        let '(xmin, xmax, ymin, ymax) := GetEnvelope ogr_geom in
        let row := <[X_FIELDNAME := VFloat (round_to (fadd (fdiv xmin (of_Z 2)) (fdiv xmax (of_Z 2))) 7)]> row in
        let row := <[Y_FIELDNAME := VFloat (round_to (fadd (fdiv ymin (of_Z 2)) (fdiv ymax (of_Z 2))) 7)]> row in
        ret row
  | inr (cx, cy) =>
      let row := <[X_FIELDNAME := VFloat (round_to cx 7)]> row in
      let row := <[Y_FIELDNAME := VFloat (round_to cy 7)]> row in
      ret row
  end.

Definition get_file_path (url dir_path : string) : M string :=
  let u := urlparse url in
  let hash := String.substring 0 8 (sha1_hexdigest (netloc u +:+ path u)) in
  let hint :=
    match source_prefix with
    | Some prefix => if String.eqb prefix "" then netloc u else prefix
    | None => netloc u
    end in
  logging "Downloading" ;;;
  ret (path_join dir_path (hint +:+ "-" +:+ hash +:+ ".csv")).

(** *** The spatial queries of one source

    [get_bbox] is a closure of [download]: the variables below are the
    ones it captures. *)
Section Queries.

Variable source_url : string.
Variable objectid_fieldname : string.
Variable max_record_count : Z.

Definition query_args (bbox : BBox) : list (string * string) :=
  [("f", "json");
   ("geometryType", "esriGeometryEnvelope");
   ("geometry", join_comma [float_str (xmin bbox); float_str (ymin bbox);
                            float_str (xmax bbox); float_str (ymax bbox)]);
   ("geometryPrecision", "7");
   ("returnGeometry", "true");
   ("outSR", "4326");
   ("inSR", "4326");
   ("outFields", "*")].

(** [if error:] for a dictionary: it is not empty. *)
Definition truthy_error (e : ErrorObject) : bool :=
  bool_decide (is_Some (err_code e)) || bool_decide (is_Some (err_message e)).

(** The checks of one attempt, after the request returned. *)
Definition check_response (response : EsriResponse) : M unit :=
  if negb (esri_status response =? 200) then
    raise (DownloadError (DataEnvelopeHTTP (esri_status response) (esri_text response)) None)
  else
    try_except
      (payload <- lift_option (esri_json response) (ValueError "No JSON object could be decoded") ;;
       match p_error payload with
       | Some error =>
           if truthy_error error then
             message <- lift_option (err_message error) (KeyError "message") ;;
             raise (DownloadError (ProblemQueryingDataset message) None)
           else ret tt
       | None => ret tt
       end)
      (fun e => raise (DownloadError ProblemParsingResponse (Some e))).

(** The loop [while tries >= 0] of [get_bbox]; [response] is the local
    variable of that name, unbound before the first request. The result
    is its value when the loop is left. *)
Equations? query_loop (args : list (string * string)) (tries : Z)
    (response : option EsriResponse) : M EsriResponse
    by wf (Z.to_nat (tries + 1)) lt :=
  query_loop args tries response with Z_le_dec 0 tries := {
    | left _ =>
        (* what requests.get raises is no DownloadError: it leaves the
           try statement, and the loop *)
        r <- esri_get (source_url +:+ "/query") args ;;
        try_except
          (check_response r ;;; ret r)
          (fun e =>
             if is_DownloadError e then
               logging "Retrying after download error" ;;;
               sleep 1 ;;;
               query_loop args (tries - 1) (Some r)
             else raise e)
    | right _ =>
        lift_option response (UnboundLocalError "response")
  }.
Proof. lia. Qed.

(** The operand of a sum. *)
Definition number (v : Value) : M num :=
  match v with
  | VFloat x => ret x
  | VInt z => ret (of_Z z)
  | VBool b => ret (of_Z (if b then 1 else 0))
  | _ => raise (TypeError "unsupported operand type(s) for +")
  end.

(** [sum(f[key] for f in rows)], from the accumulator [acc]. *)
Fixpoint sum_column (key : string) (rows : list Row) (acc : num) : M num :=
  match rows with
  | [] => ret acc
  | f :: rest =>
      v <- lift_option (f !! key) (KeyError key) ;;
      x <- number v ;;
      sum_column key rest (fadd acc x)
  end.

(** [float(sum(f[key] for f in rows)) / len(rows)] *)
Definition mean (key : string) (rows : list Row) : M num :=
  total <- sum_column key rows (of_Z 0) ;;
  if bool_decide (List.length rows = 0%nat) then raise ZeroDivisionError
  else ret (fdiv total (of_Z (Z.of_nat (List.length rows)))).

(** The loop [for feature in features] of [get_bbox], from the rows and
    the identifiers collected so far. *)
Fixpoint collect_rows (geometry_type : option string) (features : list Feature)
    (fetched_ids : gset Value) (returned_data : list Row)
    : M (list Row * gset Value) :=
  match features with
  | [] => ret (returned_data, fetched_ids)
  | feature :: rest =>
      let row := default ∅ (attributes feature) in
      oid <- lift_option (row !! objectid_fieldname) (KeyError objectid_fieldname) ;;
      if bool_decide (oid ∈ fetched_ids) then
        collect_rows geometry_type rest fetched_ids returned_data
      else
        ogr_geom <- build_ogr_geometry geometry_type (feature_geometry feature) ;;
        row <- set_centroid ogr_geom row ;;
        added <- lift_option (row !! objectid_fieldname) (KeyError objectid_fieldname) ;;
        collect_rows geometry_type rest ({[added]} ∪ fetched_ids) (returned_data ++ [row])
  end.

(** [get_bbox(fetched_ids, bbox)]. The set [fetched_ids] is one object
    that every call updates: it is passed in and handed back. [fuel]
    bounds the depth of the recursion. The print of the tile as GeoJSON
    is left out. *)
Fixpoint get_bbox (fuel : nat) (fetched_ids : gset Value) (bbox : BBox)
    : M (list Row * gset Value) :=
  match fuel with
  | O => out_of_fuel
  | S fuel =>
      response <- query_loop (query_args bbox) 3 None ;;
      payload <- lift_option (esri_json response) (ValueError "No JSON object could be decoded") ;;
      let geometry_type := p_geometryType payload in
      features <- lift_option (p_features payload) (TypeError "object of type 'NoneType' has no len()") ;;
      collected <- collect_rows geometry_type features fetched_ids [] ;;
      let returned_data := fst collected in
      let fetched_ids := snd collected in
      if max_record_count <=? Z.of_nat (List.length features) then
        mean_x <- mean X_FIELDNAME returned_data ;;
        mean_y <- mean Y_FIELDNAME returned_data ;;
        q1 <- get_bbox fuel fetched_ids
                {| xmin := xmin bbox; ymin := ymin bbox;
                   xmax := mean_x;    ymax := mean_y |} ;;
        let returned_data := returned_data ++ fst q1 in
        q2 <- get_bbox fuel (snd q1)
                {| xmin := mean_x;    ymin := ymin bbox;
                   xmax := xmax bbox; ymax := mean_y |} ;;
        let returned_data := returned_data ++ fst q2 in
        q3 <- get_bbox fuel (snd q2)
                {| xmin := xmin bbox; ymin := mean_y;
                   xmax := mean_x;    ymax := ymax bbox |} ;;
        let returned_data := returned_data ++ fst q3 in
        q4 <- get_bbox fuel (snd q3)
                {| xmin := mean_x;    ymin := mean_y;
                   xmax := xmax bbox; ymax := ymax bbox |} ;;
        let returned_data := returned_data ++ fst q4 in
        ret (returned_data, snd q4)
      else ret (returned_data, fetched_ids)
  end.

End Queries.

(** *** EsriRestDownloadTask.download *)

(** [writer.writerow(row)]: a key that is no field name is an error. *)
Definition writerow (file_path : string) (field_names : list string) (row : Row)
    : M unit :=
  if bool_decide (dom row ⊆ list_to_set field_names) then
    append_file file_path (csv_row field_names row)
  else raise (ValueError "dict contains fields not in fieldnames").

(** The body of the loop [for feature in fetched_data]: [feature] is one
    of the rows that [get_bbox] returned; the result tells whether a row
    was written. *)
Definition write_feature (file_path : string) (field_names : list string)
    (geometry_type : option string) (feature : Row) : M bool :=
  try_except
    (ogr_geom <- build_ogr_geometry geometry_type (row_geometry feature) ;;
     row <- match feature !! "attributes" with
            | None => ret (<[GEOM_FIELDNAME := VStr (ExportToWkt ogr_geom)]> (∅ : Row))
            | Some _ => raise (TypeError "object does not support item assignment")
            end ;;
     row <- set_centroid ogr_geom row ;;
     writerow file_path field_names row ;;;
     ret true)
    (fun e =>
       match e with
       | TypeError _ => logging "Skipping a geometry" ;;; ret false
       | _ => raise e
       end).

Fixpoint write_features (file_path : string) (field_names : list string)
    (geometry_type : option string) (fetched_data : list Row) (size : Z) : M Z :=
  match fetched_data with
  | [] => ret size
  | feature :: rest =>
      written <- write_feature file_path field_names geometry_type feature ;;
      write_features file_path field_names geometry_type rest
        (if written then size + 1 else size)
  end.

Definition append_if_absent (name : string) (names : list string) : list string :=
  if bool_decide (name ∈ names) then names else names ++ [name].

(** The name of the first field of type esriFieldTypeOID. *)
Fixpoint find_objectid (fields : list Field) : option string :=
  match fields with
  | [] => None
  | field :: rest =>
      if String.eqb (field_type field) "esriFieldTypeOID" then Some (field_name field)
      else find_objectid rest
  end.

(** The first part of the body of the loop of [download]: from the request
    of the layer root to the reprojected extent. *)
Definition layer_metadata (source_url : string) : M LayerInfo :=
  response <- esri_get source_url [("f", "json")] ;;
  if negb (esri_status response =? 200) then
    raise (DownloadError (FieldNamesHTTP (esri_status response) (esri_text response)) None)
  else
    metadata <- lift_option (esri_json response) (ValueError "No JSON object could be decoded") ;;
    (match p_error metadata with
     | Some error =>
         if truthy_error error then
           message <- lift_option (err_message error) (KeyError "message") ;;
           raise (DownloadError (ProblemQueryingFieldNames message) None)
         else ret tt
     | None => ret tt
     end) ;;;
    match p_fields metadata with
    | None | Some [] => raise (DownloadError NoFieldsAvailable None)
    | Some fields =>
        let field_names := field_name <$> fields in
        let field_names := append_if_absent X_FIELDNAME field_names in
        let field_names := append_if_absent Y_FIELDNAME field_names in
        let field_names := append_if_absent GEOM_FIELDNAME field_names in
        match find_objectid fields with
        | None | Some "" => raise (DownloadError NoObjectidField None)
        | Some objectid_fieldname =>
            match p_geometryType metadata with
            | None | Some "" => raise (DownloadError NoGeometryType None)
            | Some geometry_type =>
                let max_record_count := default 500 (p_maxRecordCount metadata) in
                extent <- lift_option (p_extent metadata)
                            (TypeError "'NoneType' object is not subscriptable") ;;
                let ring := [(e_xmin extent, e_ymin extent);
                             (e_xmin extent, e_ymax extent);
                             (e_xmax extent, e_ymax extent);
                             (e_xmax extent, e_ymin extent);
                             (e_xmin extent, e_ymin extent)] in
                let ogr_extent := Transform (e_wkid extent) 4326 (wkbPolygon [ring]) in
                let '(xmin, xmax, ymin, ymax) := GetEnvelope ogr_extent in
                ret {| li_field_names := field_names;
                       li_objectid_fieldname := objectid_fieldname;
                       li_geometry_type := geometry_type;
                       li_max_record_count := max_record_count;
                       li_extent := {| xmin := xmin; ymin := ymin;
                                       xmax := xmax; ymax := ymax |} |}
            end
        end
    end.

(** The body of the loop of [download] for one URL: the path it appends
    to [output_files]. [fuel] is the bound of [get_bbox]. *)
Definition download_one (fuel : nat) (download_path source_url : string)
    : M string :=
  file_path <- get_file_path source_url download_path ;;
  present <- os_path_exists file_path ;;
  if present then
    logging "File exists" ;;;
    ret file_path
  else
    layer <- layer_metadata source_url ;;
    (* csvopen(file_path, 'w') and writer.writeheader() *)
    write_file file_path (csv_header (li_field_names layer)) ;;;
    fetched <- get_bbox source_url (li_objectid_fieldname layer)
                 (li_max_record_count layer) fuel ∅ (li_extent layer) ;;
    size <- write_features file_path (li_field_names layer)
              (Some (li_geometry_type layer)) (fst fetched) 0 ;;
    logging "Downloaded" ;;;
    ret file_path.

(** The loop [for source_url in source_urls]. *)
Fixpoint download_from (fuel : nat) (download_path : string)
    (source_urls : list string) (output_files : list string) : M (list string) :=
  match source_urls with
  | [] => ret output_files
  | source_url :: rest =>
      file_path <- download_one fuel download_path source_url ;;
      download_from fuel download_path rest (output_files ++ [file_path])
  end.

Definition download (fuel : nat) (source_urls : list string) (workdir : string)
    : M (list string) :=
  let download_path := path_join workdir "esri" in
  mkdirsp download_path ;;;
  download_from fuel download_path source_urls [].

End Task.

End EsriRestDownloadTask.

(** ** DownloadTask.from_type_string *)

(** The two subclasses of DownloadTask, each with the attribute that
    [__init__] sets. *)
Inductive DownloadTask :=
| NewURLDownloadTask (source_prefix : option string)
| NewEsriRestDownloadTask (source_prefix : option string).

(** [str.lower] on one character: the letters A to Z are moved to a to z,
    every other character stays. The names the type is compared with are
    ASCII, and no character outside ASCII lowers to one of their letters. *)
Definition lower_char (c : ascii) : ascii :=
  let n := N_of_ascii c in
  if ((65 <=? n) && (n <=? 90))%N then ascii_of_N (n + 32) else c.

Fixpoint lower (s : string) : string :=
  match s with
  | EmptyString => EmptyString
  | String c s' => String (lower_char c) (lower s')
  end.

Definition from_type_string (type_string : string) (source_prefix : option string)
    : exn + DownloadTask :=
  if String.eqb (lower type_string) "http" then inr (NewURLDownloadTask source_prefix)
  else if String.eqb (lower type_string) "ftp" then inr (NewURLDownloadTask source_prefix)
  else if String.eqb (lower type_string) "esri" then
    inr (NewEsriRestDownloadTask source_prefix)
  else inl (KeyError ("I don't know how to extract for type " +:+ type_string)).

(** ** A concrete world for the examples

    Exact rational arithmetic stands for the floats, each result reduced so
    that equal numbers are equal terms. *)


Module Rational.

#[global] Instance Q_eq_dec : EqDecision Q.
Proof. solve_decision. Defined.

#[global] Instance Q_countable : Countable Q.
Proof.
  apply (inj_countable' (fun q : Q => (Qnum q, Qden q))
                        (fun p : Z * positive => Qmake (fst p) (snd p))).
  intros []; reflexivity.
Defined.

(** Rounding to the nearest multiple of [10 ^ -ndigits], ties to even. *)
Definition Qround (x : Q) (ndigits : Z) : Q :=
  let scale := Z.pow 10 ndigits in
  let n := Z.mul (Qnum x) scale in
  let d := Zpos (Qden x) in
  let q := Z.div n d in
  let r := Z.modulo n d in
  let rounded :=
    if Z.ltb (2 * r) d then q
    else if Z.ltb d (2 * r) then Z.add q 1
    else if Z.even q then q else Z.add q 1 in
  Qred (Qmake rounded (Z.to_pos scale)).

Definition Qstr (x : Q) : string :=
  pretty (Qnum x) +:+ "/" +:+ pretty (Zpos (Qden x)).

#[global] Instance Q_Float : Float Q := {|
  of_Z := inject_Z;
  fadd := fun a b => Qred (Qplus a b);
  fdiv := fun a b => Qred (Qdiv a b);
  round_to := Qround;
  float_str := Qstr
|}.

End Rational.

(** A reader of URLs for the examples: the scheme before the first colon,
    the host after a double slash, then the path, and the query after a
    question mark. On the URLs used below it returns what
    urllib.parse.urlparse returns. *)
Module Urls.

Fixpoint split_at (stop : ascii -> bool) (s : string) : string * string :=
  match s with
  | EmptyString => ("", "")
  | String c s' =>
      if stop c then ("", s)
      else let '(a, b) := split_at stop s' in (String c a, b)
  end.

Definition is_char (c d : ascii) : bool := Ascii.eqb c d.

Definition drop_first (s : string) : string :=
  match s with EmptyString => "" | String _ s' => s' end.

Definition urlparse (url : string) : ParseResult :=
  let '(before, after) := split_at (is_char ":"%char) url in
  let '(scheme, rest) :=
    if (String.eqb after "" || String.eqb before "" || contains "/" before)%bool
    then ("", url) else (before, drop_first after) in
  let '(netloc, rest) :=
    if String.prefix "//" rest then
      split_at (fun c => is_char "/"%char c || is_char "?"%char c)
               (drop_first (drop_first rest))
    else ("", rest) in
  let '(path, query) := split_at (is_char "?"%char) rest in
  mkParseResult scheme netloc path "" (drop_first query) "".

Definition abspath (p : string) : string :=
  if startswith_slash p then p else path_join "/srv/openaddr" p.

(** A stand-in for a digest: any function of the content serves. *)
Definition digest (content : list byte) : string :=
  pretty (foldl (fun a b => Z.modulo (31 * a + Z.of_N (Byte.to_N b)) 65521) 7%Z content).

Definition text_digest (s : string) : string :=
  pretty (Z.of_nat (String.length s)) +:+ "0000000".

End Urls.

(** * Properties *)

(** Running the monad: unfold one layer of the combinators. *)
Ltac run :=
  unfold bind, ret, raise, lift_option, modify, os_path_exists, logging,
    try_except, out_of_fuel; simpl.

(** One step of a run: case analysis on the outcome of the innermost
    computation that is bound. *)
Ltac run_step :=
  match goal with
  | |- context [let (_, _) := ?x in _] =>
      lazymatch x with
      | context [let (_, _) := _ in _] => fail
      | _ => destruct x as [[?|?|] ?]; cbn [fst snd]; try reflexivity
      end
  end.

(** ** The content-addressed cache *)

Section CacheProperties.

Variable md5_hexdigest : list byte -> string.
Variable urlparse : string -> ParseResult.
Variable abspath : string -> string.

Lemma readlines_from_concat cur content :
  List.concat (readlines_from cur content) = cur ++ content.
Proof.
  revert cur. induction content as [|b rest IH]; intros cur; simpl.
  - destruct cur; simpl; [reflexivity|]. by rewrite !app_nil_r.
  - destruct (Byte.eqb b newline); simpl; rewrite IH.
    + by rewrite <- app_assoc.
    + by rewrite <- app_assoc.
Qed.

Lemma foldl_md5_update h lines :
  foldl md5_update h lines = h ++ List.concat lines.
Proof.
  revert h. induction lines as [|l lines IH]; intros h; simpl.
  - by rewrite app_nil_r.
  - rewrite IH. unfold md5_update. by rewrite <- app_assoc.
Qed.

(** Feeding the hash line by line fingerprints the whole content. *)
Lemma fingerprint_of_lines content :
  foldl md5_update md5_new (readlines content) = content.
Proof.
  rewrite foldl_md5_update. unfold readlines.
  by rewrite readlines_from_concat.
Qed.

(** The world once the store is there: as it was, or with the directory
    that [os.mkdir] made. *)
Definition stocked (resultdir : string) (w : World) : World :=
  if path_exists resultdir w then w else set_dirs (union {[resultdir]}) w.

(** The world after the promotion of [filepath] into [resultdir]. *)
Definition promoted (filepath resultdir : string) (content : list byte)
    (w : World) : World :=
  set_files (fun fs => <[path_join resultdir (basename filepath) := content]>
                         (delete filepath fs))
    (stocked resultdir w).

(** The store can take the artifact: something is at the path of the
    store, or [os.mkdir] can make the directory (the path is not the root
    or empty, and the directory that holds it is there); and then, at the
    path the artifact is to have, there is no directory, and the directory
    that holds this path is one. *)
Definition storable (filepath resultdir : string) (w : World) : Prop :=
  (path_exists resultdir w = true \/
   (all_slashes resultdir = false /\ parent_isdir resultdir w = true)) /\
  isdir (path_join resultdir (basename filepath)) (stocked resultdir w) = false /\
  parent_isdir (path_join resultdir (basename filepath)) (stocked resultdir w) = true.

(** What the declared data say: the content is published at an http URL
    under this fingerprint. *)
Definition declares (data : gmap string string) (cache fingerprint : string) : Prop :=
  data !! "cache" = Some cache /\
  scheme (urlparse cache) = "http" /\
  data !! "fingerprint" = Some fingerprint.

Lemma path_exists_file p w content :
  files w !! p = Some content -> path_exists p w = true.
Proof.
  intros Hf. unfold path_exists. rewrite Hf.
  rewrite bool_decide_eq_true_2; [reflexivity | by eexists].
Qed.


(** The second branch: what is left to do when nothing is known of the
    content. *)
Definition promote (filepath resultdir : string) (content : list byte)
    : M (string * string) :=
  present <- os_path_exists resultdir ;;
  (if negb present then mkdir resultdir else ret tt) ;;;
  move filepath (path_join resultdir (basename filepath)) ;;;
  ret ("file://" +:+ path_join (abspath resultdir) (basename filepath),
       md5_hexdigest content).

Lemma compare_unknown filepath resultdir data w content :
  files w !! filepath = Some content ->
  scheme (urlparse "") <> "http" ->
  (forall cache, ~ declares data cache (md5_hexdigest content)) ->
  compare_cache_details md5_hexdigest urlparse abspath filepath resultdir data w
  = promote filepath resultdir content w.
Proof.
  intros Hf Hempty Hno.
  unfold compare_cache_details, promote. run.
  rewrite (path_exists_file _ _ _ Hf). simpl.
  unfold read_file. rewrite Hf. rewrite fingerprint_of_lines.
  destruct (String.eqb (scheme (urlparse (default "" (data !! "cache")))) "http"
            && bool_decide (is_Some (data !! "fingerprint")))%bool eqn:Hguard.
  - destruct (data !! "fingerprint") as [declared|] eqn:Hd; simpl.
    + destruct (String.eqb_spec (md5_hexdigest content) declared) as [He|He].
      * apply andb_prop in Hguard as [Hs _].
        apply String.eqb_eq in Hs.
        destruct (data !! "cache") as [cache|] eqn:Hc; simpl in Hs.
        -- exfalso. apply (Hno cache). unfold declares. by subst.
        -- contradiction.
      * reflexivity.
    + apply andb_prop in Hguard as [_ Hb].
      apply bool_decide_eq_true_1 in Hb. by destruct Hb.
  - reflexivity.
Qed.

Lemma stocked_files resultdir w : files (stocked resultdir w) = files w.
Proof. unfold stocked. by destruct (path_exists resultdir w). Qed.

Lemma promote_storable filepath resultdir w content :
  files w !! filepath = Some content ->
  storable filepath resultdir w ->
  promote filepath resultdir content w
  = (Ok ("file://" +:+ path_join (abspath resultdir) (basename filepath),
         md5_hexdigest content),
     promoted filepath resultdir content w).
Proof.
  intros Hf (Hstore & Hnodir & Hparent).
  assert (Hmove : move filepath (path_join resultdir (basename filepath))
                    (stocked resultdir w)
                  = (Ok tt, promoted filepath resultdir content w)).
  { unfold move. rewrite Hnodir, stocked_files, Hf, Hparent. reflexivity. }
  unfold promote, bind at 1, os_path_exists. unfold stocked in Hmove.
  destruct (path_exists resultdir w) eqn:Hex; cbn [negb].
  - unfold bind at 1, ret at 1. unfold bind at 1. by rewrite Hmove.
  - destruct Hstore as [?|[Hroot Hup]]; [done|].
    unfold bind at 1, mkdir. rewrite Hex, Hroot, Hup. cbn [orb negb].
    unfold bind at 1. by rewrite Hmove.
Qed.

Lemma compare_promotes filepath resultdir data w content :
  files w !! filepath = Some content ->
  scheme (urlparse "") <> "http" ->
  (forall cache, ~ declares data cache (md5_hexdigest content)) ->
  storable filepath resultdir w ->
  compare_cache_details md5_hexdigest urlparse abspath filepath resultdir data w
  = (Ok ("file://" +:+ path_join (abspath resultdir) (basename filepath),
         md5_hexdigest content),
     promoted filepath resultdir content w).
Proof.
  intros Hf Hempty Hno Hstorable.
  rewrite (compare_unknown _ _ _ _ _ Hf Hempty Hno).
  by apply promote_storable.
Qed.


Lemma promoted_files filepath resultdir content w :
  files (promoted filepath resultdir content w)
  = <[path_join resultdir (basename filepath) := content]> (delete filepath (files w)).
Proof. unfold promoted. simpl. by rewrite stocked_files. Qed.



End CacheProperties.



(** ** The extension resolver and the flat-file download task *)

Section TransferProperties.

Variable urlparse : string -> ParseResult.
Variable sha1_hexdigest : string -> string.
Variable guess_extension : string -> option string.
Variable get_content_mimetype : list byte -> string.
Variable match_attachment : string -> option string.
Variable requests_get : nat -> string -> Reply HttpResponse.

Abbreviation guess_url_file_extension :=
  (guess_url_file_extension urlparse guess_extension get_content_mimetype
     match_attachment requests_get).
Abbreviation get_file_path :=
  (URLDownloadTask.get_file_path urlparse sha1_hexdigest guess_extension
     get_content_mimetype match_attachment requests_get).
Abbreviation download_one :=
  (URLDownloadTask.download_one urlparse sha1_hexdigest guess_extension
     get_content_mimetype match_attachment requests_get).

(** The schemes that the partial fetch of the resolver knows. *)
Definition fetchable_schemes : list string := ["http"; "https"; "file"; ""].

(** A URL without a query whose path has a telling extension is trusted,
    whatever its scheme; nothing is fetched. *)
Lemma guess_trusts_simple_url url w :
  query (urlparse url) = "" ->
  snd (splitext (path (urlparse url))) ∉ bad_extensions ->
  guess_url_file_extension url w
  = (Ok (Some (snd (splitext (path (urlparse url))))), emit (EvLog "URL says") w).
Proof.
  intros Hq Hext. unfold guess_url_file_extension.
  rewrite Hq. simpl.
  rewrite bool_decide_eq_false_2 by done. reflexivity.
Qed.

(** C9, amended. A URL whose scheme is none of http, https, file and the
    empty one makes the resolver raise ValueError, before anything is
    fetched, when it has a query string or when the extension of its
    path is one of the meaningless ones; when it has no query string and
    its path has another extension, the resolver returns that extension,
    whatever the scheme. *)
Theorem guess_url_file_extension_unknown_scheme url w :
  scheme (urlparse url) ∉ fetchable_schemes ->
  (query (urlparse url) <> "" \/
   snd (splitext (path (urlparse url))) ∈ bad_extensions ->
   guess_url_file_extension url w
   = (Raise (ValueError ("Unknown scheme " +:+ scheme (urlparse url) +:+ ": " +:+ url)), w)) /\
  (query (urlparse url) = "" ->
   snd (splitext (path (urlparse url))) ∉ bad_extensions ->
   guess_url_file_extension url w
   = (Ok (Some (snd (splitext (path (urlparse url))))), emit (EvLog "URL says") w)).
Proof.
  intros Hscheme. split; [|apply guess_trusts_simple_url].
  intros Hhard. unfold guess_url_file_extension.
  assert (Hguard : (String.eqb (query (urlparse url)) "" &&
            negb (bool_decide (snd (splitext (path (urlparse url))) ∈ bad_extensions)))%bool
          = false).
  { destruct Hhard as [Hq|Hext].
    - apply String.eqb_neq in Hq. by rewrite Hq.
    - rewrite (bool_decide_eq_true_2 _ Hext). apply andb_false_r. }
  rewrite Hguard.
  unfold fetchable_schemes in Hscheme.
  apply not_elem_of_cons in Hscheme as [Hhttp Hscheme].
  apply not_elem_of_cons in Hscheme as [Hhttps Hscheme].
  rewrite bool_decide_eq_false_2.
  - by rewrite (bool_decide_eq_false_2 _ Hscheme).
  - intros Hin. apply elem_of_cons in Hin as [?|Hin]; [done|].
    apply elem_of_cons in Hin as [?|Hin]; [done|]. by apply elem_of_nil in Hin.
Qed.





End TransferProperties.

(** A small network for the examples. *)
Module Net.

Definition guess_extension (mime : string) : option string :=
  if String.eqb mime "text/csv" then Some ".csv"
  else if String.eqb mime "application/zip" then Some ".zip"
  else if String.eqb mime "application/x-zip-compressed" then Some ".zip"
  else if String.eqb mime "application/json" then Some ".json"
  else None.

Definition get_content_mimetype (chunk : list byte) : string :=
  match chunk with
  | x50 :: x4b :: _ => "application/zip"
  | _ => "text/plain"
  end.

Definition match_attachment (header : string) : option string :=
  if String.prefix "attachment; filename=" header
  then Some (String.substring 21 (String.length header - 21) header)
  else None.

Definition bytes (s : string) : list byte := list_byte_of_string s.

(** A server that answers every request with the same status and body. *)
Definition always (status : Z) (body : string) : nat -> string -> Reply HttpResponse :=
  fun _ _ => Responds (mkHttpResponse status ∅ (bytes body)).

Definition workdir : World := mkWorld ∅ {[ "/work/http" ]} 0 [].

Definition download_one (server : nat -> string -> Reply HttpResponse) :=
  URLDownloadTask.download_one Urls.urlparse Urls.text_digest guess_extension
    get_content_mimetype match_attachment server.

Definition guess_url_file_extension (server : nat -> string -> Reply HttpResponse) :=
  guess_url_file_extension Urls.urlparse guess_extension
    get_content_mimetype match_attachment server.

End Net.

(** C9, as stated, fails: an ftp URL with a telling extension is resolved
    from its path, although ftp is none of the four schemes. *)
Lemma guess_url_file_extension_ftp_resolves :
  (scheme (Urls.urlparse "ftp://ftp.example.com/pub/addresses.zip") ∉ fetchable_schemes) /\
  Net.guess_url_file_extension (Net.always 200 "") "ftp://ftp.example.com/pub/addresses.zip"
    Net.workdir
  = (Ok (Some ".zip"), emit (EvLog "URL says") Net.workdir).
Proof.
  split; [|reflexivity].
  vm_compute. intros Hin.
  repeat (apply elem_of_cons in Hin as [Hin|Hin]; [discriminate|]).
  by apply elem_of_nil in Hin.
Qed.

(** An ftp URL whose path has no extension is refused. *)
Lemma guess_url_file_extension_unknown_scheme_witness :
  (scheme (Urls.urlparse "ftp://ftp.example.com/pub/addresses") ∉ fetchable_schemes) /\
  Net.guess_url_file_extension (Net.always 200 "") "ftp://ftp.example.com/pub/addresses"
    Net.workdir
  = (Raise (ValueError "Unknown scheme ftp: ftp://ftp.example.com/pub/addresses"),
     Net.workdir).
Proof.
  assert (Hscheme : scheme (Urls.urlparse "ftp://ftp.example.com/pub/addresses")
                    ∉ fetchable_schemes).
  { vm_compute. intros Hin.
    repeat (apply elem_of_cons in Hin as [Hin|Hin]; [discriminate|]).
    by apply elem_of_nil in Hin. }
  split; [exact Hscheme|].
  apply (guess_url_file_extension_unknown_scheme Urls.urlparse Net.guess_extension
           Net.get_content_mimetype Net.match_attachment (Net.always 200 "")
           "ftp://ftp.example.com/pub/addresses" Net.workdir Hscheme).
  right. vm_compute. apply elem_of_cons. by left.
Defined.




(** What the resolver raises on its own request is raised as it is: for a
    URL with a query and a server that cannot be reached, the download
    ends with the exception of the requests package, and no DownloadError
    is around it. *)
Lemma download_one_resolver_failure :
  fst (Net.download_one (fun _ _ => Fails "connection refused") None "/work/http"
         "http://data.example.com/export?format=zip" Net.workdir)
  = Raise (RequestException "connection refused").
Proof. reflexivity. Qed.

(** ** The ESRI pagination engine *)

Lemma bind_Ok {A B} (m : M A) (k : A -> M B) w b w' :
  bind m k w = (Ok b, w') ->
  exists a w1, m w = (Ok a, w1) /\ k a w1 = (Ok b, w').
Proof.
  unfold bind. destruct (m w) as [[a|e|] w1]; intros Heq; try discriminate.
  by exists a, w1.
Qed.

Lemma bind_run {A B} (m : M A) (k : A -> M B) w a w1 :
  m w = (Ok a, w1) -> bind m k w = k a w1.
Proof. intros Hm. unfold bind. by rewrite Hm. Qed.

Lemma bind_raise {A B} (m : M A) (k : A -> M B) w e w1 :
  m w = (Raise e, w1) -> bind m k w = (Raise e, w1).
Proof. intros Hm. unfold bind. by rewrite Hm. Qed.

(** A computation that only computes: it leaves the world alone, and its
    outcome does not depend on the world. *)
Definition pure {A} (m : M A) : Prop :=
  exists o : outcome A, forall w, m w = (o, w).

Lemma pure_ret {A} (a : A) : pure (ret a).
Proof. by exists (Ok a). Qed.

Lemma pure_raise {A} (e : exn) : pure (@raise A e).
Proof. by exists (Raise e). Qed.

Lemma pure_lift_option {A} (o : option A) e : pure (lift_option o e).
Proof. destruct o; [apply pure_ret | apply pure_raise]. Qed.

Lemma pure_bind {A B} (m : M A) (k : A -> M B) :
  pure m -> (forall a, pure (k a)) -> pure (bind m k).
Proof.
  intros [o Ho] Hk. destruct o as [a|e|].
  - destruct (Hk a) as [o' Ho']. exists o'. intros w.
    unfold bind. by rewrite Ho.
  - exists (Raise e). intros w. unfold bind. by rewrite Ho.
  - exists OutOfFuel. intros w. unfold bind. by rewrite Ho.
Qed.

Lemma pure_world {A} (m : M A) w o w' : pure m -> m w = (o, w') -> w' = w.
Proof. intros [o' Ho'] Hm. rewrite Ho' in Hm. congruence. Qed.

Lemma pure_anywhere {A} (m : M A) w1 w2 o w' :
  pure m -> m w1 = (o, w') -> m w2 = (o, w2).
Proof. intros [o' Ho'] Hm. rewrite Ho' in Hm. rewrite Ho'. congruence. Qed.

Section EsriProperties.

Import EsriRestDownloadTask.

Context {num : Type} `{Float num}.

Abbreviation Value := (@Value num).
Abbreviation Row := (gmap string Value).
Abbreviation Feature := (@Feature num).
Abbreviation Payload := (@Payload num).
Abbreviation EsriResponse := (@EsriResponse num).
Abbreviation BBox := (@BBox num).
Abbreviation OgrGeometry := (@OgrGeometry num).
Abbreviation EsriGeometry := (@EsriGeometry num).
Abbreviation GeometryEntry := (@GeometryEntry num).

Variable Centroid : OgrGeometry -> string + num * num.
Variable GetEnvelope : OgrGeometry -> num * num * num * num.
Variable X_FIELDNAME Y_FIELDNAME : string.
Variable requests_get : nat -> string -> list (string * string) -> Reply EsriResponse.
Variable source_url : string.
Variable objectid_fieldname : string.
Variable max_record_count : Z.

Abbreviation query_loop := (query_loop requests_get source_url).
Abbreviation set_centroid := (set_centroid Centroid GetEnvelope X_FIELDNAME Y_FIELDNAME).
Abbreviation collect_rows :=
  (collect_rows Centroid GetEnvelope X_FIELDNAME Y_FIELDNAME objectid_fieldname).
Abbreviation get_bbox :=
  (get_bbox Centroid GetEnvelope X_FIELDNAME Y_FIELDNAME requests_get source_url
     objectid_fieldname max_record_count).

(** *** The retry loop *)

(** The failures of an attempt that the loop retries: a status other than
    200, a payload with an error object, a body that does not parse. *)
Definition failed (response : EsriResponse) : Prop :=
  esri_status response <> 200 \/
  esri_json response = None \/
  exists payload error,
    esri_json response = Some payload /\
    p_error payload = Some error /\
    truthy_error error = true.

Definition succeeded (response : EsriResponse) : Prop :=
  esri_status response = 200 /\
  exists payload,
    esri_json response = Some payload /\
    (p_error payload = None \/
     exists error, p_error payload = Some error /\ truthy_error error = false).

Lemma check_response_failed response w :
  failed response ->
  exists kind cause, check_response response w = (Raise (DownloadError kind cause), w).
Proof.
  intros Hfail. unfold check_response.
  destruct (esri_status response =? 200) eqn:Hstatus; simpl; [|by eauto].
  apply Z.eqb_eq in Hstatus.
  destruct Hfail as [Hne | [Hnone | (payload & error & Hp & He & Ht)]];
    [done | |].
  - rewrite Hnone. run. eauto.
  - rewrite Hp. run. rewrite He, Ht.
    destruct (err_message error); run; eauto.
Qed.

Lemma check_response_succeeded response w :
  succeeded response -> check_response response w = (Ok tt, w).
Proof.
  intros (Hstatus & payload & Hp & Herr). unfold check_response.
  rewrite Hstatus. simpl. rewrite Hp. run.
  destruct Herr as [-> | (error & -> & ->)]; reflexivity.
Qed.

(** The world after an attempt that failed. *)
Definition retried (args : list (string * string)) (w : World) : World :=
  emit (EvSleep 1)
    (emit (EvLog "Retrying after download error")
       (emit (EvRequest (source_url +:+ "/query") args) (tick w))).

(** The world after an attempt that succeeded. *)
Definition answered (args : list (string * string)) (w : World) : World :=
  emit (EvRequest (source_url +:+ "/query") args) (tick w).

Lemma query_loop_unfold_body args tries response :
  query_loop args tries response =
  if Z_le_dec 0 tries then
    (r <- esri_get requests_get (source_url +:+ "/query") args ;;
     try_except
       (check_response r ;;; ret r)
       (fun e =>
          if is_DownloadError e then
            logging "Retrying after download error" ;;;
            sleep 1 ;;;
            query_loop args (tries - 1) (Some r)
          else raise e))%py
  else lift_option response (UnboundLocalError "response").
Proof.
  rewrite query_loop_equation_1.
  destruct (Z_le_dec 0 tries); reflexivity.
Qed.

Lemma query_loop_retries args tries response r w :
  0 <= tries ->
  requests_get (requests w) (source_url +:+ "/query") args = Responds r ->
  failed r ->
  query_loop args tries response w
  = query_loop args (tries - 1) (Some r) (retried args w).
Proof.
  intros Htries Hget Hfail.
  rewrite query_loop_unfold_body.
  destruct (Z_le_dec 0 tries); [|lia].
  unfold bind at 1, esri_get. rewrite Hget.
  destruct (check_response_failed r
              (emit (EvRequest (source_url +:+ "/query") args) (tick w)) Hfail)
    as (kind & cause & Hcheck).
  unfold try_except, bind at 1. rewrite Hcheck. reflexivity.
Qed.

Lemma query_loop_breaks args tries response r w :
  0 <= tries ->
  requests_get (requests w) (source_url +:+ "/query") args = Responds r ->
  succeeded r ->
  query_loop args tries response w = (Ok r, answered args w).
Proof.
  intros Htries Hget Hok.
  rewrite query_loop_unfold_body.
  destruct (Z_le_dec 0 tries); [|lia].
  unfold bind at 1, esri_get. rewrite Hget.
  unfold try_except, bind at 1.
  by rewrite (check_response_succeeded r _ Hok).
Qed.

Lemma query_loop_exits args tries r w :
  tries < 0 -> query_loop args tries (Some r) w = (Ok r, w).
Proof.
  intros Htries. rewrite query_loop_unfold_body.
  destruct (Z_le_dec 0 tries); [lia|reflexivity].
Qed.

(** An exception of the transport leaves the loop at once. *)
Lemma query_loop_transport_failure args tries response msg w :
  0 <= tries ->
  requests_get (requests w) (source_url +:+ "/query") args = Fails msg ->
  query_loop args tries response w
  = (Raise (RequestException msg), answered args w).
Proof.
  intros Htries Hget.
  rewrite query_loop_unfold_body.
  destruct (Z_le_dec 0 tries); [|lia].
  unfold bind at 1, esri_get. by rewrite Hget.
Qed.

Lemma requests_retried args w : requests (retried args w) = S (requests w).
Proof. reflexivity. Qed.

(** C1. The query loop of a tile, as the code has it: when four attempts in
    a row fail, the loop has made four requests and slept four times, and
    it ends without an exception, with the response of the fourth attempt
    as its result; no DownloadError reaches the caller. *)
Theorem query_loop_four_attempts args w r0 r1 r2 r3 :
  let url := source_url +:+ "/query" in
  requests_get (requests w) url args = Responds r0 -> failed r0 ->
  requests_get (S (requests w)) url args = Responds r1 -> failed r1 ->
  requests_get (S (S (requests w))) url args = Responds r2 -> failed r2 ->
  requests_get (S (S (S (requests w)))) url args = Responds r3 -> failed r3 ->
  query_loop args 3 None w
  = (Ok r3, retried args (retried args (retried args (retried args w)))).
Proof.
  intros url G0 F0 G1 F1 G2 F2 G3 F3. subst url.
  rewrite (query_loop_retries args 3 None r0 w) by (lia || done).
  rewrite (query_loop_retries args (3 - 1) (Some r0) r1) by (lia || done).
  rewrite (query_loop_retries args (3 - 1 - 1) (Some r1) r2) by (lia || done).
  rewrite (query_loop_retries args (3 - 1 - 1 - 1) (Some r2) r3) by (lia || done).
  apply query_loop_exits. lia.
Qed.

(** Two failures and then a success: three requests, two sleeps, and the
    third response is the result. *)
Lemma query_loop_third_attempt args w r0 r1 r2 :
  let url := source_url +:+ "/query" in
  requests_get (requests w) url args = Responds r0 -> failed r0 ->
  requests_get (S (requests w)) url args = Responds r1 -> failed r1 ->
  requests_get (S (S (requests w))) url args = Responds r2 -> succeeded r2 ->
  query_loop args 3 None w
  = (Ok r2, answered args (retried args (retried args w))).
Proof.
  intros url G0 F0 G1 F1 G2 F2. subst url.
  rewrite (query_loop_retries args 3 None r0 w) by (lia || done).
  rewrite (query_loop_retries args (3 - 1) (Some r0) r1) by (lia || done).
  apply query_loop_breaks; [lia | done | done].
Qed.

(** *** Building geometries only computes *)

Lemma pure_xy (pt : list num) : pure (xy pt).
Proof. destruct pt as [|x [|y pt]]; (apply pure_ret || apply pure_raise). Qed.

Lemma pure_add_points (pts : list (list num)) : pure (add_points pts).
Proof.
  induction pts as [|pt pts IH]; simpl; [apply pure_ret|].
  apply pure_bind; [apply pure_xy|]. intros p.
  apply pure_bind; [exact IH|]. intros ps. apply pure_ret.
Qed.

Lemma pure_add_parts (parts : list (list (list num))) : pure (add_parts parts).
Proof.
  induction parts as [|part parts IH]; simpl; [apply pure_ret|].
  apply pure_bind; [apply pure_add_points|]. intros p.
  apply pure_bind; [exact IH|]. intros ps. apply pure_ret.
Qed.

Lemma pure_geometry_item {A} (entry : GeometryEntry)
    (get : EsriGeometry -> option A) key :
  pure (geometry_item entry get key).
Proof. destruct entry; [apply pure_lift_option | apply pure_raise]. Qed.

Lemma pure_build_ogr_geometry geom_type (entry : option GeometryEntry) :
  pure (build_ogr_geometry geom_type entry).
Proof.
  unfold build_ogr_geometry. destruct entry as [g|]; [|apply pure_raise].
  repeat case_bool_decide;
    repeat first [ apply pure_ret | apply pure_raise | apply pure_geometry_item
                 | apply pure_add_points | apply pure_add_parts
                 | apply pure_bind; [|intros ?] ].
Qed.

Lemma pure_set_centroid (ogr_geom : OgrGeometry) (row : Row) : pure (set_centroid ogr_geom row).
Proof.
  unfold set_centroid. destruct (Centroid ogr_geom) as [msg|[cx cy]].
  - destruct (negb (contains linear_ring_message msg)); [apply pure_raise|].
    destruct (GetEnvelope ogr_geom) as [[[? ?] ?] ?]. apply pure_ret.
  - apply pure_ret.
Qed.

(** *** What a retained row looks like *)

Definition row_id (row : Row) : option Value := row !! objectid_fieldname.

(** The object identifiers of the rows of a list. *)
Definition retained_ids (rows : list Row) : list Value := omap row_id rows.

(** A row whose X and Y columns hold floats. *)
Definition located (row : Row) : Prop :=
  (exists x, row !! X_FIELDNAME = Some (VFloat x)) /\
  (exists y, row !! Y_FIELDNAME = Some (VFloat y)).

Lemma set_centroid_Ok (ogr_geom : OgrGeometry) (row row' : Row) w w' :
  set_centroid ogr_geom row w = (Ok row', w') ->
  w' = w /\ located row' /\
  (forall key, key <> X_FIELDNAME -> key <> Y_FIELDNAME -> row' !! key = row !! key).
Proof.
  unfold set_centroid.
  assert (Hshape : forall x y : num,
    located (<[Y_FIELDNAME := VFloat y]> (<[X_FIELDNAME := VFloat x]> row)) /\
    (forall key, key <> X_FIELDNAME -> key <> Y_FIELDNAME ->
       <[Y_FIELDNAME := VFloat y]> (<[X_FIELDNAME := VFloat x]> row) !! key = row !! key)).
  { intros x y. split; [split|].
    - destruct (decide (X_FIELDNAME = Y_FIELDNAME)) as [->|Hne].
      + exists y. apply lookup_insert_eq.
      + exists x. rewrite lookup_insert_ne by done. apply lookup_insert_eq.
    - exists y. apply lookup_insert_eq.
    - intros key Hx Hy. by rewrite !lookup_insert_ne. }
  destruct (Centroid ogr_geom) as [msg|[cx cy]].
  - destruct (negb (contains linear_ring_message msg)); [discriminate|].
    destruct (GetEnvelope ogr_geom) as [[[x0 x1] y0] y1].
    intros [= <- <-]. split; [done|]. apply Hshape.
  - intros [= <- <-]. split; [done|]. apply Hshape.
Qed.

(** *** De-duplication *)

(** [fresh ids rows ids']: every row has an identifier, no identifier occurs
    twice, none was in [ids], and [ids'] is [ids] plus these identifiers. *)
Record fresh (ids : gset Value) (rows : list Row) (ids' : gset Value) : Prop := {
  fresh_has_id : Forall (fun row => is_Some (row_id row)) rows;
  fresh_NoDup : NoDup (retained_ids rows);
  fresh_unseen : forall v, v ∈ retained_ids rows -> v ∉ ids;
  fresh_registered : ids' = list_to_set (retained_ids rows) ∪ ids
}.

Lemma fresh_nil ids : fresh ids [] ids.
Proof.
  split; simpl.
  - constructor.
  - constructor.
  - intros v Hv. by apply elem_of_nil in Hv.
  - set_solver.
Qed.

Lemma retained_ids_app rows1 rows2 :
  retained_ids (rows1 ++ rows2) = retained_ids rows1 ++ retained_ids rows2.
Proof. unfold retained_ids. apply omap_app. Qed.

Lemma fresh_app ids rows1 ids1 rows2 ids2 :
  fresh ids rows1 ids1 -> fresh ids1 rows2 ids2 -> fresh ids (rows1 ++ rows2) ids2.
Proof.
  intros [Hid1 Hnd1 Hun1 Hreg1] [Hid2 Hnd2 Hun2 Hreg2]. split.
  - by apply Forall_app.
  - rewrite retained_ids_app. apply NoDup_app. repeat split; [done| |done].
    intros v Hv1 Hv2. apply (Hun2 v Hv2). subst ids1.
    apply elem_of_union_l. by apply elem_of_list_to_set.
  - intros v. rewrite retained_ids_app. intros Hv.
    apply elem_of_app in Hv as [Hv|Hv]; [by apply Hun1|].
    intros Hin. apply (Hun2 v Hv). subst ids1. by apply elem_of_union_r.
  - rewrite retained_ids_app, list_to_set_app_L. subst ids2 ids1.
    set_solver.
Qed.

Lemma fresh_singleton ids (row : Row) v :
  row_id row = Some v -> v ∉ ids -> fresh ids [row] ({[v]} ∪ ids).
Proof.
  intros Hid Hv. split; unfold retained_ids; simpl; rewrite ?Hid; simpl.
  - constructor; [by eexists | constructor].
  - apply NoDup_singleton.
  - intros v' Hv'. apply list_elem_of_singleton in Hv'. by subst.
  - set_solver.
Qed.

Lemma fresh_length ids rows ids' :
  fresh ids rows ids' -> List.length (retained_ids rows) = List.length rows.
Proof.
  intros [Hid _ _ _]. induction Hid as [|row rows [v Hv] _ IH]; [done|].
  change (retained_ids (row :: rows))
    with (from_option (fun v => v :: retained_ids rows) (retained_ids rows) (row_id row)).
  rewrite Hv. simpl. by rewrite IH.
Qed.

Lemma collect_rows_cons geometry_type (feature : Feature) rest ids acc :
  collect_rows geometry_type (feature :: rest) ids acc =
  (let row := default ∅ (attributes feature) in
   oid <- lift_option (row !! objectid_fieldname) (KeyError objectid_fieldname) ;;
   if bool_decide (oid ∈ ids) then collect_rows geometry_type rest ids acc
   else
     ogr_geom <- build_ogr_geometry geometry_type (feature_geometry feature) ;;
     row <- set_centroid ogr_geom row ;;
     added <- lift_option (row !! objectid_fieldname) (KeyError objectid_fieldname) ;;
     collect_rows geometry_type rest ({[added]} ∪ ids) (acc ++ [row]))%py.
Proof. reflexivity. Qed.

Lemma pure_collect_rows geometry_type (features : list Feature) ids acc :
  pure (collect_rows geometry_type features ids acc).
Proof.
  revert ids acc. induction features as [|feature rest IH]; intros ids acc.
  - apply pure_ret.
  - rewrite collect_rows_cons. cbv zeta.
    apply pure_bind; [apply pure_lift_option|]. intros oid.
    destruct (bool_decide (oid ∈ ids)); [apply IH|].
    apply pure_bind; [apply pure_build_ogr_geometry|]. intros ogr_geom.
    apply pure_bind; [apply pure_set_centroid|]. intros row.
    apply pure_bind; [apply pure_lift_option|]. intros added. apply IH.
Qed.

(** A feature whose identifier has been seen is skipped. *)
Lemma collect_rows_skips geometry_type (feature : Feature) rest ids acc oid w :
  default ∅ (attributes feature) !! objectid_fieldname = Some oid ->
  oid ∈ ids ->
  collect_rows geometry_type (feature :: rest) ids acc w
  = collect_rows geometry_type rest ids acc w.
Proof.
  intros Hoid Hseen. rewrite collect_rows_cons. cbv zeta.
  rewrite Hoid. run. by rewrite bool_decide_eq_true_2.
Qed.

Lemma collect_rows_all_seen geometry_type (features : list Feature) ids acc w :
  (forall feature, feature ∈ features ->
     exists oid, default ∅ (attributes feature) !! objectid_fieldname = Some oid /\
                 oid ∈ ids) ->
  collect_rows geometry_type features ids acc w = (Ok (acc, ids), w).
Proof.
  induction features as [|feature rest IH]; intros Hseen; [reflexivity|].
  destruct (Hseen feature) as (oid & Hoid & Hin); [apply elem_of_cons; by left|].
  rewrite (collect_rows_skips _ _ _ _ _ _ _ Hoid Hin).
  apply IH. intros f Hf. apply Hseen. apply elem_of_cons. by right.
Qed.

(** *** Geometry types that are not supported *)

Definition supported_geometry_types : list string :=
  ["esriGeometryPoint"; "esriGeometryMultipoint"; "esriGeometryPolygon";
   "esriGeometryPolyline"].

Definition unsupported (geometry_type : option string) : Prop :=
  forall t, t ∈ supported_geometry_types -> geometry_type <> Some t.

Lemma build_ogr_geometry_unsupported geometry_type (entry : GeometryEntry) w :
  unsupported geometry_type ->
  build_ogr_geometry geometry_type (Some entry) w
  = (Raise (KeyError "Don't know how to convert esri geometry type"), w).
Proof.
  intros Hun. unfold build_ogr_geometry.
  repeat (rewrite bool_decide_eq_false_2;
          [|apply Hun; unfold supported_geometry_types;
            repeat (first [apply list_elem_of_here | apply list_elem_of_further])]).
  reflexivity.
Qed.

(** The first feature that has not been seen and that has a geometry of a
    type that is not supported ends the loop over the features with a
    KeyError: the rows collected so far are lost with it. *)
Lemma collect_rows_unsupported_geometry geometry_type (feature : Feature) rest ids acc w
    oid (g : EsriGeometry) :
  unsupported geometry_type ->
  default ∅ (attributes feature) !! objectid_fieldname = Some oid ->
  oid ∉ ids ->
  geometry feature = Some g ->
  collect_rows geometry_type (feature :: rest) ids acc w
  = (Raise (KeyError "Don't know how to convert esri geometry type"), w).
Proof.
  intros Hun Hoid Hnew Hgeom. rewrite collect_rows_cons. cbv zeta.
  rewrite Hoid. rewrite (bind_run _ _ _ oid w) by reflexivity.
  rewrite bool_decide_eq_false_2 by done.
  unfold feature_geometry. rewrite Hgeom.
  change (GeomDict <$> Some g) with (Some (GeomDict g)).
  by rewrite (bind_raise _ _ _ _ _ (build_ogr_geometry_unsupported _ _ _ Hun)).
Qed.

(** *** The mean of the retained rows *)

Abbreviation mean_X := (mean X_FIELDNAME).
Abbreviation mean_Y := (mean Y_FIELDNAME).

Lemma mean_nil key w : mean key ([] : list Row) w = (Raise ZeroDivisionError, w).
Proof. reflexivity. Qed.

Lemma sum_column_floats key (rows : list Row) acc w :
  Forall (fun row => exists x, row !! key = Some (VFloat x)) rows ->
  exists total, sum_column key rows acc w = (Ok total, w).
Proof.
  intros Hrows. revert acc.
  induction Hrows as [|row rows [x Hx] _ IH]; intros acc; simpl.
  - by exists acc.
  - run. rewrite Hx. simpl. apply IH.
Qed.

Lemma mean_floats key (rows : list Row) w :
  Forall (fun row => exists x, row !! key = Some (VFloat x)) rows ->
  rows <> [] ->
  exists m, mean key rows w = (Ok m, w).
Proof.
  intros Hrows Hne. unfold mean.
  destruct (sum_column_floats key rows (of_Z 0) w Hrows) as [total Hsum].
  rewrite (bind_run _ _ _ _ _ Hsum).
  rewrite bool_decide_eq_false_2; [by eexists|].
  destruct rows; [done | discriminate].
Qed.

Lemma located_X (rows : list Row) :
  Forall located rows ->
  Forall (fun row => exists x, row !! X_FIELDNAME = Some (VFloat x)) rows.
Proof. intros Hl. eapply Forall_impl; [exact Hl|]. by intros row [? ?]. Qed.

Lemma located_Y (rows : list Row) :
  Forall located rows ->
  Forall (fun row => exists y, row !! Y_FIELDNAME = Some (VFloat y)) rows.
Proof. intros Hl. eapply Forall_impl; [exact Hl|]. by intros row [? ?]. Qed.

(** *** The two steps of [get_bbox] *)

(** The tile itself: its query, and the rows it retains. *)
Definition fetch_tile (ids : gset Value) (bbox : BBox)
    : M (list Feature * (list Row * gset Value)) :=
  (response <- query_loop (query_args bbox) 3 None ;;
   payload <- lift_option (esri_json response) (ValueError "No JSON object could be decoded") ;;
   features <- lift_option (p_features payload) (TypeError "object of type 'NoneType' has no len()") ;;
   collected <- collect_rows (p_geometryType payload) features ids [] ;;
   ret (features, collected))%py.

(** The four quadrants of a box around a pivot, in the order of the calls. *)
Definition quadrants (bbox : BBox) (mean_x mean_y : num) : list BBox :=
  [ {| xmin := xmin bbox; ymin := ymin bbox; xmax := mean_x;    ymax := mean_y |};
    {| xmin := mean_x;    ymin := ymin bbox; xmax := xmax bbox; ymax := mean_y |};
    {| xmin := xmin bbox; ymin := mean_y;    xmax := mean_x;    ymax := ymax bbox |};
    {| xmin := mean_x;    ymin := mean_y;    xmax := xmax bbox; ymax := ymax bbox |} ].

(** The calls of [get_bbox] on a list of boxes, one after the other, each
    extending the rows and handing the identifiers to the next. *)
Fixpoint visit (fuel : nat) (boxes : list BBox) (rows : list Row) (ids : gset Value)
    : M (list Row * gset Value) :=
  match boxes with
  | [] => ret (rows, ids)
  | bbox :: rest =>
      (q <- get_bbox fuel ids bbox ;;
       visit fuel rest (rows ++ fst q) (snd q))%py
  end.

Definition subdivide (fuel : nat) (bbox : BBox) (rows : list Row) (ids : gset Value)
    : M (list Row * gset Value) :=
  (mean_x <- mean_X rows ;;
   mean_y <- mean_Y rows ;;
   visit fuel (quadrants bbox mean_x mean_y) rows ids)%py.

Lemma get_bbox_steps fuel ids bbox w :
  get_bbox (S fuel) ids bbox w =
  (tile <- fetch_tile ids bbox ;;
   if max_record_count <=? Z.of_nat (List.length (fst tile))
   then subdivide fuel bbox (fst (snd tile)) (snd (snd tile))
   else ret (snd tile))%py w.
Proof.
  cbn [get_bbox]. unfold fetch_tile, subdivide, quadrants. cbn [visit].
  unfold bind, ret.
  repeat run_step.
  match goal with collected : (list Row * gset Value)%type |- _ =>
    destruct collected as [rows ids1] end.
  cbn [fst snd].
  match goal with |- context [max_record_count <=? ?n] =>
    destruct (max_record_count <=? n); [|reflexivity] end.
  repeat run_step.
Qed.

(** X23. A tile below the cap is complete: its own rows are the result, and
    the world is the one its own query left: no quadrant is asked for. *)
Lemma get_bbox_below_cap fuel ids bbox w features rows ids1 w1 :
  fetch_tile ids bbox w = (Ok (features, (rows, ids1)), w1) ->
  Z.of_nat (List.length features) < max_record_count ->
  get_bbox (S fuel) ids bbox w = (Ok (rows, ids1), w1).
Proof.
  intros Htile Hbelow. rewrite get_bbox_steps, (bind_run _ _ _ _ _ Htile).
  cbn [fst snd]. by rewrite (proj2 (Z.leb_gt _ _) Hbelow).
Qed.

(** A tile at the cap is subdivided. *)
Lemma get_bbox_at_cap fuel ids bbox w features rows ids1 w1 :
  fetch_tile ids bbox w = (Ok (features, (rows, ids1)), w1) ->
  max_record_count <= Z.of_nat (List.length features) ->
  get_bbox (S fuel) ids bbox w = subdivide fuel bbox rows ids1 w1.
Proof.
  intros Htile Hcap. rewrite get_bbox_steps, (bind_run _ _ _ _ _ Htile).
  cbn [fst snd]. by rewrite (proj2 (Z.leb_le _ _) Hcap).
Qed.

Lemma fetch_tile_located ids bbox w features rows ids1 w1 :
  fetch_tile ids bbox w = (Ok (features, (rows, ids1)), w1) ->
  Forall located rows.
Proof.
  unfold fetch_tile. intros Hrun.
  apply bind_Ok in Hrun as (response & w2 & _ & Hrun).
  apply bind_Ok in Hrun as (payload & w3 & _ & Hrun).
  apply bind_Ok in Hrun as (fs & w4 & _ & Hrun).
  apply bind_Ok in Hrun as ([rows' ids'] & w5 & Hcollect & Hrun).
  injection Hrun as <- <- <- <-.
  clear -Hcollect. revert Hcollect.
  assert (Hacc : Forall located ([] : list Row)) by constructor.
  revert Hacc. generalize ([] : list Row) as acc. revert ids w4.
  induction fs as [|feature rest IH]; intros ids w acc Hacc.
  - by intros [= <- <- <-].
  - rewrite collect_rows_cons. cbv zeta. intros Hrun.
    apply bind_Ok in Hrun as (oid & wa & _ & Hrun).
    destruct (bool_decide (oid ∈ ids)); [by apply IH in Hrun|].
    apply bind_Ok in Hrun as (ogr_geom & wb & _ & Hrun).
    apply bind_Ok in Hrun as (row & wc & Hcentroid & Hrun).
    apply set_centroid_Ok in Hcentroid as (_ & Hlocated & _).
    apply bind_Ok in Hrun as (added & wd & _ & Hrun).
    apply IH in Hrun; [done|]. apply Forall_app. split; [done|]. by constructor.
Qed.

(** X24. When the tile at the cap has retained a row, the pivot is the mean
    of its rows, and [get_bbox] calls itself on the four quadrants around it,
    in this order, and on nothing else; the rows of the four calls follow
    the rows of the tile. *)
Lemma get_bbox_four_quadrants fuel ids bbox w features rows ids1 w1 :
  fetch_tile ids bbox w = (Ok (features, (rows, ids1)), w1) ->
  max_record_count <= Z.of_nat (List.length features) ->
  rows <> [] ->
  exists mean_x mean_y,
    mean_X rows w1 = (Ok mean_x, w1) /\
    mean_Y rows w1 = (Ok mean_y, w1) /\
    get_bbox (S fuel) ids bbox w
    = visit fuel (quadrants bbox mean_x mean_y) rows ids1 w1.
Proof.
  intros Htile Hcap Hne.
  pose proof (fetch_tile_located _ _ _ _ _ _ _ Htile) as Hloc.
  destruct (mean_floats X_FIELDNAME rows w1 (located_X _ Hloc) Hne) as [mean_x Hx].
  destruct (mean_floats Y_FIELDNAME rows w1 (located_Y _ Hloc) Hne) as [mean_y Hy].
  exists mean_x, mean_y. split; [done|]. split; [done|].
  rewrite (get_bbox_at_cap _ _ _ _ _ _ _ _ Htile Hcap). unfold subdivide.
  by rewrite (bind_run _ _ _ _ _ Hx), (bind_run _ _ _ _ _ Hy).
Qed.


Lemma visit_extends fuel boxes (rows : list Row) ids w res ids' w' :
  visit fuel boxes rows ids w = (Ok (res, ids'), w') ->
  exists more, res = rows ++ more.
Proof.
  revert rows ids w. induction boxes as [|bbox rest IH]; intros rows ids w; simpl.
  - intros [= <- <- <-]. exists []. by rewrite app_nil_r.
  - intros Hrun. apply bind_Ok in Hrun as (q & w1 & _ & Hrun).
    apply IH in Hrun as [more ->]. exists (fst q ++ more). by rewrite app_assoc.
Qed.

(** The rows that a tile retains are rows of the result of its call. *)
Lemma get_bbox_keeps_tile_rows fuel ids bbox w features rows ids1 w1 res ids' w' :
  fetch_tile ids bbox w = (Ok (features, (rows, ids1)), w1) ->
  get_bbox (S fuel) ids bbox w = (Ok (res, ids'), w') ->
  exists more, res = rows ++ more.
Proof.
  intros Htile. rewrite get_bbox_steps, (bind_run _ _ _ _ _ Htile). cbn [fst snd].
  destruct (max_record_count <=? Z.of_nat (List.length features)).
  - unfold subdivide. intros Hrun.
    apply bind_Ok in Hrun as (mean_x & w2 & _ & Hrun).
    apply bind_Ok in Hrun as (mean_y & w3 & _ & Hrun).
    by apply visit_extends in Hrun.
  - intros [= <- <- <-]. exists []. by rewrite app_nil_r.
Qed.

(** An exception of a call on a quadrant is the outcome of the whole
    visit: nothing catches it. *)
Lemma visit_raises fuel before bbox after (rows : list Row) ids w rows1 ids1 w1 e w2 :
  visit fuel before rows ids w = (Ok (rows1, ids1), w1) ->
  get_bbox fuel ids1 bbox w1 = (Raise e, w2) ->
  visit fuel (before ++ bbox :: after) rows ids w = (Raise e, w2).
Proof.
  revert rows ids w. induction before as [|b before IH]; intros rows ids w; simpl.
  - intros [= <- <- <-] Hraise. by rewrite (bind_raise _ _ _ _ _ Hraise).
  - intros Hrun Hraise. apply bind_Ok in Hrun as (q & w3 & Hq & Hrun).
    rewrite (bind_run _ _ _ _ _ Hq). by apply IH.
Qed.

(** What a call on a quadrant raises is what the call on the tile raises. *)
Lemma get_bbox_raises_from_quadrant fuel ids bbox w features rows ids1 w1
    mean_x mean_y before quadrant after rows2 ids2 w2 e w3 :
  fetch_tile ids bbox w = (Ok (features, (rows, ids1)), w1) ->
  max_record_count <= Z.of_nat (List.length features) ->
  mean_X rows w1 = (Ok mean_x, w1) ->
  mean_Y rows w1 = (Ok mean_y, w1) ->
  quadrants bbox mean_x mean_y = before ++ quadrant :: after ->
  visit fuel before rows ids1 w1 = (Ok (rows2, ids2), w2) ->
  get_bbox fuel ids2 quadrant w2 = (Raise e, w3) ->
  get_bbox (S fuel) ids bbox w = (Raise e, w3).
Proof.
  intros Htile Hcap Hx Hy Hsplit Hbefore Hraise.
  rewrite (get_bbox_at_cap _ _ _ _ _ _ _ _ Htile Hcap). unfold subdivide.
  rewrite (bind_run _ _ _ _ _ Hx), (bind_run _ _ _ _ _ Hy), Hsplit.
  by apply (visit_raises fuel before quadrant after rows ids1 w1 rows2 ids2 w2).
Qed.

(** C10. A tile whose query returns at least [max_record_count] features,
    every one with an identifier that is already in the set: no row is
    retained, the mean divides by the number of retained rows, which is
    zero, and the call raises ZeroDivisionError, which is no DownloadError;
    no request follows the query of the tile. *)
Theorem get_bbox_division_by_zero fuel ids bbox w response payload features w1 :
  query_loop (query_args bbox) 3 None w = (Ok response, w1) ->
  esri_json response = Some payload ->
  p_features payload = Some features ->
  max_record_count <= Z.of_nat (List.length features) ->
  (forall feature, feature ∈ features ->
     exists oid, default ∅ (attributes feature) !! objectid_fieldname = Some oid /\
                 oid ∈ ids) ->
  get_bbox (S fuel) ids bbox w = (Raise ZeroDivisionError, w1) /\
  is_DownloadError ZeroDivisionError = false.
Proof.
  intros Hquery Hjson Hfeatures Hcap Hseen. split; [|reflexivity].
  assert (Htile : fetch_tile ids bbox w = (Ok (features, ([], ids)), w1)).
  { unfold fetch_tile. rewrite (bind_run _ _ _ _ _ Hquery).
    rewrite Hjson. run. rewrite Hfeatures. run.
    by rewrite (collect_rows_all_seen _ _ _ _ _ Hseen). }
  rewrite (get_bbox_at_cap _ _ _ _ _ _ _ _ Htile Hcap).
  unfold subdivide. by rewrite (bind_raise _ _ _ _ _ (mean_nil _ _)).
Qed.


Section Deduplication.

(** The derived columns are no identifier column. *)
Hypothesis objectid_not_X : objectid_fieldname <> X_FIELDNAME.
Hypothesis objectid_not_Y : objectid_fieldname <> Y_FIELDNAME.

Lemma collect_rows_fresh geometry_type (features : list Feature) ids acc w rows ids' w' :
  collect_rows geometry_type features ids acc w = (Ok (rows, ids'), w') ->
  exists new, rows = acc ++ new /\ fresh ids new ids' /\ Forall located new /\ w' = w.
Proof.
  revert ids acc w. induction features as [|feature rest IH]; intros ids acc w.
  - intros [= <- <- <-]. exists []. rewrite app_nil_r.
    split; [done|]. split; [apply fresh_nil|]. split; [constructor | done].
  - rewrite collect_rows_cons. cbv zeta. intros Hrun.
    apply bind_Ok in Hrun as (oid & w1 & Hoid & Hrun).
    destruct (default ∅ (attributes feature) !! objectid_fieldname) as [oid'|] eqn:Hrow;
      [|discriminate].
    injection Hoid as <- <-.
    destruct (bool_decide (oid' ∈ ids)) eqn:Hseen; [by apply IH in Hrun|].
    apply bool_decide_eq_false_1 in Hseen.
    apply bind_Ok in Hrun as (ogr_geom & w2 & Hgeom & Hrun).
    apply (pure_world _ _ _ _ (pure_build_ogr_geometry _ _)) in Hgeom as ->.
    apply bind_Ok in Hrun as (row & w3 & Hcentroid & Hrun).
    apply set_centroid_Ok in Hcentroid as (-> & Hlocated & Hkeep).
    apply bind_Ok in Hrun as (added & w4 & Hadded & Hrun).
    rewrite (Hkeep objectid_fieldname objectid_not_X objectid_not_Y), Hrow in Hadded.
    injection Hadded as <- <-.
    apply IH in Hrun as (new & -> & Hfresh & Hloc & ->).
    exists (row :: new). split; [by rewrite <- app_assoc|].
    split; [|split; [by constructor | done]].
    apply (fresh_app ids [row] ({[oid']} ∪ ids)); [|done].
    apply fresh_singleton; [|done].
    unfold row_id. by rewrite (Hkeep objectid_fieldname objectid_not_X objectid_not_Y).
Qed.

Lemma fetch_tile_fresh ids bbox w features rows ids1 w1 :
  fetch_tile ids bbox w = (Ok (features, (rows, ids1)), w1) ->
  fresh ids rows ids1.
Proof.
  unfold fetch_tile. intros Hrun.
  apply bind_Ok in Hrun as (response & w2 & _ & Hrun).
  apply bind_Ok in Hrun as (payload & w3 & _ & Hrun).
  apply bind_Ok in Hrun as (fs & w4 & _ & Hrun).
  apply bind_Ok in Hrun as ([rows' ids'] & w5 & Hcollect & Hrun).
  injection Hrun as <- <- <- <-.
  by apply collect_rows_fresh in Hcollect as (new & -> & Hfresh & _ & _).
Qed.

Lemma visit_fresh fuel ids0 boxes (rows : list Row) ids w res ids' w' :
  (forall ids bbox w rows ids' w',
     get_bbox fuel ids bbox w = (Ok (rows, ids'), w') -> fresh ids rows ids') ->
  fresh ids0 rows ids ->
  visit fuel boxes rows ids w = (Ok (res, ids'), w') ->
  fresh ids0 res ids'.
Proof.
  intros IHfuel. revert rows ids w.
  induction boxes as [|bbox rest IH]; intros rows ids w Hfresh; simpl.
  - by intros [= <- <- <-].
  - intros Hrun. apply bind_Ok in Hrun as ([rows1 ids1] & w1 & Hq & Hrun).
    apply IHfuel in Hq. apply IH in Hrun; [done|].
    by apply (fresh_app ids0 rows ids).
Qed.

Lemma get_bbox_fresh fuel ids bbox w rows ids' w' :
  get_bbox fuel ids bbox w = (Ok (rows, ids'), w') -> fresh ids rows ids'.
Proof.
  revert ids bbox w rows ids' w'.
  induction fuel as [|fuel IH]; intros ids bbox w rows ids' w'; [discriminate|].
  rewrite get_bbox_steps. intros Hrun.
  apply bind_Ok in Hrun as ([features [rows0 ids0]] & w1 & Htile & Hrun).
  apply fetch_tile_fresh in Htile. cbn [fst snd] in Hrun.
  destruct (max_record_count <=? Z.of_nat (List.length features)).
  - unfold subdivide in Hrun.
    apply bind_Ok in Hrun as (mean_x & w2 & _ & Hrun).
    apply bind_Ok in Hrun as (mean_y & w3 & _ & Hrun).
    by apply (visit_fresh fuel ids _ _ _ _ _ _ _ IH Htile) in Hrun.
  - by injection Hrun as <- <- <-.
Qed.

(** C3, amended. For a layer whose object-id field has neither the name of
    the X column nor that of the Y column: whatever the server answers and
    however deep the recursion goes, when [get_bbox] returns, every row it
    returns has an object identifier,
    no identifier is that of two rows, none was in the set of identifiers
    when the call began, and the set is now the former set with the
    identifiers of the rows. *)
Theorem get_bbox_retains_each_id_once fuel ids bbox w rows ids' w' :
  get_bbox fuel ids bbox w = (Ok (rows, ids'), w') ->
  List.length (retained_ids rows) = List.length rows /\
  NoDup (retained_ids rows) /\
  (forall v, v ∈ retained_ids rows -> v ∉ ids) /\
  ids' = list_to_set (retained_ids rows) ∪ ids.
Proof.
  intros Hrun. apply get_bbox_fresh in Hrun.
  split; [by apply (fresh_length ids rows ids')|].
  by destruct Hrun.
Qed.

End Deduplication.

End EsriProperties.

(** *** The metadata of a layer, and the writing of the rows *)

Section AcquisitionProperties.

Import EsriRestDownloadTask.

Context {num : Type} `{Float num}.

Abbreviation Value := (@Value num).
Abbreviation Row := (gmap string Value).
Abbreviation Feature := (@Feature num).
Abbreviation Payload := (@Payload num).
Abbreviation EsriResponse := (@EsriResponse num).
Abbreviation OgrGeometry := (@OgrGeometry num).

Variable Centroid : OgrGeometry -> string + num * num.
Variable GetEnvelope : OgrGeometry -> num * num * num * num.
Variable ExportToWkt : OgrGeometry -> string.
Variable Transform : Z -> Z -> OgrGeometry -> OgrGeometry.
Variable X_FIELDNAME Y_FIELDNAME GEOM_FIELDNAME : string.
Variable csv_header : list string -> list byte.
Variable csv_row : list string -> Row -> list byte.
Variable urlparse : string -> ParseResult.
Variable sha1_hexdigest : string -> string.
Variable requests_get : nat -> string -> list (string * string) -> Reply EsriResponse.

Abbreviation layer_metadata :=
  (layer_metadata GetEnvelope Transform X_FIELDNAME Y_FIELDNAME GEOM_FIELDNAME requests_get).
Abbreviation write_feature :=
  (write_feature Centroid GetEnvelope ExportToWkt X_FIELDNAME Y_FIELDNAME
     GEOM_FIELDNAME csv_row).
Abbreviation write_features :=
  (write_features Centroid GetEnvelope ExportToWkt X_FIELDNAME Y_FIELDNAME
     GEOM_FIELDNAME csv_row).

(** The world after the request of the layer root. *)
Definition asked (source_url : string) (w : World) : World :=
  emit (EvRequest source_url [("f", "json")]) (tick w).

(** The payload carries no error object, or an empty one. *)
Definition no_error (metadata : Payload) : Prop :=
  p_error metadata = None \/
  exists error, p_error metadata = Some error /\ truthy_error error = false.

(** The check of the error object, and what follows it. *)
Definition error_check (metadata : Payload) : M unit :=
  match p_error metadata with
  | Some error =>
      if truthy_error error then
        (message <- lift_option (err_message error) (KeyError "message") ;;
         raise (DownloadError (ProblemQueryingFieldNames message) None))%py
      else ret tt
  | None => ret tt
  end.

Definition layer_of (metadata : Payload) : M LayerInfo :=
  match p_fields metadata with
  | None | Some [] => raise (DownloadError NoFieldsAvailable None)
  | Some fields =>
      match find_objectid fields with
      | None | Some "" => raise (DownloadError NoObjectidField None)
      | Some objectid_fieldname =>
          match p_geometryType metadata with
          | None | Some "" => raise (DownloadError NoGeometryType None)
          | Some geometry_type =>
              (extent <- lift_option (p_extent metadata)
                          (TypeError "'NoneType' object is not subscriptable") ;;
               let ring := [(e_xmin extent, e_ymin extent);
                            (e_xmin extent, e_ymax extent);
                            (e_xmax extent, e_ymax extent);
                            (e_xmax extent, e_ymin extent);
                            (e_xmin extent, e_ymin extent)] in
               let '(xmin, xmax, ymin, ymax) :=
                 GetEnvelope (Transform (e_wkid extent) 4326 (wkbPolygon [ring])) in
               ret {| li_field_names :=
                        append_if_absent GEOM_FIELDNAME
                          (append_if_absent Y_FIELDNAME
                             (append_if_absent X_FIELDNAME (field_name <$> fields)));
                      li_objectid_fieldname := objectid_fieldname;
                      li_geometry_type := geometry_type;
                      li_max_record_count := default 500 (p_maxRecordCount metadata);
                      li_extent := {| xmin := xmin; ymin := ymin;
                                      xmax := xmax; ymax := ymax |} |})%py
          end
      end
  end.

Lemma layer_metadata_answered source_url w response :
  requests_get (requests w) source_url [("f", "json")] = Responds response ->
  layer_metadata source_url w =
  (if negb (esri_status response =? 200) then
     raise (DownloadError (FieldNamesHTTP (esri_status response) (esri_text response)) None)
   else
     metadata <- lift_option (esri_json response) (ValueError "No JSON object could be decoded") ;;
     error_check metadata ;;;
     layer_of metadata)%py (asked source_url w).
Proof.
  intros Hget. unfold layer_metadata, bind at 1, esri_get. by rewrite Hget.
Qed.

Lemma error_check_passes metadata w :
  no_error metadata -> error_check metadata w = (Ok tt, w).
Proof. unfold error_check. by intros [-> | (error & -> & ->)]. Qed.

Lemma error_check_raises metadata error message w :
  p_error metadata = Some error -> err_message error = Some message ->
  error_check metadata w
  = (Raise (DownloadError (ProblemQueryingFieldNames message) None), w).
Proof.
  intros Herror Hmessage. unfold error_check, truthy_error.
  rewrite Herror, Hmessage. simpl. by rewrite orb_true_r.
Qed.

Lemma layer_metadata_checked source_url w response metadata :
  requests_get (requests w) source_url [("f", "json")] = Responds response ->
  esri_status response = 200 ->
  esri_json response = Some metadata ->
  no_error metadata ->
  layer_metadata source_url w = layer_of metadata (asked source_url w).
Proof.
  intros Hget Hstatus Hjson Hno.
  rewrite (layer_metadata_answered _ _ _ Hget), Hstatus, Hjson. simpl.
  unfold lift_option. rewrite (bind_run _ _ _ metadata (asked source_url w)) by done.
  by rewrite (bind_run _ _ _ _ _ (error_check_passes _ _ Hno)).
Qed.

(** X15. The failures of the metadata phase that are DownloadErrors, in
    the order of the checks: a status other than 200; an error object with
    a message; no fields; no field of type esriFieldTypeOID; no geometry
    type. Each is raised after the one request of the phase. *)
Lemma layer_metadata_download_errors source_url w response :
  requests_get (requests w) source_url [("f", "json")] = Responds response ->
  (esri_status response <> 200 ->
   layer_metadata source_url w
   = (Raise (DownloadError (FieldNamesHTTP (esri_status response) (esri_text response)) None),
      asked source_url w)) /\
  (forall metadata,
     esri_status response = 200 -> esri_json response = Some metadata ->
     (forall error message,
        p_error metadata = Some error -> err_message error = Some message ->
        layer_metadata source_url w
        = (Raise (DownloadError (ProblemQueryingFieldNames message) None),
           asked source_url w)) /\
     (no_error metadata ->
      (p_fields metadata = None \/ p_fields metadata = Some [] ->
       layer_metadata source_url w
       = (Raise (DownloadError NoFieldsAvailable None), asked source_url w)) /\
      (forall field fields,
         p_fields metadata = Some (field :: fields) ->
         (find_objectid (field :: fields) = None ->
          layer_metadata source_url w
          = (Raise (DownloadError NoObjectidField None), asked source_url w)) /\
         (forall objectid_fieldname,
            find_objectid (field :: fields) = Some objectid_fieldname ->
            objectid_fieldname <> "" ->
            p_geometryType metadata = None ->
            layer_metadata source_url w
            = (Raise (DownloadError NoGeometryType None), asked source_url w))))).
Proof.
  intros Hget. split.
  - intros Hstatus. rewrite (layer_metadata_answered _ _ _ Hget).
    apply Z.eqb_neq in Hstatus. by rewrite Hstatus.
  - intros metadata Hstatus Hjson. split.
    + intros error message Herror Hmessage.
      rewrite (layer_metadata_answered _ _ _ Hget), Hstatus, Hjson. simpl.
      unfold lift_option. rewrite (bind_run _ _ _ metadata (asked source_url w)) by done.
      by rewrite (bind_raise _ _ _ _ _ (error_check_raises _ _ _ _ Herror Hmessage)).
    + intros Hno. rewrite (layer_metadata_checked _ _ _ _ Hget Hstatus Hjson Hno).
      unfold layer_of. split.
      * by intros [-> | ->].
      * intros field fields ->. split.
        -- by intros ->.
        -- intros oid -> Hoid ->. destruct oid; [done|reflexivity].
Qed.

(** C7. The metadata phase with a layer root that answers 200 with a
    payload without error, with fields, an object-id field and a geometry
    type, but without extent: the phase raises TypeError, and no
    DownloadError. *)
Theorem layer_metadata_missing_extent source_url w response metadata
    field fields objectid_fieldname geometry_type :
  requests_get (requests w) source_url [("f", "json")] = Responds response ->
  esri_status response = 200 ->
  esri_json response = Some metadata ->
  no_error metadata ->
  p_fields metadata = Some (field :: fields) ->
  find_objectid (field :: fields) = Some objectid_fieldname ->
  objectid_fieldname <> "" ->
  p_geometryType metadata = Some geometry_type ->
  geometry_type <> "" ->
  p_extent metadata = None ->
  layer_metadata source_url w
  = (Raise (TypeError "'NoneType' object is not subscriptable"), asked source_url w) /\
  is_DownloadError (TypeError "'NoneType' object is not subscriptable") = false.
Proof.
  intros Hget Hstatus Hjson Hno Hfields Hoid Hoidne Hgt Hgtne Hextent.
  split; [|reflexivity].
  rewrite (layer_metadata_checked _ _ _ _ Hget Hstatus Hjson Hno).
  unfold layer_of. rewrite Hfields, Hoid, Hgt, Hextent.
  destruct objectid_fieldname; [done|].
  destruct geometry_type; [done|]. reflexivity.
Qed.

(** A row of attributes without a column named geometry is skipped by the
    loop that writes the file: building its geometry raises the TypeError
    that the loop catches. *)
Lemma write_feature_skips_row file_path field_names geometry_type (feature : Row) w :
  feature !! "geometry" = None ->
  write_feature file_path field_names geometry_type feature w
  = (Ok false, emit (EvLog "Skipping a geometry") w).
Proof.
  intros Hgeom. unfold write_feature, row_geometry, try_except.
  rewrite Hgeom. reflexivity.
Qed.

Fixpoint skipping (n : nat) (w : World) : World :=
  match n with
  | O => w
  | S n' => skipping n' (emit (EvLog "Skipping a geometry") w)
  end.

Lemma files_skipping n w : files (skipping n w) = files w.
Proof. revert w. induction n as [|n IH]; intros w; simpl; [done|]. by rewrite IH. Qed.

(** The rows that [get_bbox] returns have no such column when the
    attributes of the layer have none: not one of them is written. *)
Lemma write_features_writes_nothing file_path field_names geometry_type
    (fetched_data : list Row) size w :
  Forall (fun row => row !! "geometry" = None) fetched_data ->
  write_features file_path field_names geometry_type fetched_data size w
  = (Ok size, skipping (List.length fetched_data) w).
Proof.
  intros Hrows. revert size w.
  induction Hrows as [|row rows Hrow _ IH]; intros size w; simpl; [done|].
  rewrite (bind_run _ _ _ _ _ (write_feature_skips_row _ _ _ _ _ Hrow)).
  apply IH.
Qed.

Abbreviation get_file_path :=
  (EsriRestDownloadTask.get_file_path urlparse sha1_hexdigest).
Abbreviation get_bbox :=
  (EsriRestDownloadTask.get_bbox Centroid GetEnvelope X_FIELDNAME Y_FIELDNAME requests_get).
Abbreviation download_one :=
  (EsriRestDownloadTask.download_one Centroid GetEnvelope ExportToWkt Transform
     X_FIELDNAME Y_FIELDNAME GEOM_FIELDNAME csv_header csv_row urlparse
     sha1_hexdigest requests_get).

(** What [get_bbox] raises for the extent of the layer ends the download:
    no handler stands between the two. The file has been created by then,
    with its header line. *)
Lemma download_one_aborts prefix fuel download_path source_url w
    file_path w1 layer w2 e w3 :
  get_file_path prefix source_url download_path w = (Ok file_path, w1) ->
  path_exists file_path w1 = false ->
  layer_metadata source_url w1 = (Ok layer, w2) ->
  get_bbox source_url (li_objectid_fieldname layer) (li_max_record_count layer)
    fuel ∅ (li_extent layer)
    (set_files (insert file_path (csv_header (li_field_names layer))) w2)
  = (Raise e, w3) ->
  download_one prefix fuel download_path source_url w = (Raise e, w3).
Proof.
  intros Hpath Hex Hlayer Hraise. unfold download_one.
  rewrite (bind_run _ _ _ _ _ Hpath).
  unfold os_path_exists, bind at 1. rewrite Hex. cbn [negb].
  rewrite (bind_run _ _ _ _ _ Hlayer).
  unfold write_file, modify, bind at 1.
  by rewrite (bind_raise _ _ _ _ _ Hraise).
Qed.

End AcquisitionProperties.

(** ** A layer for the examples

    Rational coordinates, a geometry library that is enough for points and
    for rings with too few points, and servers that answer from a script. *)
Module Layer.

Import Rational EsriRestDownloadTask.

Abbreviation Value := (@Value Q).
Abbreviation Row := (gmap string Value).
Abbreviation Feature := (@Feature Q).
Abbreviation Payload := (@Payload Q).
Abbreviation EsriResponse := (@EsriResponse Q).
Abbreviation OgrGeometry := (@OgrGeometry Q).
Abbreviation BBox := (@BBox Q).

Definition vertices (g : OgrGeometry) : list (Q * Q) :=
  match g with
  | wkbPoint x y => [(x, y)]
  | wkbMultiPoint points => points
  | wkbPolygon rings => List.concat rings
  | wkbMultiLineString lines => List.concat lines
  end.

Definition Qsmaller (a b : Q) : Q := if Qle_bool a b then a else b.
Definition Qlarger (a b : Q) : Q := if Qle_bool a b then b else a.

Definition GetEnvelope (g : OgrGeometry) : Q * Q * Q * Q :=
  match vertices g with
  | [] => (0%Q, 0%Q, 0%Q, 0%Q)
  | (x, y) :: rest =>
      foldl (fun '(x0, x1, y0, y1) '(x, y) =>
               (Qsmaller x0 x, Qlarger x1 x, Qsmaller y0 y, Qlarger y1 y))
            (x, x, y, y) rest
  end.

(** A ring needs four points or none. *)
Definition short_ring (ring : list (Q * Q)) : bool :=
  match ring with
  | [_] | [_; _] | [_; _; _] => true
  | _ => false
  end.

(** The centroid of a point is the point; for the other geometries the
    mean of the vertices stands for it. *)
Definition Centroid (g : OgrGeometry) : string + Q * Q :=
  match g with
  | wkbPolygon rings =>
      if existsb short_ring rings then
        inl "IllegalArgumentException: Invalid number of points in LinearRing found 3 - must be 0 or >= 4"
      else
        let n := inject_Z (Z.of_nat (List.length (vertices g))) in
        inr (Qred (Qdiv (foldl Qplus 0%Q (fst <$> vertices g)) n),
             Qred (Qdiv (foldl Qplus 0%Q (snd <$> vertices g)) n))
  | _ =>
      let n := inject_Z (Z.of_nat (List.length (vertices g))) in
      inr (Qred (Qdiv (foldl Qplus 0%Q (fst <$> vertices g)) n),
           Qred (Qdiv (foldl Qplus 0%Q (snd <$> vertices g)) n))
  end.

Definition ExportToWkt (g : OgrGeometry) : string :=
  match g with
  | wkbPoint x y => "POINT (" +:+ Qstr x +:+ " " +:+ Qstr y +:+ ")"
  | wkbMultiPoint _ => "MULTIPOINT"
  | wkbPolygon _ => "POLYGON"
  | wkbMultiLineString _ => "MULTILINESTRING"
  end.

(** The layers of the examples are in EPSG:4326 already. *)
Definition Transform (source target : Z) (g : OgrGeometry) : OgrGeometry := g.

Definition X_FIELDNAME : string := "OA:x".
Definition Y_FIELDNAME : string := "OA:y".
Definition GEOM_FIELDNAME : string := "OA:geom".

Definition show (v : option Value) : string :=
  match v with
  | Some (VInt z) => pretty z
  | Some (VFloat x) => Qstr x
  | Some (VStr s) => s
  | Some (VBool true) => "True"
  | Some (VBool false) => "False"
  | Some VNone | None => ""
  end.

Definition line (cells : list string) : list byte :=
  list_byte_of_string (join_comma cells) ++ [x0a].

Definition csv_header (field_names : list string) : list byte := line field_names.

Definition csv_row (field_names : list string) (row : Row) : list byte :=
  line ((fun name => show (row !! name)) <$> field_names).

(** A server that gives the n-th reply of a script to the n-th request. *)
Definition scripted (replies : list (Reply EsriResponse))
    : nat -> string -> list (string * string) -> Reply EsriResponse :=
  fun n _ _ => nth n replies (Fails "connection refused").

Definition json (status : Z) (payload : Payload) : Reply EsriResponse :=
  Responds (mkEsriResponse status "" (Some payload)).

Definition point (id : Z) (street : string) (x y : Q) : Feature :=
  mkFeature (Some {[ "OBJECTID" := VInt id; "STREET" := VStr street ]})
            (Some (mkEsriGeometry (Some x) (Some y) None None None)).

Definition polygon (id : Z) (ring : list (list Q)) : Feature :=
  mkFeature (Some {[ "OBJECTID" := VInt id ]})
            (Some (mkEsriGeometry None None None (Some [ring]) None)).

Definition features_of (geometry_type : string) (features : list Feature) : Payload :=
  mkPayload None None (Some geometry_type) None None (Some features).

Definition points (features : list Feature) : Payload :=
  features_of "esriGeometryPoint" features.

Definition layer_fields : list Field :=
  [mkField "OBJECTID" "esriFieldTypeOID"; mkField "STREET" "esriFieldTypeString"].

(** The layer root: point features in the square from (0, 0) to (4, 4). *)
Definition layer_root (max_record_count : Z) : Payload :=
  mkPayload None (Some layer_fields) (Some "esriGeometryPoint")
            (Some max_record_count)
            (Some (mkExtent 0%Q 0%Q 4%Q 4%Q 4326)) None.

Definition source_url : string := "http://gis.example.com/arcgis/rest/services/Addresses/MapServer/0".

Definition start : World := mkWorld ∅ {[ "/work/esri" ]} 0 [].

Definition square : BBox := mkBBox 0%Q 0%Q 4%Q 4%Q.

Definition get_bbox (server : nat -> string -> list (string * string) -> Reply EsriResponse)
    (max_record_count : Z) :=
  get_bbox Centroid GetEnvelope X_FIELDNAME Y_FIELDNAME server source_url
    "OBJECTID" max_record_count.

Definition download_one
    (server : nat -> string -> list (string * string) -> Reply EsriResponse) :=
  download_one Centroid GetEnvelope ExportToWkt Transform
    X_FIELDNAME Y_FIELDNAME GEOM_FIELDNAME csv_header csv_row
    Urls.urlparse Urls.text_digest server.

(** The requests of a log, in order. *)
Definition requests_of (events : list Event) : list (string * list (string * string)) :=
  omap (fun e => match e with EvRequest url params => Some (url, params) | _ => None end)
       events.

Definition sleeps_of (events : list Event) : list Z :=
  omap (fun e => match e with EvSleep s => Some s | _ => None end) events.

End Layer.

(** ** Runs on the example layer *)

Module Scenarios.

Import Rational EsriRestDownloadTask Layer.

(** A server that is down: every query gets a 500 with an empty list of
    features. *)
Definition broken : nat -> string -> list (string * string) -> Reply EsriResponse :=
  fun _ _ _ => json 500 (points []).

Definition failure : EsriResponse := mkEsriResponse 500 "" (Some (points [])).

(** Four failed attempts: four requests, four sleeps of a second, and the
    loop returns the last response. *)
Lemma query_loop_four_attempts_witness :
  query_loop broken source_url (query_args square) 3 None start
  = (Ok failure,
     retried source_url (query_args square)
       (retried source_url (query_args square)
          (retried source_url (query_args square)
             (retried source_url (query_args square) start)))).
Proof.
  apply (query_loop_four_attempts broken source_url (query_args square) start
           failure failure failure failure);
    first [reflexivity | left; simpl; lia].
Defined.

(** With such a server [get_bbox] returns no row and no error. *)
Lemma get_bbox_swallows_failure :
  let run := Layer.get_bbox broken 500 1 ∅ square start in
  fst run = Ok ([], ∅) /\
  List.length (requests_of (log (snd run))) = 4%nat /\
  sleeps_of (log (snd run)) = [1; 1; 1; 1].
Proof. vm_compute. repeat split. Qed.

(** When the body of the last response does not parse, what is raised is
    the ValueError of the parser. *)
Lemma get_bbox_unparsable_failure :
  fst (Layer.get_bbox (fun _ _ _ => Responds (mkEsriResponse 200 "<html>" None))
         500 1 ∅ square start)
  = Raise (ValueError "No JSON object could be decoded").
Proof. reflexivity. Qed.

(** Scenario D of the specification: two failures, then a success. *)
Lemma query_loop_third_attempt_example :
  let server := scripted [json 503 (points []); json 503 (points []);
                          json 200 (points [point 1 "Main" 1 1])] in
  let run := Layer.get_bbox server 500 1 ∅ square start in
  (exists rows ids, fst run = Ok (rows, ids) /\ retained_ids "OBJECTID" rows = [VInt 1]) /\
  List.length (requests_of (log (snd run))) = 3%nat /\
  sleeps_of (log (snd run)) = [1; 1].
Proof.
  intros server run0. split; [|split; reflexivity].
  eexists _, _. split; [reflexivity|]. vm_compute. reflexivity.
Qed.

(** A layer with a cap of one feature per query, and a server that answers
    every query with the same feature. *)
Definition repeating : nat -> string -> list (string * string) -> Reply EsriResponse :=
  scripted [json 200 (layer_root 1);
            json 200 (points [point 1 "Main" 1 1]);
            json 200 (points [point 1 "Main" 1 1])].

(** C2. The first quadrant of the root tile returns as many features as the
    cap allows, all of them seen before: it is not subdivided. After the
    request of the layer root, the query of the root tile and the query of
    that quadrant, the download ends with ZeroDivisionError; the four
    queries of a subdivision are not made. *)
Theorem get_bbox_at_cap_not_subdivided :
  let run := Layer.download_one repeating (Some "us-ca-oakland") 5 "/work/esri"
               source_url start in
  fst run = Raise ZeroDivisionError /\
  requests_of (log (snd run))
  = [(source_url, [("f", "json")]);
     (source_url +:+ "/query", query_args square);
     (source_url +:+ "/query", query_args (mkBBox 0%Q 0%Q 1%Q 1%Q))].
Proof. vm_compute. split; reflexivity. Qed.

(** A layer with a cap of two features per query: the root tile is
    subdivided around (1, 1), its last quadrant around (3, 3); the server
    returns features 1, 2 and 4 more than once. *)
Definition overlapping : nat -> string -> list (string * string) -> Reply EsriResponse :=
  scripted [json 200 (points [point 1 "Main" 0 0; point 2 "Oak" 2 2]);
            json 200 (points [point 1 "Main" 0 0]);
            json 200 (points [point 3 "Elm" 2 0]);
            json 200 (points [point 2 "Oak" 2 2]);
            json 200 (points [point 2 "Oak" 2 2; point 4 "Fir" 3 3]);
            json 200 (points [point 2 "Oak" 2 2]);
            json 200 (points []);
            json 200 (points []);
            json 200 (points [point 4 "Fir" 3 3])].

Lemma get_bbox_retains_each_id_once_witness :
  exists rows ids' w',
    Layer.get_bbox overlapping 2 5 ∅ square start = (Ok (rows, ids'), w') /\
    retained_ids "OBJECTID" rows = [VInt 1; VInt 2; VInt 3; VInt 4] /\
    NoDup (retained_ids "OBJECTID" rows) /\
    ids' = list_to_set (retained_ids "OBJECTID" rows) ∪ ∅.
Proof.
  pose (run := Layer.get_bbox overlapping 2 5 ∅ square start).
  exists (match fst run with Ok p => fst p | _ => [] end),
         (match fst run with Ok p => snd p | _ => ∅ end), (snd run).
  assert (Hrun : Layer.get_bbox overlapping 2 5 ∅ square start
                 = (Ok (match fst run with Ok p => fst p | _ => [] end,
                        match fst run with Ok p => snd p | _ => ∅ end), snd run))
    by (vm_compute; reflexivity).
  split; [exact Hrun|].
  destruct (get_bbox_retains_each_id_once Centroid GetEnvelope X_FIELDNAME Y_FIELDNAME
              overlapping source_url "OBJECTID" 2
              ltac:(discriminate) ltac:(discriminate)
              5%nat ∅ square start _ _ _ Hrun)
    as (_ & Hnodup & _ & Hids).
  split; [vm_compute; reflexivity|]. split; assumption.
Defined.

(** A point feature of a layer whose object-id field is named as the X
    column is. *)
Definition named_like_x (id : Z) (x y : Q) : Feature :=
  mkFeature (Some {[ "OA:x" := VInt id ]})
            (Some (mkEsriGeometry (Some x) (Some y) None None None)).

(** C3, as stated, fails: a layer whose object-id field has the name of
    the X column. The centroid is written over the identifier before the
    identifier is registered, so the set holds coordinates; the feature 7,
    which the first quadrant returns again, is retained a second time. *)
Lemma get_bbox_retains_id_twice :
  let server := scripted [json 200 (points [named_like_x 7 0 0; named_like_x 8 2 2]);
                          json 200 (points [named_like_x 7 0 0]);
                          json 200 (points []);
                          json 200 (points []);
                          json 200 (points [])] in
  let seven : Row := {[ "OA:x" := VFloat 0%Q; "OA:y" := VFloat 0%Q ]} in
  let eight : Row := {[ "OA:x" := VFloat 2%Q; "OA:y" := VFloat 2%Q ]} in
  exists ids,
    fst (EsriRestDownloadTask.get_bbox Centroid GetEnvelope X_FIELDNAME Y_FIELDNAME
           server source_url "OA:x" 2 5 ∅ square start)
    = Ok ([seven; eight; seven], ids).
Proof. eexists. vm_compute. reflexivity. Qed.

(** Scenario C of the specification, with a cap of two: the tile with two
    features is followed by the queries of its four quadrants around the
    mean (1, 1) of its two rows. *)
Lemma get_bbox_four_quadrants_example :
  let server := scripted [json 200 (points [point 1 "Main" 0 0; point 2 "Oak" 2 2]);
                          json 200 (points [point 1 "Main" 0 0]);
                          json 200 (points []);
                          json 200 (points []);
                          json 200 (points [point 2 "Oak" 2 2])] in
  requests_of (log (snd (Layer.get_bbox server 2 5 ∅ square start)))
  = (fun bbox => (source_url +:+ "/query", query_args bbox))
      <$> square :: quadrants square 1%Q 1%Q.
Proof. vm_compute. reflexivity. Qed.

(** C6. A layer of a geometry type that is not supported: the first feature
    makes the download end with KeyError after the query of the root tile;
    the file holds the header line and no row. *)
Theorem download_one_unsupported_geometry :
  let root := mkPayload None (Some layer_fields) (Some "esriGeometryMultiPatch")
                (Some 500) (Some (mkExtent 0%Q 0%Q 4%Q 4%Q 4326)) None in
  let patch := features_of "esriGeometryMultiPatch"
                 [point 1 "Main" 1 1; point 2 "Oak" 2 2] in
  let server := scripted [json 200 root; json 200 patch] in
  let run := Layer.download_one server (Some "us-ca-oakland") 5 "/work/esri"
               source_url start in
  fst run = Raise (KeyError "Don't know how to convert esri geometry type") /\
  files (snd run) !! "/work/esri/us-ca-oakland-58000000.csv"
  = Some (csv_header ["OBJECTID"; "STREET"; "OA:x"; "OA:y"; "OA:geom"]).
Proof. vm_compute. split; reflexivity. Qed.

(** A layer of points, all supported: the rows of the traversal are rows of
    attributes, the loop that writes the file finds no geometry in them,
    and the file still holds the header line only. *)
Lemma download_one_writes_header_only :
  let server := scripted [json 200 (layer_root 500);
                          json 200 (points [point 1 "Main" 1 1; point 2 "Oak" 2 2])] in
  let run := Layer.download_one server (Some "us-ca-oakland") 5 "/work/esri"
               source_url start in
  fst run = Ok "/work/esri/us-ca-oakland-58000000.csv" /\
  files (snd run) !! "/work/esri/us-ca-oakland-58000000.csv"
  = Some (csv_header ["OBJECTID"; "STREET"; "OA:x"; "OA:y"; "OA:geom"]).
Proof. vm_compute. split; reflexivity. Qed.

(** A layer root without extent. *)
Definition no_extent : Payload :=
  mkPayload None (Some layer_fields) (Some "esriGeometryPoint") (Some 1000) None None.

Lemma layer_metadata_missing_extent_witness :
  layer_metadata GetEnvelope Transform X_FIELDNAME Y_FIELDNAME GEOM_FIELDNAME
    (scripted [json 200 no_extent]) source_url start
  = (Raise (TypeError "'NoneType' object is not subscriptable"),
     asked source_url start).
Proof.
  apply (layer_metadata_missing_extent GetEnvelope Transform
           X_FIELDNAME Y_FIELDNAME GEOM_FIELDNAME (scripted [json 200 no_extent])
           source_url start (mkEsriResponse 200 "" (Some no_extent)) no_extent
           (mkField "OBJECTID" "esriFieldTypeOID")
           [mkField "STREET" "esriFieldTypeString"] "OBJECTID" "esriGeometryPoint");
    first [reflexivity | discriminate | by left].
Defined.

(** A triangle given by three points: its ring is too short for a
    centroid; the envelope goes from (0, 0) to (2, 4). *)
Definition triangle : Feature := polygon 7 [[0%Q; 0%Q]; [2%Q; 0%Q]; [2%Q; 4%Q]].


(** A tile at the cap of one feature whose only feature has been seen. *)
Lemma get_bbox_division_by_zero_witness :
  let server := scripted [json 200 (points [point 1 "Main" 1 1])] in
  Layer.get_bbox server 1 1 {[ VInt 1 ]} square start
  = (Raise ZeroDivisionError, answered source_url (query_args square) start).
Proof.
  intros server.
  apply (get_bbox_division_by_zero Centroid GetEnvelope X_FIELDNAME Y_FIELDNAME
           server source_url "OBJECTID" 1 0%nat {[ VInt 1 ]} square start
           (mkEsriResponse 200 "" (Some (points [point 1 "Main" 1 1])))
           (points [point 1 "Main" 1 1]) [point 1 "Main" 1 1]).
  - reflexivity.
  - reflexivity.
  - reflexivity.
  - simpl. lia.
  - intros feature Hin. apply list_elem_of_singleton in Hin as ->.
    exists (VInt 1). split; [reflexivity|]. by apply elem_of_singleton.
Defined.

(** C8. A layer of polygons whose one feature is the triangle. The
    traversal retains its row, with the middle of the envelope in the X
    and Y columns; the loop that writes the file hands this row of
    attributes to [build_ogr_geometry], finds no geometry in it and skips
    it: the download returns, and the file holds the header line and no
    row. *)
Theorem download_one_drops_degenerate :
  let root := mkPayload None (Some [mkField "OBJECTID" "esriFieldTypeOID"])
                (Some "esriGeometryPolygon") (Some 500)
                (Some (mkExtent 0%Q 0%Q 4%Q 4%Q 4326)) None in
  let tile := features_of "esriGeometryPolygon" [triangle] in
  let kept : Row := {[ "OBJECTID" := VInt 7; "OA:x" := VFloat 1%Q; "OA:y" := VFloat 2%Q ]} in
  let run := Layer.download_one (scripted [json 200 root; json 200 tile])
               (Some "us-ca-oakland") 5 "/work/esri" source_url start in
  fst (Layer.get_bbox (scripted [json 200 tile]) 500 1 ∅ square start)
  = Ok ([kept], {[ VInt 7 ]}) /\
  fst run = Ok "/work/esri/us-ca-oakland-58000000.csv" /\
  files (snd run) !! "/work/esri/us-ca-oakland-58000000.csv"
  = Some (csv_header ["OBJECTID"; "OA:x"; "OA:y"; "OA:geom"]).
Proof. vm_compute. repeat split. Qed.

End Scenarios.

(** The status 499 is outside [range(400, 499)]: the body of such a
    response is written to the destination file as well. *)
Lemma download_one_status_499 :
  let run := Net.download_one (Net.always 499 "Client Closed Request") None
               "/work/http" "http://data.example.com/addresses.zip" Net.workdir in
  fst run = Ok "/work/http/addresses.zip" /\
  files (snd run) !! "/work/http/addresses.zip"
  = Some (Net.bytes "Client Closed Request").
Proof. split; reflexivity. Qed.

(** * Further properties *)

(** ** What a computation leaves alone *)

(** [keeps f m]: running [m] does not change what [f] reads in the world. *)
Definition keeps {A X} (f : World -> X) (m : M A) : Prop :=
  forall w, f (snd (m w)) = f w.

(** The file system of a world. *)
Definition file_system (w : World) : gmap string (list byte) * gset string :=
  (files w, dirs w).

Lemma keeps_ret {A X} (f : World -> X) (a : A) : keeps f (ret a).
Proof. by intros w. Qed.

Lemma keeps_raise {A X} (f : World -> X) e : keeps f (@raise A e).
Proof. by intros w. Qed.

Lemma keeps_lift_option {A X} (f : World -> X) (o : option A) e :
  keeps f (lift_option o e).
Proof. destruct o; [apply keeps_ret | apply keeps_raise]. Qed.

Lemma keeps_bind {A B X} (f : World -> X) (m : M A) (k : A -> M B) :
  keeps f m -> (forall a, keeps f (k a)) -> keeps f (bind m k).
Proof.
  intros Hm Hk w. unfold bind. specialize (Hm w).
  destruct (m w) as [[a|e|] w1]; simpl in *; [|done..].
  by rewrite (Hk a w1).
Qed.

Lemma keeps_try_except {A X} (f : World -> X) (m : M A) (h : exn -> M A) :
  keeps f m -> (forall e, keeps f (h e)) -> keeps f (try_except m h).
Proof.
  intros Hm Hh w. unfold try_except. specialize (Hm w).
  destruct (m w) as [[a|e|] w1]; simpl in *; [done| |done].
  by rewrite (Hh e w1).
Qed.

Lemma keeps_logging msg : keeps file_system (logging msg).
Proof. by intros w. Qed.

Lemma keeps_pure {A X} (f : World -> X) (m : M A) : pure m -> keeps f m.
Proof. intros [o Ho] w. by rewrite Ho. Qed.

(** [advances n m]: running [m] makes at most [n] requests, and never
    takes one back. *)
Definition advances {A} (n : nat) (m : M A) : Prop :=
  forall w, (requests w <= requests (snd (m w)) <= requests w + n)%nat.

Lemma advances_ret {A} (a : A) : advances 0 (ret a).
Proof. intros w. simpl. lia. Qed.

Lemma advances_raise {A} e : advances 0 (@raise A e).
Proof. intros w. simpl. lia. Qed.

Lemma advances_lift_option {A} (o : option A) e : advances 0 (lift_option o e).
Proof. destruct o; [apply advances_ret | apply advances_raise]. Qed.

Lemma advances_logging msg : advances 0 (logging msg).
Proof. intros w. simpl. lia. Qed.

Lemma advances_more {A} n n' (m : M A) :
  (n <= n')%nat -> advances n m -> advances n' m.
Proof. intros Hle Hm w. specialize (Hm w). lia. Qed.

Lemma advances_bind {A B} n1 n2 (m : M A) (k : A -> M B) :
  advances n1 m -> (forall a, advances n2 (k a)) -> advances (n1 + n2) (bind m k).
Proof.
  intros Hm Hk w. unfold bind. specialize (Hm w).
  destruct (m w) as [[a|e|] w1]; simpl in *; [|lia..].
  specialize (Hk a w1). lia.
Qed.

Lemma advances_try_except {A} n1 n2 (m : M A) (h : exn -> M A) :
  advances n1 m -> (forall e, advances n2 (h e)) -> advances (n1 + n2) (try_except m h).
Proof.
  intros Hm Hh w. unfold try_except. specialize (Hm w).
  destruct (m w) as [[a|e|] w1]; simpl in *; [lia| |lia].
  specialize (Hh e w1). lia.
Qed.

Lemma advances_pure {A} (m : M A) : pure m -> advances 0 m.
Proof. intros [o Ho] w. rewrite Ho. simpl. lia. Qed.

Section ResolverReads.

Variable urlparse : string -> ParseResult.
Variable sha1_hexdigest : string -> string.
Variable guess_extension : string -> option string.
Variable get_content_mimetype : list byte -> string.
Variable match_attachment : string -> option string.
Variable requests_get : nat -> string -> Reply HttpResponse.

Abbreviation guess_url_file_extension :=
  (guess_url_file_extension urlparse guess_extension get_content_mimetype
     match_attachment requests_get).
Abbreviation http_get := (http_get requests_get).

Lemma keeps_http_get url : keeps file_system (http_get url).
Proof. intros w. unfold http_get. by destruct (requests_get (requests w) url). Qed.

Lemma keeps_read_file p : keeps file_system (read_file p).
Proof. intros w. unfold read_file. by destruct (files w !! p). Qed.

Lemma keeps_first_chunk body : keeps file_system (first_chunk body).
Proof. destruct body; [apply keeps_raise | apply keeps_ret]. Qed.

Lemma guess_keeps_file_system url : keeps file_system (guess_url_file_extension url).
Proof.
  unfold guess_url_file_extension.
  repeat first
    [ apply keeps_raise | apply keeps_ret | apply keeps_logging
    | apply keeps_http_get | apply keeps_read_file | apply keeps_first_chunk
    | apply keeps_bind; [|intros ?]
    | case_bool_decide
    | match goal with
      | |- keeps _ (if ?b then _ else _) => destruct b
      | |- keeps _ (match ?o with Some _ => _ | None => _ end) => destruct o
      end ].
Qed.

(** The URL has to be fetched before its extension is known. *)
Definition needs_fetch (url : string) : Prop :=
  query (urlparse url) <> "" \/ snd (splitext (path (urlparse url))) ∈ bad_extensions.

Definition over_http (url : string) : Prop :=
  scheme (urlparse url) = "http" \/ scheme (urlparse url) = "https".

Lemma guess_fetches url :
  needs_fetch url -> over_http url ->
  guess_url_file_extension url =
  (hc <- (response <- http_get url ;;
          content_chunk <- first_chunk (content response) ;;
          ret (headers response, content_chunk)) ;;
   let hdrs : gmap string string := fst hc in
   let content_chunk := snd hc in
   path_ext <-
     match hdrs !! "content-type" with
     | Some ct =>
         let content_type := before_semicolon ct in
         logging "Content-Type says" ;;;
         let path_ext := guess_extension content_type in
         match hdrs !! "content-disposition" with
         | Some cd =>
             match match_attachment cd with
             | Some filename =>
                 let attachment_ext := snd (splitext filename) in
                 if bool_decide (path_ext = Some attachment_ext) then
                   logging "Content-Disposition agrees" ;;;
                   ret path_ext
                 else
                   logging "Content-Disposition disagrees" ;;;
                   ret None
             | None => ret path_ext
             end
         | None => ret path_ext
         end
     | None => ret None
     end ;;
   if falsy path_ext then
     let mime_type := get_content_mimetype content_chunk in
     logging "file says" ;;;
     ret (guess_extension mime_type)
   else ret path_ext).
Proof.
  intros Hfetch Hhttp. unfold guess_url_file_extension.
  assert (Hguard : (String.eqb (query (urlparse url)) "" &&
            negb (bool_decide (snd (splitext (path (urlparse url))) ∈ bad_extensions)))%bool
          = false).
  { destruct Hfetch as [Hq|Hext].
    - apply String.eqb_neq in Hq. by rewrite Hq.
    - rewrite (bool_decide_eq_true_2 _ Hext). apply andb_false_r. }
  rewrite Hguard.
  rewrite bool_decide_eq_true_2; [reflexivity|].
  destruct Hhttp as [-> | ->]; [apply elem_of_cons; by left|].
  apply elem_of_cons. right. apply elem_of_cons. by left.
Qed.

Lemma advances_http_get url : advances 1 (http_get url).
Proof.
  intros w. unfold http_get.
  destruct (requests_get (requests w) url); simpl; lia.
Qed.

Lemma advances_read_file p : advances 0 (read_file p).
Proof. intros w. unfold read_file. destruct (files w !! p); simpl; lia. Qed.

Lemma advances_first_chunk body : advances 0 (first_chunk body).
Proof. destruct body; [apply advances_raise | apply advances_ret]. Qed.

Lemma guess_advances url : advances 1 (guess_url_file_extension url).
Proof.
  unfold guess_url_file_extension.
  destruct (_ && _)%bool.
  { apply (advances_bind 0 1); [apply advances_logging|].
    intros _. apply (advances_more 0); [lia | apply advances_ret]. }
  apply (advances_bind 1 0).
  { repeat case_bool_decide.
    - apply (advances_bind 1 0); [apply advances_http_get|]. intros r.
      apply (advances_bind 0 0); [apply advances_first_chunk|].
      intros c. apply advances_ret.
    - apply (advances_more 0); [lia|].
      apply (advances_bind 0 0); [apply advances_read_file|].
      intros c. apply advances_ret.
    - apply (advances_more 0); [lia | apply advances_raise]. }
  intros hc. apply (advances_bind 0 0).
  { repeat first
      [ apply advances_ret | apply advances_logging
      | apply (advances_bind 0 0); [|intros ?]
      | case_bool_decide
      | match goal with
        | |- advances _ (match ?o with Some _ => _ | None => _ end) => destruct o
        end ]. }
  intros path_ext. destruct (falsy path_ext); [|apply advances_ret].
  apply (advances_bind 0 0); [apply advances_logging | intros; apply advances_ret].
Qed.

(** X5. The resolver reads and never writes: whatever the URL and the
    answers, the files and the directories are what they were, and at most
    one request has been made. *)
Theorem guess_url_file_extension_reads_only url w :
  let w' := snd (guess_url_file_extension url w) in
  files w' = files w /\ dirs w' = dirs w /\
  (requests w' = requests w \/ requests w' = S (requests w)).
Proof.
  intros w'. subst w'.
  pose proof (guess_keeps_file_system url w) as Hfs.
  injection Hfs as Hfiles Hdirs. split; [done|]. split; [done|].
  pose proof (guess_advances url w). lia.
Qed.

(** X6. A URL that has to be fetched over http or https and whose response
    has an empty body: [next] finds no chunk, and the resolver raises
    StopIteration, after its one request. *)
Theorem guess_url_file_extension_empty_body url w response :
  needs_fetch url -> over_http url ->
  requests_get (requests w) url = Responds response ->
  content response = [] ->
  guess_url_file_extension url w
  = (Raise StopIteration, emit (EvRequest url []) (tick w)).
Proof.
  intros Hfetch Hhttp Hget Hempty. rewrite (guess_fetches _ Hfetch Hhttp).
  unfold bind at 1 2, http_get. rewrite Hget.
  unfold bind at 1, first_chunk. by rewrite Hempty.
Qed.

(** X7. Content-Type gives an extension, Content-Disposition names a file
    with another one: neither is trusted, and the result is the extension
    of the mime type found in the first 99 bytes of the body. *)
Theorem guess_url_file_extension_disposition_disagrees url w response ct cd filename :
  needs_fetch url -> over_http url ->
  requests_get (requests w) url = Responds response ->
  content response <> [] ->
  headers response !! "content-type" = Some ct ->
  headers response !! "content-disposition" = Some cd ->
  match_attachment cd = Some filename ->
  guess_extension (before_semicolon ct) <> Some (snd (splitext filename)) ->
  fst (guess_url_file_extension url w)
  = Ok (guess_extension (get_content_mimetype (take 99 (content response)))).
Proof.
  intros Hfetch Hhttp Hget Hbody Hct Hcd Hmatch Hdiffer.
  rewrite (guess_fetches _ Hfetch Hhttp).
  unfold bind at 1 2, http_get. rewrite Hget.
  unfold bind at 1, first_chunk.
  destruct (content response) as [|b body] eqn:Hcontent; [done|].
  run. rewrite Hct, Hcd, Hmatch.
  by rewrite bool_decide_eq_false_2.
Qed.

(** X8. Content-Type gives an extension and Content-Disposition names a
    file with the same one: this extension is the result, and the content
    is not looked at. *)
Theorem guess_url_file_extension_disposition_agrees url w response ct cd filename :
  needs_fetch url -> over_http url ->
  requests_get (requests w) url = Responds response ->
  content response <> [] ->
  headers response !! "content-type" = Some ct ->
  headers response !! "content-disposition" = Some cd ->
  match_attachment cd = Some filename ->
  guess_extension (before_semicolon ct) = Some (snd (splitext filename)) ->
  snd (splitext filename) <> "" ->
  guess_url_file_extension url w
  = (Ok (Some (snd (splitext filename))),
     emit (EvLog "Content-Disposition agrees")
       (emit (EvLog "Content-Type says") (emit (EvRequest url []) (tick w)))).
Proof.
  intros Hfetch Hhttp Hget Hbody Hct Hcd Hmatch Hagree Hext.
  rewrite (guess_fetches _ Hfetch Hhttp).
  unfold bind at 1 2, http_get. rewrite Hget.
  unfold bind at 1, first_chunk.
  destruct (content response) as [|b body] eqn:Hcontent; [done|].
  run. rewrite Hct, Hcd, Hmatch, Hagree.
  rewrite bool_decide_eq_true_2 by done. simpl.
  apply String.eqb_neq in Hext. by rewrite Hext.
Qed.

End ResolverReads.

(** X9. The resolver looks at the status of no response and at no byte of
    the body after the first 99: two servers whose responses have the same
    headers and bodies that agree on their first 99 bytes get the same
    result. *)
Theorem guess_url_file_extension_first_99_bytes
    (urlparse : string -> ParseResult) (guess_extension : string -> option string)
    (get_content_mimetype : list byte -> string)
    (match_attachment : string -> option string)
    (server1 server2 : nat -> string -> Reply HttpResponse) url w r1 r2 :
  server1 (requests w) url = Responds r1 ->
  server2 (requests w) url = Responds r2 ->
  headers r1 = headers r2 ->
  take 99 (content r1) = take 99 (content r2) ->
  guess_url_file_extension urlparse guess_extension get_content_mimetype
    match_attachment server1 url w
  = guess_url_file_extension urlparse guess_extension get_content_mimetype
      match_attachment server2 url w.
Proof.
  intros H1 H2 Hheaders Hbody. unfold guess_url_file_extension.
  destruct (_ && _)%bool; [reflexivity|].
  destruct (bool_decide (scheme (urlparse url) ∈ ["http"; "https"])); [|reflexivity].
  unfold bind, http_get. rewrite H1, H2. unfold first_chunk.
  destruct (content r1) as [|b1 body1], (content r2) as [|b2 body2];
    [reflexivity | discriminate | discriminate |].
  unfold ret. cbn [fst snd]. by rewrite Hheaders, Hbody.
Qed.

(** ** URLDownloadTask *)

Section URLTaskFiles.

Variable urlparse : string -> ParseResult.
Variable sha1_hexdigest : string -> string.
Variable guess_extension : string -> option string.
Variable get_content_mimetype : list byte -> string.
Variable match_attachment : string -> option string.
Variable requests_get : nat -> string -> Reply HttpResponse.
Variable source_prefix : option string.

Abbreviation guess_url_file_extension :=
  (guess_url_file_extension urlparse guess_extension get_content_mimetype
     match_attachment requests_get).
Abbreviation get_file_path :=
  (URLDownloadTask.get_file_path urlparse sha1_hexdigest guess_extension
     get_content_mimetype match_attachment requests_get source_prefix).
Abbreviation download_one :=
  (URLDownloadTask.download_one urlparse sha1_hexdigest guess_extension
     get_content_mimetype match_attachment requests_get source_prefix).
Abbreviation download_from :=
  (URLDownloadTask.download_from urlparse sha1_hexdigest guess_extension
     get_content_mimetype match_attachment requests_get source_prefix).
Abbreviation download :=
  (URLDownloadTask.download urlparse sha1_hexdigest guess_extension
     get_content_mimetype match_attachment requests_get source_prefix).

(** X10. When the resolver finds no extension, the name of the file cannot
    be put together: [get_file_path] raises TypeError. *)
Theorem get_file_path_without_extension url dir_path w w1 :
  guess_url_file_extension url w = (Ok None, w1) ->
  get_file_path url dir_path w
  = (Raise (TypeError "can only concatenate str to str"), emit (EvLog "Guessed") w1).
Proof.
  intros Hguess. unfold get_file_path.
  by rewrite (bind_run _ _ _ _ _ Hguess).
Qed.

Lemma get_file_path_keeps_file_system url dir_path :
  keeps file_system (get_file_path url dir_path).
Proof.
  unfold get_file_path.
  apply keeps_bind; [apply guess_keeps_file_system|]. intros path_ext.
  apply keeps_bind; [apply keeps_logging|]. intros _.
  destruct path_ext; [apply keeps_ret | apply keeps_raise].
Qed.

(** X11. A destination that exists is taken for the download: once its
    path is resolved, nothing is requested for the URL, and no file
    changes. *)
Theorem download_one_skips_existing download_path source_url w file_path w1 :
  get_file_path source_url download_path w = (Ok file_path, w1) ->
  scheme (urlparse source_url) <> "file" ->
  path_exists file_path w1 = true ->
  download_one download_path source_url w
  = (Ok file_path, emit (EvLog "File exists") w1).
Proof.
  intros Hpath Hscheme Hex. unfold download_one.
  rewrite (bind_run _ _ _ _ _ Hpath).
  apply String.eqb_neq in Hscheme. rewrite Hscheme.
  run. by rewrite Hex.
Qed.

(** X12. A file:// URL is copied, once its destination is resolved. When
    the file it names exists and is not the destination itself, and the
    destination is no directory and lies in one, the destination gets its
    content and is returned, with no request; when the file it names is
    the destination, [shutil.copy] raises (SameFileError) and nothing is
    written; when the file does not exist, the copy raises and nothing is
    written. *)
Theorem download_one_copies_file download_path source_url w file_path w1 :
  get_file_path source_url download_path w = (Ok file_path, w1) ->
  scheme (urlparse source_url) = "file" ->
  isdir file_path w1 = false ->
  (forall content,
     files w1 !! path (urlparse source_url) = Some content ->
     path (urlparse source_url) <> file_path ->
     parent_isdir file_path w1 = true ->
     download_one download_path source_url w
     = (Ok file_path,
        emit (EvLog "File exists") (set_files (insert file_path content) w1))) /\
  (forall content,
     files w1 !! path (urlparse source_url) = Some content ->
     path (urlparse source_url) = file_path ->
     download_one download_path source_url w = (Raise (OSError file_path), w1)) /\
  (files w1 !! path (urlparse source_url) = None ->
   download_one download_path source_url w
   = (Raise (OSError (path (urlparse source_url))), w1)).
Proof.
  intros Hpath Hscheme Hnodir. unfold download_one.
  rewrite (bind_run _ _ _ _ _ Hpath), Hscheme. simpl. split; [|split].
  - intros body Hsrc Hother Hparent. unfold bind at 1, copy.
    rewrite Hsrc, Hnodir, Hparent. apply String.eqb_neq in Hother.
    rewrite Hother, Hnodir. cbn [orb]. unfold bind at 1, os_path_exists.
    rewrite (path_exists_file file_path _ body); [reflexivity|].
    simpl. apply lookup_insert_eq.
  - intros body Hsrc Hsame. unfold bind at 1, copy.
    rewrite Hsrc, Hnodir, Hsame. by rewrite String.eqb_refl.
  - intros Hsrc. unfold bind at 1, copy. by rewrite Hsrc.
Qed.

(** What exists stays: a path that exists before also exists after. *)
Definition grows (w w' : World) : Prop :=
  forall p, path_exists p w = true -> path_exists p w' = true.

Lemma grows_refl w : grows w w.
Proof. by intros p. Qed.

Lemma grows_trans w1 w2 w3 : grows w1 w2 -> grows w2 w3 -> grows w1 w3.
Proof. intros H12 H23 p Hp. by apply H23, H12. Qed.

Lemma grows_file_system w w' : file_system w' = file_system w -> grows w w'.
Proof.
  intros [= Hf Hd] p. unfold path_exists. by rewrite Hf, Hd.
Qed.

Lemma path_exists_insert p q content w :
  path_exists p w = true ->
  path_exists p (set_files (insert q content) w) = true.
Proof.
  unfold path_exists. simpl. intros Hp.
  apply orb_true_iff in Hp as [Hp|Hp]; apply orb_true_iff.
  - left. apply bool_decide_eq_true_1 in Hp. apply bool_decide_eq_true_2.
    destruct (decide (q = p)) as [->|Hne].
    + rewrite lookup_insert_eq. by eexists.
    + by rewrite lookup_insert_ne.
  - by right.
Qed.

Lemma grows_insert q content w : grows w (set_files (insert q content) w).
Proof. intros p. apply path_exists_insert. Qed.

Lemma grows_copy src dst w w' : copy src dst w = (Ok tt, w') -> grows w w'.
Proof.
  unfold copy. destruct (files w !! src) as [content|]; [|discriminate].
  destruct (String.eqb src _); [discriminate|].
  destruct (isdir (if isdir dst w then _ else _) w); [discriminate|].
  destruct (_ || _); [|discriminate].
  intros [= <-]. apply grows_insert.
Qed.

Lemma download_one_exists download_path source_url w file_path w' :
  download_one download_path source_url w = (Ok file_path, w') ->
  path_exists file_path w' = true /\ grows w w'.
Proof.
  unfold download_one. intros Hrun.
  apply bind_Ok in Hrun as (fp & w1 & Hpath & Hrun).
  pose proof (get_file_path_keeps_file_system source_url download_path w) as Hfs.
  rewrite Hpath in Hfs. simpl in Hfs. apply grows_file_system in Hfs.
  apply bind_Ok in Hrun as ([] & w2 & Hcopy & Hrun).
  assert (Hg2 : grows w1 w2).
  { destruct (String.eqb (scheme (urlparse source_url)) "file").
    - by apply grows_copy in Hcopy.
    - injection Hcopy as <-. apply grows_refl. }
  apply bind_Ok in Hrun as (present & w3 & Hex & Hrun).
  unfold os_path_exists in Hex. injection Hex as <- <-.
  destruct (path_exists fp w2) eqn:Hpresent.
  - apply bind_Ok in Hrun as ([] & w4 & Hlog & Hrun).
    injection Hlog as <-. injection Hrun as <- <-. split.
    + exact Hpresent.
    + apply (grows_trans _ w1); [done|]. apply (grows_trans _ w2); [done|].
      by intros p.
  - apply bind_Ok in Hrun as ([] & w4 & Hlog & Hrun). injection Hlog as <-.
    apply bind_Ok in Hrun as (resp & w5 & Hget & Hrun).
    assert (Hfs5 : file_system w5 = file_system w2).
    { unfold try_except, http_get in Hget. simpl in Hget.
      destruct (requests_get (requests w2) source_url); [|discriminate].
      by injection Hget as <- <-. }
    destruct (in_range (status_code resp) 400 499); [discriminate|].
    apply bind_Ok in Hrun as ([] & w6 & Hwrite & Hrun).
    injection Hwrite as <-.
    apply bind_Ok in Hrun as ([] & w7 & Hlog & Hrun). injection Hlog as <-.
    injection Hrun as <- <-. split.
    + apply (path_exists_file _ _ (content resp)). simpl. apply lookup_insert_eq.
    + apply (grows_trans _ w1); [done|]. apply (grows_trans _ w2); [done|].
      apply (grows_trans _ w5); [by apply grows_file_system|].
      intros p Hp. by apply (path_exists_insert p fp (content resp)) in Hp.
Qed.

Lemma download_from_exists download_path source_urls output_files w out w' :
  download_from download_path source_urls output_files w = (Ok out, w') ->
  Forall (fun p => path_exists p w = true) output_files ->
  grows w w' /\
  exists new, out = output_files ++ new /\
              List.length new = List.length source_urls /\
              Forall (fun p => path_exists p w' = true) out.
Proof.
  revert output_files w.
  induction source_urls as [|source_url rest IH]; intros output_files w; simpl.
  - intros [= <- <-] Hacc. split; [apply grows_refl|].
    exists []. by rewrite app_nil_r.
  - intros Hrun Hacc.
    apply bind_Ok in Hrun as (file_path & w1 & Hone & Hrun).
    apply download_one_exists in Hone as [Hex Hgrow].
    apply IH in Hrun as (Hgrow' & new & -> & Hlen & Hall).
    + split; [by apply (grows_trans _ w1)|].
      exists (file_path :: new). split; [by rewrite <- app_assoc|].
      split; [simpl; by rewrite Hlen | done].
    + apply Forall_app. split; [|by constructor].
      eapply Forall_impl; [exact Hacc|]. intros p Hp. by apply Hgrow.
Qed.

(** X13. When [download] returns, it returns one path for each URL, and
    every one of these paths exists: a file that one URL left is not lost
    to a later one. *)
Theorem download_returns_existing_paths source_urls workdir w out w' :
  download source_urls workdir w = (Ok out, w') ->
  List.length out = List.length source_urls /\
  Forall (fun p => path_exists p w' = true) out.
Proof.
  unfold download. intros Hrun.
  apply bind_Ok in Hrun as ([] & w1 & _ & Hrun).
  apply download_from_exists in Hrun as (_ & new & -> & Hlen & Hall);
    [|constructor].
  by split.
Qed.

End URLTaskFiles.

Lemma bind_assoc {A B C} (m : M A) (f : A -> M B) (g : B -> M C) w :
  bind (bind m f) g w = bind m (fun a => bind (f a) g) w.
Proof. unfold bind. by destruct (m w) as [[a|e|] w1]. Qed.

Lemma bind_ext {A B} (m : M A) (f g : A -> M B) w :
  (forall a w1, f a w1 = g a w1) -> bind m f w = bind m g w.
Proof. intros Hfg. unfold bind. destruct (m w) as [[a|e|] w1]; [apply Hfg|done..]. Qed.

(** ** EsriRestDownloadTask *)

Section EsriQueries.

Import EsriRestDownloadTask.

Context {num : Type} `{Float num}.

Abbreviation Value := (@Value num).
Abbreviation Row := (gmap string Value).
Abbreviation Feature := (@Feature num).
Abbreviation Payload := (@Payload num).
Abbreviation EsriResponse := (@EsriResponse num).
Abbreviation BBox := (@BBox num).
Abbreviation OgrGeometry := (@OgrGeometry num).
Abbreviation EsriGeometry := (@EsriGeometry num).
Abbreviation GeometryEntry := (@GeometryEntry num).

Variable Centroid : OgrGeometry -> string + num * num.
Variable GetEnvelope : OgrGeometry -> num * num * num * num.
Variable X_FIELDNAME Y_FIELDNAME : string.
Variable requests_get : nat -> string -> list (string * string) -> Reply EsriResponse.
Variable source_url : string.
Variable objectid_fieldname : string.
Variable max_record_count : Z.

Abbreviation esri_get := (esri_get requests_get).
Abbreviation query_loop := (query_loop requests_get source_url).
Abbreviation set_centroid := (set_centroid Centroid GetEnvelope X_FIELDNAME Y_FIELDNAME).
Abbreviation collect_rows :=
  (collect_rows Centroid GetEnvelope X_FIELDNAME Y_FIELDNAME objectid_fieldname).
Abbreviation get_bbox :=
  (get_bbox Centroid GetEnvelope X_FIELDNAME Y_FIELDNAME requests_get source_url
     objectid_fieldname max_record_count).
Abbreviation fetch_tile :=
  (fetch_tile Centroid GetEnvelope X_FIELDNAME Y_FIELDNAME requests_get source_url
     objectid_fieldname).
Abbreviation visit :=
  (visit Centroid GetEnvelope X_FIELDNAME Y_FIELDNAME requests_get source_url
     objectid_fieldname max_record_count).
Abbreviation retried := (retried source_url).
Abbreviation answered := (answered source_url).
Abbreviation located := (located X_FIELDNAME Y_FIELDNAME).

(** *** The retry loop *)

Lemma requests_iter_retried args n w :
  requests (Nat.iter n (retried args) w) = (requests w + n)%nat.
Proof. induction n as [|n IH]; simpl; [lia|]. rewrite IH. lia. Qed.

Lemma query_loop_after_failures args (failures : list EsriResponse) :
  forall tries response r w,
  Z.of_nat (List.length failures) <= tries ->
  (forall i f, failures !! i = Some f ->
     requests_get (requests w + i)%nat (source_url +:+ "/query") args = Responds f /\
     failed f) ->
  requests_get (requests w + List.length failures)%nat (source_url +:+ "/query") args
  = Responds r ->
  succeeded r ->
  query_loop args tries response w
  = (Ok r, answered args (Nat.iter (List.length failures) (retried args) w)).
Proof.
  induction failures as [|f failures IH]; intros tries response r w Hlen Hfail Hget Hok.
  - simpl in *. rewrite Nat.add_0_r in Hget.
    by apply query_loop_breaks; [lia| |].
  - simpl in Hlen.
    destruct (Hfail 0%nat f eq_refl) as [Hget0 Hfailed]. rewrite Nat.add_0_r in Hget0.
    rewrite (query_loop_retries _ _ args tries response f w) by (lia || done).
    rewrite (IH (tries - 1) (Some f) r (retried args w)).
    + f_equal. f_equal. simpl. clear.
      induction (List.length failures) as [|n IHn]; simpl; [done|]. by rewrite IHn.
    + lia.
    + intros i f' Hf'. specialize (Hfail (S i) f' Hf').
      replace (requests (retried args w) + i)%nat with (requests w + S i)%nat; [done|].
      simpl. lia.
    + replace (requests (retried args w) + List.length failures)%nat
        with (requests w + List.length (f :: failures))%nat; [done|].
      simpl. lia.
    + done.
Qed.

(** X18. Up to three failed attempts followed by an attempt that succeeds:
    the loop returns the response of that attempt, after one request for
    each attempt and one sleep of a second for each failure. *)
Theorem query_loop_succeeds_after_failures args w (failures : list EsriResponse) r :
  (List.length failures <= 3)%nat ->
  (forall i f, failures !! i = Some f ->
     requests_get (requests w + i)%nat (source_url +:+ "/query") args = Responds f /\
     failed f) ->
  requests_get (requests w + List.length failures)%nat (source_url +:+ "/query") args
  = Responds r ->
  succeeded r ->
  query_loop args 3 None w
  = (Ok r, answered args (Nat.iter (List.length failures) (retried args) w)).
Proof. intros Hlen. apply query_loop_after_failures. lia. Qed.

(** X19. An exception of [requests.get] in the query of a tile is not
    retried: after that one request [get_bbox] raises it. *)
Theorem get_bbox_transport_failure fuel ids bbox w msg :
  requests_get (requests w) (source_url +:+ "/query") (query_args bbox) = Fails msg ->
  get_bbox (S fuel) ids bbox w
  = (Raise (RequestException msg), answered (query_args bbox) w).
Proof.
  intros Hget. cbn [EsriRestDownloadTask.get_bbox].
  by rewrite (bind_raise _ _ _ _ _
                (query_loop_transport_failure _ _ _ 3 None msg w ltac:(lia) Hget)).
Qed.

(** *** What the queries leave alone *)

Lemma keeps_esri_get url params : keeps file_system (esri_get url params).
Proof.
  intros w. unfold EsriRestDownloadTask.esri_get.
  by destruct (requests_get (requests w) url params).
Qed.

Lemma keeps_check_response (r : EsriResponse) : keeps file_system (check_response r).
Proof.
  unfold check_response. destruct (negb _); [apply keeps_raise|].
  apply keeps_try_except; [|intros e; apply keeps_raise].
  apply keeps_bind; [apply keeps_lift_option|]. intros p.
  destruct (p_error p) as [e|]; [|apply keeps_ret].
  destruct (truthy_error e); [|apply keeps_ret].
  apply keeps_bind; [apply keeps_lift_option|]. intros m. apply keeps_raise.
Qed.

Lemma keeps_query_loop args tries response :
  keeps file_system (query_loop args tries response).
Proof.
  remember (Z.to_nat (tries + 1)) as n eqn:Hn.
  revert tries response Hn. induction n as [n IH] using lt_wf_ind.
  intros tries response Hn. rewrite query_loop_unfold_body.
  destruct (Z_le_dec 0 tries); [|apply keeps_lift_option].
  apply keeps_bind; [apply keeps_esri_get|]. intros r.
  apply keeps_try_except.
  - apply keeps_bind; [apply keeps_check_response | intros; apply keeps_ret].
  - intros e. destruct (is_DownloadError e); [|apply keeps_raise].
    apply keeps_bind; [apply keeps_logging|]. intros _.
    apply keeps_bind; [by intros w|]. intros _.
    apply (IH (Z.to_nat (tries - 1 + 1))); [lia | reflexivity].
Qed.

Lemma keeps_collect_rows geometry_type (features : list Feature) ids acc :
  keeps file_system (collect_rows geometry_type features ids acc).
Proof. apply keeps_pure, pure_collect_rows. Qed.

Lemma keeps_mean key (rows : list Row) : keeps file_system (mean key rows).
Proof.
  unfold mean. apply keeps_bind.
  - generalize (of_Z 0). induction rows as [|row rows IH]; intros acc; simpl.
    + apply keeps_ret.
    + apply keeps_bind; [apply keeps_lift_option|]. intros v.
      apply keeps_bind; [destruct v; (apply keeps_ret || apply keeps_raise)|].
      intros x. apply IH.
  - intros total. case_bool_decide; [apply keeps_raise | apply keeps_ret].
Qed.

Lemma keeps_get_bbox fuel ids bbox : keeps file_system (get_bbox fuel ids bbox).
Proof.
  revert ids bbox. induction fuel as [|fuel IH]; intros ids bbox; [by intros w|].
  cbn [EsriRestDownloadTask.get_bbox].
  apply keeps_bind; [apply keeps_query_loop|]. intros response.
  apply keeps_bind; [apply keeps_lift_option|]. intros payload.
  apply keeps_bind; [apply keeps_lift_option|]. intros features.
  apply keeps_bind; [apply keeps_collect_rows|]. intros collected.
  destruct (max_record_count <=? _); [|apply keeps_ret].
  apply keeps_bind; [apply keeps_mean|]. intros mean_x.
  apply keeps_bind; [apply keeps_mean|]. intros mean_y.
  repeat (apply keeps_bind; [apply IH|]; intros ?).
  apply keeps_ret.
Qed.

(** X26. The queries only ask: whatever the server answers and whatever
    the outcome, [get_bbox] leaves every file and every directory as it
    was. *)
Theorem get_bbox_keeps_files fuel ids bbox w :
  files (snd (get_bbox fuel ids bbox w)) = files w /\
  dirs (snd (get_bbox fuel ids bbox w)) = dirs w.
Proof.
  pose proof (keeps_get_bbox fuel ids bbox w) as Hfs.
  by injection Hfs as Hfiles Hdirs.
Qed.

(** *** The rows of a traversal *)

Lemma visit_located fuel boxes (rows : list Row) ids w res ids' w' :
  (forall ids bbox w rows ids' w',
     get_bbox fuel ids bbox w = (Ok (rows, ids'), w') -> Forall located rows) ->
  Forall located rows ->
  visit fuel boxes rows ids w = (Ok (res, ids'), w') ->
  Forall located res.
Proof.
  intros IHfuel. revert rows ids w.
  induction boxes as [|bbox rest IH]; intros rows ids w Hrows; simpl.
  - by intros [= <- <- <-].
  - intros Hrun. apply bind_Ok in Hrun as ([rows1 ids1] & w1 & Hq & Hrun).
    apply IHfuel in Hq. apply IH in Hrun; [done|].
    apply Forall_app. by split.
Qed.

(** X25. Every row that [get_bbox] returns has a float in its X column and
    a float in its Y column. *)
Theorem get_bbox_rows_located fuel ids bbox w rows ids' w' :
  get_bbox fuel ids bbox w = (Ok (rows, ids'), w') -> Forall located rows.
Proof.
  revert ids bbox w rows ids' w'.
  induction fuel as [|fuel IH]; intros ids bbox w rows ids' w'; [discriminate|].
  rewrite get_bbox_steps. intros Hrun.
  apply bind_Ok in Hrun as ([features [rows0 ids0]] & w1 & Htile & Hrun).
  apply fetch_tile_located in Htile. cbn [fst snd] in Hrun.
  destruct (max_record_count <=? Z.of_nat (List.length features)).
  - unfold subdivide in Hrun.
    apply bind_Ok in Hrun as (mean_x & w2 & _ & Hrun).
    apply bind_Ok in Hrun as (mean_y & w3 & _ & Hrun).
    by apply (visit_located fuel _ _ _ _ _ _ _ IH Htile) in Hrun.
  - by injection Hrun as <- <- <-.
Qed.


(** *** The loop over the features of a tile *)

Lemma collect_rows_app geometry_type (before rest : list Feature) ids acc w :
  collect_rows geometry_type (before ++ rest) ids acc w
  = (collected <- collect_rows geometry_type before ids acc ;;
     collect_rows geometry_type rest (snd collected) (fst collected))%py w.
Proof.
  revert ids acc w. induction before as [|feature before IH]; intros ids acc w; [done|].
  change ((feature :: before) ++ rest) with (feature :: (before ++ rest)).
  rewrite !collect_rows_cons. cbv zeta.
  rewrite bind_assoc. apply bind_ext. intros oid w1.
  destruct (bool_decide (oid ∈ ids)); [apply IH|].
  rewrite bind_assoc. apply bind_ext. intros ogr_geom w2.
  rewrite bind_assoc. apply bind_ext. intros row w3.
  rewrite bind_assoc. apply bind_ext. intros added w4.
  apply IH.
Qed.

Lemma collect_rows_reaches geometry_type (before : list Feature) feature rest
    ids acc w rows ids' w' :
  collect_rows geometry_type before ids acc w = (Ok (rows, ids'), w') ->
  collect_rows geometry_type (before ++ feature :: rest) ids acc w
  = collect_rows geometry_type (feature :: rest) ids' rows w'.
Proof. intros Hbefore. by rewrite collect_rows_app, (bind_run _ _ _ _ _ Hbefore). Qed.

(** X20. A feature without the object-id attribute ends the loop over the
    features of a tile with KeyError, whatever the features before it have
    added: nothing of the tile is returned. *)
Theorem collect_rows_missing_objectid geometry_type (before : list Feature) feature rest
    ids acc w rows ids' w' :
  collect_rows geometry_type before ids acc w = (Ok (rows, ids'), w') ->
  default ∅ (attributes feature) !! objectid_fieldname = None ->
  collect_rows geometry_type (before ++ feature :: rest) ids acc w
  = (Raise (KeyError objectid_fieldname), w').
Proof.
  intros Hbefore Hoid. rewrite (collect_rows_reaches _ _ _ _ _ _ _ _ _ _ Hbefore).
  rewrite collect_rows_cons. cbv zeta. by rewrite Hoid.
Qed.



(** A column that the centroid does not write and that no feature of the
    server has is a column of no row. *)
Definition without (key : string) (row : Row) : Prop := row !! key = None.

Definition serves_without (key : string) : Prop :=
  forall n url args (r : EsriResponse) payload features (feature : Feature),
    requests_get n url args = Responds r ->
    esri_json r = Some payload ->
    p_features payload = Some features ->
    feature ∈ features ->
    default ∅ (attributes feature) !! key = None.

Lemma collect_rows_without key geometry_type (features : list Feature) ids acc w
    rows ids' w' :
  key <> X_FIELDNAME -> key <> Y_FIELDNAME ->
  Forall (fun feature : Feature => default ∅ (attributes feature) !! key = None) features ->
  Forall (without key) acc ->
  collect_rows geometry_type features ids acc w = (Ok (rows, ids'), w') ->
  Forall (without key) rows.
Proof.
  intros Hx Hy Hfeatures. revert ids acc w.
  induction Hfeatures as [|feature rest Hfeature _ IH]; intros ids acc w Hacc.
  - by intros [= <- <- <-].
  - rewrite collect_rows_cons. cbv zeta. intros Hrun.
    apply bind_Ok in Hrun as (oid & wa & _ & Hrun).
    destruct (bool_decide (oid ∈ ids)); [by apply IH in Hrun|].
    apply bind_Ok in Hrun as (ogr_geom & wb & _ & Hrun).
    apply bind_Ok in Hrun as (row & wc & Hcentroid & Hrun).
    apply set_centroid_Ok in Hcentroid as (_ & _ & Hsame).
    apply bind_Ok in Hrun as (added & wd & _ & Hrun).
    apply IH in Hrun; [done|]. apply Forall_app. split; [done|].
    constructor; [|constructor]. unfold without. by rewrite Hsame.
Qed.

Lemma query_loop_Ok args tries response r w w' :
  query_loop args tries response w = (Ok r, w') ->
  response = Some r \/
  exists n, requests_get n (source_url +:+ "/query") args = Responds r.
Proof.
  remember (Z.to_nat (tries + 1)) as n eqn:Hn.
  revert tries response w Hn. induction n as [n IH] using lt_wf_ind.
  intros tries response w Hn. rewrite query_loop_unfold_body.
  destruct (Z_le_dec 0 tries).
  - intros Hrun. apply bind_Ok in Hrun as (r0 & w1 & Hget & Hrun).
    assert (Hr0 : requests_get (requests w) (source_url +:+ "/query") args = Responds r0).
    { unfold EsriRestDownloadTask.esri_get in Hget.
      destruct (requests_get (requests w) _ args); by inversion Hget. }
    unfold try_except in Hrun.
    destruct ((check_response r0 ;;; ret r0)%py w1) as [[a|e|] w2] eqn:Hcheck.
    + apply bind_Ok in Hcheck as (u & w3 & _ & Hret).
      injection Hret as <- <-. injection Hrun as <- <-. right. by eexists.
    + destruct (is_DownloadError e); [|discriminate].
      apply bind_Ok in Hrun as (u1 & w3 & _ & Hrun).
      apply bind_Ok in Hrun as (u2 & w4 & _ & Hrun).
      apply (IH (Z.to_nat (tries - 1 + 1))) in Hrun; [|lia|reflexivity].
      destruct Hrun as [[= <-] | Hrun]; [|by right]. right. by eexists.
    + discriminate.
  - destruct response as [r0|]; [|discriminate].
    intros [= <- <-]. by left.
Qed.

Lemma visit_without key fuel boxes (rows : list Row) ids w res ids' w' :
  (forall ids bbox w rows ids' w',
     get_bbox fuel ids bbox w = (Ok (rows, ids'), w') -> Forall (without key) rows) ->
  Forall (without key) rows ->
  visit fuel boxes rows ids w = (Ok (res, ids'), w') ->
  Forall (without key) res.
Proof.
  intros IHfuel. revert rows ids w.
  induction boxes as [|bbox rest IH]; intros rows ids w Hrows; simpl.
  - by intros [= <- <- <-].
  - intros Hrun. apply bind_Ok in Hrun as ([rows1 ids1] & w1 & Hq & Hrun).
    apply IHfuel in Hq. apply IH in Hrun; [done|].
    apply Forall_app. by split.
Qed.

Lemma get_bbox_without key fuel ids bbox w rows ids' w' :
  key <> X_FIELDNAME -> key <> Y_FIELDNAME ->
  serves_without key ->
  get_bbox fuel ids bbox w = (Ok (rows, ids'), w') -> Forall (without key) rows.
Proof.
  intros Hx Hy Hserver. revert ids bbox w rows ids' w'.
  induction fuel as [|fuel IH]; intros ids bbox w rows ids' w'; [discriminate|].
  rewrite get_bbox_steps. intros Hrun.
  apply bind_Ok in Hrun as ([features [rows0 ids0]] & w1 & Htile & Hrun).
  assert (Hrows0 : Forall (without key) rows0).
  { unfold fetch_tile in Htile.
    apply bind_Ok in Htile as (response & w2 & Hquery & Htile).
    apply bind_Ok in Htile as (payload & w3 & Hjson & Htile).
    apply bind_Ok in Htile as (fs & w4 & Hfs & Htile).
    apply bind_Ok in Htile as ([rows1 ids1] & w5 & Hcollect & Htile).
    injection Htile as <- <- <- <-.
    apply query_loop_Ok in Hquery as [[=] | [n Hget]].
    destruct (esri_json response) as [payload'|] eqn:Hpayload; [|discriminate].
    injection Hjson as -> <-.
    destruct (p_features payload) as [fs'|] eqn:Hfeatures; [|discriminate].
    injection Hfs as -> <-.
    apply (collect_rows_without key _ _ _ _ _ _ _ _ Hx Hy) in Hcollect; [done| |constructor].
    apply Forall_forall. intros feature Hin.
    by apply (Hserver n _ _ response payload fs feature Hget). }
  cbn [fst snd] in Hrun.
  destruct (max_record_count <=? Z.of_nat (List.length features)).
  - unfold subdivide in Hrun.
    apply bind_Ok in Hrun as (mean_x & w2 & _ & Hrun).
    apply bind_Ok in Hrun as (mean_y & w3 & _ & Hrun).
    by apply (visit_without key fuel _ _ _ _ _ _ _ IH Hrows0) in Hrun.
  - by injection Hrun as <- <- <-.
Qed.


End EsriQueries.

(** ** The header of the file *)

Lemma append_if_absent_prefix name names :
  names `prefix_of` EsriRestDownloadTask.append_if_absent name names.
Proof.
  unfold EsriRestDownloadTask.append_if_absent. case_bool_decide.
  - done.
  - by apply prefix_app_r.
Qed.

Lemma elem_of_append_if_absent x name names :
  x ∈ EsriRestDownloadTask.append_if_absent name names <-> x ∈ names \/ x = name.
Proof.
  unfold EsriRestDownloadTask.append_if_absent. case_bool_decide as Hin.
  - split; [by left | by intros [?| ->]].
  - rewrite elem_of_app, list_elem_of_singleton. tauto.
Qed.

Lemma NoDup_append_if_absent name names :
  NoDup names -> NoDup (EsriRestDownloadTask.append_if_absent name names).
Proof.
  intros Hnd. unfold EsriRestDownloadTask.append_if_absent. case_bool_decide as Hin.
  - done.
  - apply NoDup_app. split; [done|]. split; [|apply NoDup_singleton].
    intros x Hx Hx'. apply list_elem_of_singleton in Hx'. by subst.
Qed.

(** ** What exists stays *)






(** ** The metadata of a layer, and the file of a download *)

Section AcquisitionFiles.

Import EsriRestDownloadTask.

Context {num : Type} `{Float num}.

Abbreviation Value := (@Value num).
Abbreviation Row := (gmap string Value).
Abbreviation Feature := (@Feature num).
Abbreviation Payload := (@Payload num).
Abbreviation EsriResponse := (@EsriResponse num).
Abbreviation OgrGeometry := (@OgrGeometry num).

Variable Centroid : OgrGeometry -> string + num * num.
Variable GetEnvelope : OgrGeometry -> num * num * num * num.
Variable ExportToWkt : OgrGeometry -> string.
Variable Transform : Z -> Z -> OgrGeometry -> OgrGeometry.
Variable X_FIELDNAME Y_FIELDNAME GEOM_FIELDNAME : string.
Variable csv_header : list string -> list byte.
Variable csv_row : list string -> Row -> list byte.
Variable urlparse : string -> ParseResult.
Variable sha1_hexdigest : string -> string.
Variable requests_get : nat -> string -> list (string * string) -> Reply EsriResponse.

Abbreviation layer_metadata :=
  (layer_metadata GetEnvelope Transform X_FIELDNAME Y_FIELDNAME GEOM_FIELDNAME requests_get).
Abbreviation layer_of :=
  (layer_of GetEnvelope Transform X_FIELDNAME Y_FIELDNAME GEOM_FIELDNAME).
Abbreviation write_feature :=
  (write_feature Centroid GetEnvelope ExportToWkt X_FIELDNAME Y_FIELDNAME
     GEOM_FIELDNAME csv_row).
Abbreviation write_features :=
  (write_features Centroid GetEnvelope ExportToWkt X_FIELDNAME Y_FIELDNAME
     GEOM_FIELDNAME csv_row).
Abbreviation get_file_path :=
  (EsriRestDownloadTask.get_file_path urlparse sha1_hexdigest).
Abbreviation get_bbox :=
  (EsriRestDownloadTask.get_bbox Centroid GetEnvelope X_FIELDNAME Y_FIELDNAME requests_get).
Abbreviation download_one :=
  (EsriRestDownloadTask.download_one Centroid GetEnvelope ExportToWkt Transform
     X_FIELDNAME Y_FIELDNAME GEOM_FIELDNAME csv_header csv_row urlparse
     sha1_hexdigest requests_get).

Lemma keeps_error_check (metadata : Payload) : keeps id (error_check metadata).
Proof.
  unfold error_check. destruct (p_error metadata) as [e|]; [|apply keeps_ret].
  destruct (truthy_error e); [|apply keeps_ret].
  apply keeps_bind; [apply keeps_lift_option | intros; apply keeps_raise].
Qed.

Lemma keeps_layer_of (metadata : Payload) : keeps id (layer_of metadata).
Proof.
  unfold layer_of.
  destruct (p_fields metadata) as [[|field fields]|]; try apply keeps_raise.
  destruct (find_objectid _) as [[|c oid]|]; try apply keeps_raise.
  destruct (p_geometryType metadata) as [[|c' gt]|]; try apply keeps_raise.
  apply keeps_bind; [apply keeps_lift_option|]. intros extent.
  destruct (GetEnvelope _) as [[[x0 x1] y0] y1]. apply keeps_ret.
Qed.

Lemma layer_metadata_world source_url w :
  snd (layer_metadata source_url w) = asked source_url w.
Proof.
  destruct (requests_get (requests w) source_url [("f", "json")])
    as [response|msg] eqn:Hget.
  - rewrite (layer_metadata_answered _ _ _ _ _ _ _ _ _ Hget).
    destruct (negb _); [done|].
    apply (keeps_bind id); [apply keeps_lift_option|]. intros metadata.
    apply (keeps_bind id); [apply keeps_error_check|]. intros _.
    apply keeps_layer_of.
  - unfold EsriRestDownloadTask.layer_metadata, bind, esri_get. by rewrite Hget.
Qed.

(** X14. The metadata of a layer are asked for once: whatever the server
    answers, and whether the phase returns or raises, one request has
    been made, for the layer root with f=json; nothing is retried, and no
    file and no directory changes. *)
Theorem layer_metadata_one_request source_url w :
  let w' := snd (layer_metadata source_url w) in
  requests w' = S (requests w) /\
  log w' = log w ++ [EvRequest source_url [("f", "json")]] /\
  files w' = files w /\
  dirs w' = dirs w.
Proof. intros w'. subst w'. by rewrite layer_metadata_world. Qed.

Lemma layer_metadata_Ok source_url w response layer w' :
  requests_get (requests w) source_url [("f", "json")] = Responds response ->
  layer_metadata source_url w = (Ok layer, w') ->
  exists metadata,
    esri_status response = 200 /\ esri_json response = Some metadata /\
    layer_of metadata (asked source_url w) = (Ok layer, w').
Proof.
  intros Hget. rewrite (layer_metadata_answered _ _ _ _ _ _ _ _ _ Hget).
  destruct (esri_status response =? 200) eqn:Hstatus; [|discriminate].
  apply Z.eqb_eq in Hstatus. cbn [negb]. intros Hrun.
  apply bind_Ok in Hrun as (metadata & w1 & Hjson & Hrun).
  destruct (esri_json response) as [metadata'|]; [|discriminate].
  injection Hjson as -> <-.
  apply bind_Ok in Hrun as ([] & w2 & Hcheck & Hrun).
  pose proof (keeps_error_check metadata (asked source_url w)) as Hw.
  rewrite Hcheck in Hw. simpl in Hw. subst w2.
  by exists metadata.
Qed.

(** X16. The header of the file: the names of the fields of the layer in
    the order of the metadata, followed by those of the three derived
    columns that the layer does not have; a name is a column if and only
    if it is one of these, and no name that the layer has once is a
    column twice. *)
Theorem layer_metadata_header source_url w response layer w' :
  requests_get (requests w) source_url [("f", "json")] = Responds response ->
  layer_metadata source_url w = (Ok layer, w') ->
  exists metadata fields,
    esri_json response = Some metadata /\
    p_fields metadata = Some fields /\
    (field_name <$> fields) `prefix_of` li_field_names layer /\
    (forall name,
       name ∈ li_field_names layer <->
       name ∈ field_name <$> fields \/
       name ∈ [X_FIELDNAME; Y_FIELDNAME; GEOM_FIELDNAME]) /\
    (NoDup (field_name <$> fields) -> NoDup (li_field_names layer)).
Proof.
  intros Hget Hrun.
  destruct (layer_metadata_Ok _ _ _ _ _ Hget Hrun) as (metadata & _ & Hjson & Hlayer).
  exists metadata. unfold layer_of in Hlayer.
  destruct (p_fields metadata) as [[|field fields]|]; try discriminate.
  exists (field :: fields). split; [done|]. split; [done|].
  destruct (find_objectid _) as [[|c oid]|]; try discriminate.
  destruct (p_geometryType metadata) as [[|c' gt]|]; try discriminate.
  apply bind_Ok in Hlayer as (extent & w1 & _ & Hlayer).
  destruct (GetEnvelope _) as [[[x0 x1] y0] y1].
  injection Hlayer as <- _. cbn [li_field_names].
  split; [|split].
  - etrans; [|apply append_if_absent_prefix].
    etrans; [|apply append_if_absent_prefix]. apply append_if_absent_prefix.
  - intros name. cbn [fmap list_fmap].
    rewrite !elem_of_append_if_absent, !elem_of_cons, elem_of_nil.
    split.
    + intros [[[[Hn|Hn]|Hn]|Hn]|Hn]; auto.
    + intros [[Hn|Hn]|[Hn|[Hn|[Hn|[]]]]]; auto.
  - intros Hnd. by do 3 apply NoDup_append_if_absent.
Qed.

Lemma find_objectid_first fields name :
  find_objectid fields = Some name ->
  exists before field after,
    fields = before ++ field :: after /\
    Forall (fun f => field_type f <> "esriFieldTypeOID") before /\
    field_type field = "esriFieldTypeOID" /\
    field_name field = name.
Proof.
  induction fields as [|field fields IH]; simpl; [discriminate|].
  destruct (String.eqb_spec (field_type field) "esriFieldTypeOID") as [Heq|Hne].
  - intros [= <-]. by exists [], field, fields.
  - intros Hfind. destruct (IH Hfind) as (before & f & after & -> & Hbefore & Hf & Hname).
    exists (field :: before), f, after. split; [done|]. split; [|done].
    by constructor.
Qed.

(** X17. The object-id column of a layer is the first field of type
    esriFieldTypeOID, and its name is not empty; the cap is the
    maxRecordCount of the metadata, and 500 when they give none. *)
Theorem layer_metadata_first_objectid source_url w response layer w' :
  requests_get (requests w) source_url [("f", "json")] = Responds response ->
  layer_metadata source_url w = (Ok layer, w') ->
  exists metadata fields before field after,
    esri_json response = Some metadata /\
    p_fields metadata = Some fields /\
    fields = before ++ field :: after /\
    Forall (fun f => field_type f <> "esriFieldTypeOID") before /\
    field_type field = "esriFieldTypeOID" /\
    li_objectid_fieldname layer = field_name field /\
    field_name field <> "" /\
    li_max_record_count layer = default 500 (p_maxRecordCount metadata).
Proof.
  intros Hget Hrun.
  destruct (layer_metadata_Ok _ _ _ _ _ Hget Hrun) as (metadata & _ & Hjson & Hlayer).
  unfold layer_of in Hlayer.
  destruct (p_fields metadata) as [[|field0 fields]|] eqn:Hfields; try discriminate.
  destruct (find_objectid _) as [[|c oid]|] eqn:Hfind; try discriminate.
  destruct (p_geometryType metadata) as [[|c' gt]|]; try discriminate.
  apply bind_Ok in Hlayer as (extent & w1 & _ & Hlayer).
  destruct (GetEnvelope _) as [[[x0 x1] y0] y1].
  injection Hlayer as <- _. cbn [li_objectid_fieldname li_max_record_count].
  destruct (find_objectid_first _ _ Hfind) as (before & field & after & Hsplit & Hb & Hf & Hn).
  exists metadata, (field0 :: fields), before, field, after.
  rewrite Hn. by repeat (split; [done|]).
Qed.

(** *** The file of a download *)

Lemma esri_download_one_present prefix fuel download_path source_url w file_path w1 :
  get_file_path prefix source_url download_path w = (Ok file_path, w1) ->
  path_exists file_path w = true ->
  download_one prefix fuel download_path source_url w
  = (Ok file_path, emit (EvLog "File exists") (emit (EvLog "Downloading") w)).
Proof.
  intros Hpath Hex. unfold EsriRestDownloadTask.download_one.
  rewrite (bind_run _ _ _ _ _ Hpath).
  injection Hpath as Hfp <-. unfold os_path_exists, bind at 1.
  replace (path_exists file_path (emit (EvLog "Downloading") w)) with true by done.
  reflexivity.
Qed.

(** X27. A destination that exists is taken for the download: the path
    is returned, the layer is not asked for anything, and no file and no
    directory changes. *)
Theorem esri_download_one_skips_existing prefix fuel download_path source_url w
    file_path w1 :
  get_file_path prefix source_url download_path w = (Ok file_path, w1) ->
  path_exists file_path w = true ->
  let run := download_one prefix fuel download_path source_url w in
  fst run = Ok file_path /\
  requests (snd run) = requests w /\
  files (snd run) = files w /\
  dirs (snd run) = dirs w.
Proof.
  intros Hpath Hex run0. subst run0.
  by rewrite (esri_download_one_present _ _ _ _ _ _ _ Hpath Hex).
Qed.



(** X28. When the attributes of the features have no column named
    geometry, a download that returns has written the header line and
    nothing else: every row of the traversal is skipped by the loop that
    writes the file. No other file changes. *)
Theorem esri_download_one_header_only prefix fuel download_path source_url w
    file_path w' :
  "geometry" <> X_FIELDNAME ->
  "geometry" <> Y_FIELDNAME ->
  serves_without requests_get "geometry" ->
  path_exists file_path w = false ->
  download_one prefix fuel download_path source_url w = (Ok file_path, w') ->
  exists layer,
    fst (layer_metadata source_url (emit (EvLog "Downloading") w)) = Ok layer /\
    files w' = <[file_path := csv_header (li_field_names layer)]> (files w).
Proof.
  intros Hx Hy Hserver Hnew. unfold EsriRestDownloadTask.download_one. intros Hrun.
  apply bind_Ok in Hrun as (fp & w1 & Hpath & Hrun).
  injection Hpath as Hfp <-.
  apply bind_Ok in Hrun as (present & w2 & Hex & Hrun).
  injection Hex as <- <-.
  destruct (path_exists fp (emit (EvLog "Downloading") w)) eqn:Hpresent.
  { apply bind_Ok in Hrun as ([] & w3 & _ & Hrun). injection Hrun as -> _.
    unfold path_exists in *. simpl in Hpresent. congruence. }
  apply bind_Ok in Hrun as (layer & w2 & Hlayer & Hrun).
  exists layer. split; [by rewrite Hlayer|].
  pose proof (layer_metadata_world source_url (emit (EvLog "Downloading") w)) as Hw2.
  rewrite Hlayer in Hw2. simpl in Hw2.
  apply bind_Ok in Hrun as ([] & w3 & Hwrite & Hrun). injection Hwrite as <-.
  apply bind_Ok in Hrun as ([rows ids] & w4 & Hbbox & Hrun).
  pose proof (keeps_get_bbox Centroid GetEnvelope X_FIELDNAME Y_FIELDNAME requests_get
                source_url (li_objectid_fieldname layer) (li_max_record_count layer)
                fuel ∅ (li_extent layer)
                (set_files (insert fp (csv_header (li_field_names layer))) w2)) as Hkeeps.
  rewrite Hbbox in Hkeeps. injection Hkeeps as Hfiles4 _.
  apply (get_bbox_without _ _ _ _ _ _ _ _ "geometry") in Hbbox; [|done..].
  cbn [fst] in Hrun.
  apply bind_Ok in Hrun as (size & w5 & Hwritten & Hrun).
  rewrite (write_features_writes_nothing _ _ _ _ _ _ _ _ _ _ _ _ _ Hbbox) in Hwritten.
  injection Hwritten as _ <-.
  apply bind_Ok in Hrun as ([] & w6 & Hlog & Hrun). injection Hlog as <-.
  injection Hrun as <- <-. simpl. rewrite files_skipping, Hfiles4. simpl.
  by rewrite Hw2.
Qed.


End AcquisitionFiles.

(** ** Names in the store *)

(** No separator occurs in the text. *)
Fixpoint slashless (s : string) : bool :=
  match s with
  | EmptyString => true
  | String c s' => negb (Ascii.eqb c slash) && slashless s'
  end.

Lemma append_cons x (a b : string) : String x a +:+ b = String x (a +:+ b).
Proof. reflexivity. Qed.

Lemma append_assoc (a b c : string) : (a +:+ b) +:+ c = a +:+ (b +:+ c).
Proof. induction a as [|x a IH]; [done|]. rewrite !append_cons. by f_equal. Qed.

Lemma append_empty_r (a : string) : a +:+ "" = a.
Proof. induction a as [|x a IH]; [done|]. rewrite append_cons. by f_equal. Qed.

Lemma slashless_append a b : slashless (a +:+ b) = slashless a && slashless b.
Proof.
  induction a as [|x a IH]; [done|]. rewrite append_cons. simpl.
  rewrite IH. by rewrite andb_assoc.
Qed.

Lemma basename_from_append cur a b :
  basename_from cur (a +:+ b) = basename_from (basename_from cur a) b.
Proof.
  revert cur. induction a as [|x a IH]; intros cur; [done|].
  rewrite append_cons. simpl. destruct (Ascii.eqb x slash); apply IH.
Qed.

Lemma slashless_basename_from cur p :
  slashless cur = true -> slashless (basename_from cur p) = true.
Proof.
  revert cur. induction p as [|x p IH]; intros cur Hcur; simpl; [done|].
  destruct (Ascii.eqb x slash) eqn:Hx; apply IH; [done|].
  rewrite slashless_append, Hcur. simpl. by rewrite Hx.
Qed.

Lemma basename_from_slashless cur n :
  slashless n = true -> basename_from cur n = cur +:+ n.
Proof.
  revert cur. induction n as [|x n IH]; intros cur; simpl.
  - intros _. by rewrite append_empty_r.
  - intros Hn. apply andb_prop in Hn as [Hx Hn].
    apply negb_true_iff in Hx. rewrite Hx, (IH _ Hn). by rewrite append_assoc.
Qed.

Lemma basename_from_endswith_slash cur a :
  endswith_slash a = true -> basename_from cur a = "".
Proof.
  revert cur. induction a as [|x a IH]; intros cur; [discriminate|].
  destruct a as [|y a].
  - simpl. by intros ->.
  - intros Hend. change (endswith_slash (String y a) = true) in Hend.
    change (basename_from cur (String x (String y a)))
      with (if Ascii.eqb x slash then basename_from "" (String y a)
            else basename_from (cur +:+ String x "") (String y a)).
    destruct (Ascii.eqb x slash); by apply IH.
Qed.

(** The name under which an artifact is stored is the name of what is
    stored. *)
Lemma basename_path_join resultdir filepath :
  basename (path_join resultdir (basename filepath)) = basename filepath.
Proof.
  assert (Hn : slashless (basename filepath) = true)
    by (by apply slashless_basename_from).
  revert Hn. generalize (basename filepath). intros n Hn.
  assert (Hself : basename_from "" n = n) by (by rewrite basename_from_slashless).
  unfold path_join.
  assert (Hstart : startswith_slash n = false).
  { destruct n as [|x n]; [done|]. simpl in *.
    apply andb_prop in Hn as [Hx _]. by apply negb_true_iff in Hx. }
  rewrite Hstart. unfold basename.
  destruct (String.eqb_spec resultdir "") as [->|Hne]; simpl.
  - exact Hself.
  - destruct (endswith_slash resultdir) eqn:Hend.
    + by rewrite basename_from_append, (basename_from_endswith_slash "" resultdir).
    + rewrite basename_from_append.
      change ("/" +:+ n) with (String slash n). simpl. exact Hself.
Qed.

Section CacheStore.

Variable md5_hexdigest : list byte -> string.
Variable urlparse : string -> ParseResult.
Variable abspath : string -> string.

Abbreviation compare_cache_details :=
  (compare_cache_details md5_hexdigest urlparse abspath).
Abbreviation declares := (declares urlparse).

(** X2. An artifact that is no regular file: when nothing is at its
    path, [compare_cache_details] raises the Exception that names the
    missing file; when a directory is there, opening it raises OSError.
    The world stays as it is: the store is not created. *)
Theorem compare_cache_details_no_file filepath resultdir data w :
  files w !! filepath = None ->
  compare_cache_details filepath resultdir data w
  = (Raise (if bool_decide (filepath ∈ dirs w) then OSError filepath
            else Exception ("cached file " +:+ filepath +:+ " is missing")),
     w).
Proof.
  intros Hnone. unfold compare_cache_details, bind at 1, os_path_exists, path_exists.
  rewrite Hnone. rewrite bool_decide_eq_false_2 by (by intros [? ?]).
  case_bool_decide; [|done]. simpl.
  unfold bind at 1, read_file. by rewrite Hnone.
Qed.

Lemma promoted_again filepath resultdir content w :
  path_exists resultdir (promoted filepath resultdir content w) = true ->
  let stored := path_join resultdir (basename filepath) in
  promoted stored resultdir content (promoted filepath resultdir content w)
  = promoted filepath resultdir content w.
Proof.
  intros Hex stored. subst stored. unfold promoted at 1, stocked at 1. rewrite Hex.
  rewrite basename_path_join.
  unfold promoted, set_files. simpl. f_equal.
  by rewrite insert_delete_eq, insert_insert_eq.
Qed.

(** When the second branch returns, the store could take the artifact. *)
Lemma promote_Ok filepath resultdir content w result w1 :
  files w !! filepath = Some content ->
  promote md5_hexdigest abspath filepath resultdir content w = (Ok result, w1) ->
  isdir (path_join resultdir (basename filepath)) w1 = false ->
  storable filepath resultdir w /\
  result = ("file://" +:+ path_join (abspath resultdir) (basename filepath),
            md5_hexdigest content) /\
  w1 = promoted filepath resultdir content w.
Proof.
  intros Hf Hrun Hnodir. unfold promote in Hrun.
  apply bind_Ok in Hrun as (present & w0 & Hex & Hrun).
  injection Hex as <- <-.
  apply bind_Ok in Hrun as ([] & w2 & Hstore & Hrun).
  apply bind_Ok in Hrun as ([] & w3 & Hmove & Hrun).
  injection Hrun as <- <-.
  assert (Hw2 : w2 = stocked resultdir w /\
                (path_exists resultdir w = true \/
                 (all_slashes resultdir = false /\ parent_isdir resultdir w = true))).
  { unfold stocked. destruct (path_exists resultdir w) eqn:Hex; cbn [negb] in Hstore.
    - injection Hstore as <-. split; [done | by left].
    - unfold mkdir in Hstore. rewrite Hex in Hstore. cbn [orb] in Hstore.
      destruct (all_slashes resultdir); [discriminate|].
      destruct (parent_isdir resultdir w); [|discriminate].
      injection Hstore as <-. split; [done | by right]. }
  destruct Hw2 as [-> Hstore'].
  unfold move in Hmove. rewrite stocked_files, Hf in Hmove.
  destruct (isdir (path_join resultdir (basename filepath)) (stocked resultdir w))
    eqn:Hdir.
  - destruct (path_exists _ (stocked resultdir w)); [discriminate|].
    injection Hmove as <-. unfold isdir in *. simpl in Hnodir. congruence.
  - destruct (parent_isdir _ (stocked resultdir w)) eqn:Hparent; [|discriminate].
    injection Hmove as <-. by repeat split.
Qed.

(** X3. Reconciling the stored artifact once more changes nothing: when
    the first call has returned with the artifact moved into the store,
    and no directory is at the path the artifact has there,
    [compare_cache_details] on this path returns the same reference and
    the same fingerprint, and leaves the world as the first call left
    it. The path of the store is no regular file. *)
Theorem compare_cache_details_again filepath resultdir data data' w content result w1 :
  files w !! filepath = Some content ->
  files w !! resultdir = None ->
  scheme (urlparse "") <> "http" ->
  (forall cache, ~ declares data cache (md5_hexdigest content)) ->
  (forall cache, ~ declares data' cache (md5_hexdigest content)) ->
  compare_cache_details filepath resultdir data w = (Ok result, w1) ->
  isdir (path_join resultdir (basename filepath)) w1 = false ->
  compare_cache_details (path_join resultdir (basename filepath)) resultdir data' w1
  = (Ok result, w1).
Proof.
  intros Hf Hdir Hempty Hno Hno' Hfirst Hnodir.
  rewrite (compare_unknown _ _ _ _ _ _ _ _ Hf Hempty Hno) in Hfirst.
  apply (promote_Ok _ _ _ _ _ _ Hf) in Hfirst as ((Hstore & _ & Hparent) & -> & ->);
    [|done].
  assert (Hex : path_exists resultdir (promoted filepath resultdir content w) = true).
  { unfold promoted, stocked.
    destruct (path_exists resultdir w) eqn:Hw;
      unfold path_exists; apply orb_true_iff; right; apply bool_decide_eq_true_2; simpl.
    - unfold path_exists in Hw. rewrite Hdir in Hw.
      rewrite bool_decide_eq_false_2 in Hw by (by intros [? ?]).
      by apply bool_decide_eq_true_1 in Hw.
    - set_solver. }
  rewrite (compare_promotes _ _ _ (path_join resultdir (basename filepath))
             resultdir data' _ content).
  - by rewrite basename_path_join, promoted_again.
  - rewrite promoted_files. apply lookup_insert_eq.
  - done.
  - done.
  - unfold storable, stocked. rewrite basename_path_join, Hex.
    split; [by left|]. split; [done|].
    unfold parent_isdir, isdir in *. by simpl in *.
Qed.

End CacheStore.

(** X1. When [mkdirsp] returns, the path is a directory, no file has
    changed, every directory that was there is still there, and a second
    call returns without a change. *)
Theorem mkdirsp_makes_directory p w w' :
  mkdirsp p w = (Ok tt, w') ->
  p ∈ dirs w' /\ files w' = files w /\ dirs w ⊆ dirs w' /\
  mkdirsp p w' = (Ok tt, w').
Proof.
  unfold mkdirsp. case_bool_decide as Hdir.
  - intros [= <-]. by rewrite bool_decide_eq_true_2.
  - case_bool_decide; [discriminate|]. intros [= <-]. simpl.
    rewrite bool_decide_eq_true_2 by set_solver.
    repeat split; [set_solver | set_solver].
Qed.

(** ** The choice of the task *)

Lemma lower_char_idempotent c : lower_char (lower_char c) = lower_char c.
Proof. by destruct c as [[] [] [] [] [] [] [] []]. Qed.

Lemma lower_idempotent s : lower (lower s) = lower s.
Proof.
  induction s as [|c s IH]; simpl; [done|]. by rewrite lower_char_idempotent, IH.
Qed.

(** X4. The type of a source is read without regard to the case of its
    letters. A type whose lower-case form is http or ftp selects the URL
    task, one whose lower-case form is esri the ESRI task, each with the
    prefix that was given; any other type is refused with a KeyError that
    carries the string as it was given. So two types that differ in case
    only select the same task, or are both refused. *)
Theorem from_type_string_ignores_case type_string source_prefix :
  (lower type_string = "http" \/ lower type_string = "ftp" ->
   from_type_string type_string source_prefix = inr (NewURLDownloadTask source_prefix)) /\
  (lower type_string = "esri" ->
   from_type_string type_string source_prefix
   = inr (NewEsriRestDownloadTask source_prefix)) /\
  (lower type_string <> "http" -> lower type_string <> "ftp" ->
   lower type_string <> "esri" ->
   from_type_string type_string source_prefix
   = inl (KeyError ("I don't know how to extract for type " +:+ type_string))) /\
  (forall other,
     lower other = lower type_string ->
     match from_type_string type_string source_prefix with
     | inr task => from_type_string other source_prefix = inr task
     | inl _ =>
         from_type_string other source_prefix
         = inl (KeyError ("I don't know how to extract for type " +:+ other))
     end) /\
  from_type_string (lower type_string) source_prefix
  = match from_type_string type_string source_prefix with
    | inr task => inr task
    | inl _ =>
        inl (KeyError ("I don't know how to extract for type " +:+ lower type_string))
    end.
Proof.
  unfold from_type_string. rewrite lower_idempotent. repeat split.
  - intros [-> | ->]; reflexivity.
  - by intros ->.
  - intros Hhttp Hftp Hesri.
    apply String.eqb_neq in Hhttp, Hftp, Hesri. by rewrite Hhttp, Hftp, Hesri.
  - intros other ->.
    repeat (destruct (String.eqb (lower type_string) _); [reflexivity|]). reflexivity.
  - repeat (destruct (String.eqb (lower type_string) _); [reflexivity|]). reflexivity.
Qed.

(** The types of three sources, as they may be written. *)
Lemma from_type_string_ignores_case_witness :
  from_type_string "HTTP" None = inr (NewURLDownloadTask None) /\
  from_type_string "Ftp" (Some "us-ca") = inr (NewURLDownloadTask (Some "us-ca")) /\
  from_type_string "ESRI" (Some "us-ca-oakland")
  = inr (NewEsriRestDownloadTask (Some "us-ca-oakland")) /\
  from_type_string "Gopher" None
  = inl (KeyError "I don't know how to extract for type Gopher").
Proof.
  split; [|split; [|split]].
  - destruct (from_type_string_ignores_case "HTTP" None) as (Hurl & _).
    apply Hurl. by left.
  - destruct (from_type_string_ignores_case "Ftp" (Some "us-ca")) as (Hurl & _).
    apply Hurl. by right.
  - destruct (from_type_string_ignores_case "ESRI" (Some "us-ca-oakland"))
      as (_ & Hesri & _).
    by apply Hesri.
  - destruct (from_type_string_ignores_case "Gopher" None) as (_ & _ & Hrefused & _).
    by apply Hrefused.
Defined.

(** ** Runs of the resolver and of the flat-file task *)

Module Transfers.

Import Net.

(** A URL with a query: its extension is not known before it is fetched. *)
Definition export_url : string := "http://data.example.com/export?format=zip".

(** A server that answers every request with these headers and this body. *)
Definition serving (hdrs : gmap string string) (body : list byte)
    : nat -> string -> Reply HttpResponse :=
  fun _ _ => Responds (mkHttpResponse 200 hdrs body).

Definition csv_named_zip : gmap string string :=
  {[ "content-type" := "text/csv; charset=utf-8";
     "content-disposition" := "attachment; filename=addresses.zip" ]}.

Definition zip_named_zip : gmap string string :=
  {[ "content-type" := "application/zip";
     "content-disposition" := "attachment; filename=addresses.zip" ]}.

Definition get_file_path (server : nat -> string -> Reply HttpResponse) :=
  URLDownloadTask.get_file_path Urls.urlparse Urls.text_digest guess_extension
    get_content_mimetype match_attachment server.

Definition download (server : nat -> string -> Reply HttpResponse) :=
  URLDownloadTask.download Urls.urlparse Urls.text_digest guess_extension
    get_content_mimetype match_attachment server.

Lemma export_url_needs_fetch : needs_fetch Urls.urlparse export_url.
Proof. left. vm_compute. discriminate. Qed.

Lemma export_url_over_http : over_http Urls.urlparse export_url.
Proof. by left. Qed.

(** An empty body. *)
Lemma guess_url_file_extension_empty_body_witness :
  Net.guess_url_file_extension (always 200 "") export_url workdir
  = (Raise StopIteration, emit (EvRequest export_url []) (tick workdir)).
Proof.
  apply (guess_url_file_extension_empty_body Urls.urlparse guess_extension
           get_content_mimetype match_attachment (always 200 "") export_url workdir
           (mkHttpResponse 200 ∅ [])).
  - exact export_url_needs_fetch.
  - exact export_url_over_http.
  - reflexivity.
  - reflexivity.
Defined.

(** A zip archive announced as text/csv: the first bytes decide. *)
Lemma guess_url_file_extension_disposition_disagrees_witness :
  fst (Net.guess_url_file_extension (serving csv_named_zip [x50; x4b; x03; x04])
         export_url workdir)
  = Ok (Some ".zip").
Proof.
  apply (guess_url_file_extension_disposition_disagrees Urls.urlparse guess_extension
           get_content_mimetype match_attachment
           (serving csv_named_zip [x50; x4b; x03; x04]) export_url workdir
           (mkHttpResponse 200 csv_named_zip [x50; x4b; x03; x04])
           "text/csv; charset=utf-8" "attachment; filename=addresses.zip"
           "addresses.zip").
  - exact export_url_needs_fetch.
  - exact export_url_over_http.
  - reflexivity.
  - discriminate.
  - reflexivity.
  - reflexivity.
  - reflexivity.
  - vm_compute. discriminate.
Defined.

(** A zip archive announced as such, twice: the body is not looked at. *)
Lemma guess_url_file_extension_disposition_agrees_witness :
  fst (Net.guess_url_file_extension (serving zip_named_zip (bytes "not a zip"))
         export_url workdir)
  = Ok (Some ".zip").
Proof.
  apply (f_equal fst
           (guess_url_file_extension_disposition_agrees Urls.urlparse guess_extension
              get_content_mimetype match_attachment
              (serving zip_named_zip (bytes "not a zip")) export_url workdir
              (mkHttpResponse 200 zip_named_zip (bytes "not a zip"))
              "application/zip" "attachment; filename=addresses.zip" "addresses.zip"
              export_url_needs_fetch export_url_over_http eq_refl
              ltac:(discriminate) eq_refl eq_refl eq_refl eq_refl
              ltac:(vm_compute; discriminate))).
Defined.

(** Two archives that differ in their hundredth byte, one of them sent
    with the status 500. *)
Lemma guess_url_file_extension_first_99_bytes_witness :
  Net.guess_url_file_extension
    (fun _ _ => Responds (mkHttpResponse 200 ∅ (replicate 99 x50 ++ [x00])))
    export_url workdir
  = Net.guess_url_file_extension
      (fun _ _ => Responds (mkHttpResponse 500 ∅ (replicate 99 x50 ++ [x01])))
      export_url workdir.
Proof.
  apply (guess_url_file_extension_first_99_bytes Urls.urlparse guess_extension
           get_content_mimetype match_attachment _ _ export_url workdir
           (mkHttpResponse 200 ∅ (replicate 99 x50 ++ [x00]))
           (mkHttpResponse 500 ∅ (replicate 99 x50 ++ [x01])));
    reflexivity.
Defined.

(** Plain text behind a URL with a query: no hint gives an extension. *)
Lemma get_file_path_without_extension_witness :
  fst (get_file_path (always 200 "hello") None export_url "/work/http" workdir)
  = Raise (TypeError "can only concatenate str to str").
Proof.
  apply (f_equal fst
           (get_file_path_without_extension Urls.urlparse Urls.text_digest guess_extension
              get_content_mimetype match_attachment (always 200 "hello") None
              export_url "/work/http" workdir
              (emit (EvLog "file says") (emit (EvRequest export_url []) (tick workdir)))
              eq_refl)).
Defined.

Definition zip_url : string := "http://data.example.com/addresses.zip".

(** The work directory after an earlier run. *)
Definition downloaded : World :=
  mkWorld {[ "/work/http/addresses.zip" := [x50; x4b] ]} {[ "/work/http" ]} 0 [].

Lemma download_one_skips_existing_witness :
  Net.download_one (always 200 "new") None "/work/http" zip_url downloaded
  = (Ok "/work/http/addresses.zip",
     emit (EvLog "File exists")
       (emit (EvLog "Guessed") (emit (EvLog "URL says") downloaded))).
Proof.
  apply (download_one_skips_existing Urls.urlparse Urls.text_digest guess_extension
           get_content_mimetype match_attachment (always 200 "new") None
           "/work/http" zip_url downloaded "/work/http/addresses.zip").
  - reflexivity.
  - vm_compute. discriminate.
  - reflexivity.
Defined.

(** A source on the local disk. *)
Definition local_url : string := "file:///data/addresses.zip".

Definition local_disk : World :=
  mkWorld {[ "/data/addresses.zip" := [x50; x4b] ]} {[ "/work/http" ]} 0 [].

(** The work directory of a run that is fed its own product. *)
Definition fed_back : World :=
  mkWorld {[ "/work/http/addresses.zip" := [x50; x4b] ]} {[ "/work/http" ]} 0 [].

Lemma download_one_copies_file_witness :
  fst (Net.download_one (always 200 "") None "/work/http" local_url local_disk)
  = Ok "/work/http/addresses.zip" /\
  fst (Net.download_one (always 200 "") None "/work/http"
         "file:///work/http/addresses.zip" fed_back)
  = Raise (OSError "/work/http/addresses.zip") /\
  fst (Net.download_one (always 200 "") None "/work/http" local_url workdir)
  = Raise (OSError "/data/addresses.zip").
Proof.
  destruct (download_one_copies_file Urls.urlparse Urls.text_digest guess_extension
              get_content_mimetype match_attachment (always 200 "") None
              "/work/http" local_url local_disk "/work/http/addresses.zip"
              (emit (EvLog "Guessed") (emit (EvLog "URL says") local_disk))
              eq_refl eq_refl eq_refl) as [Hcopied _].
  destruct (download_one_copies_file Urls.urlparse Urls.text_digest guess_extension
              get_content_mimetype match_attachment (always 200 "") None
              "/work/http" "file:///work/http/addresses.zip" fed_back
              "/work/http/addresses.zip"
              (emit (EvLog "Guessed") (emit (EvLog "URL says") fed_back))
              eq_refl eq_refl eq_refl) as (_ & Hsame & _).
  destruct (download_one_copies_file Urls.urlparse Urls.text_digest guess_extension
              get_content_mimetype match_attachment (always 200 "") None
              "/work/http" local_url workdir "/work/http/addresses.zip"
              (emit (EvLog "Guessed") (emit (EvLog "URL says") workdir))
              eq_refl eq_refl eq_refl) as (_ & _ & Hmissing).
  split; [|split].
  - refine (f_equal fst (Hcopied [x50; x4b] eq_refl _ eq_refl)). discriminate.
  - exact (f_equal fst (Hsame [x50; x4b] eq_refl eq_refl)).
  - exact (f_equal fst (Hmissing eq_refl)).
Defined.

(** Two sources, one on the disk and one on the network. *)
Lemma download_returns_existing_paths_witness :
  exists out w',
    download (always 200 "id,street") None [local_url; "http://data.example.com/streets.csv"]
      "/work" local_disk = (Ok out, w') /\
    List.length out = 2%nat /\
    Forall (fun p => path_exists p w' = true) out.
Proof.
  eexists _, _. split; [reflexivity|].
  apply (download_returns_existing_paths Urls.urlparse Urls.text_digest guess_extension
           get_content_mimetype match_attachment (always 200 "id,street") None
           [local_url; "http://data.example.com/streets.csv"] "/work" local_disk).
  reflexivity.
Defined.

End Transfers.

(** ** Further runs on the example layer *)

Module Traversals.

Import Rational EsriRestDownloadTask Layer.

Definition unavailable : EsriResponse := mkEsriResponse 503 "" (Some (points [])).

Definition main_street : EsriResponse :=
  mkEsriResponse 200 "" (Some (points [point 1 "Main" 1 1])).

(** Two failures, then a success. *)
Lemma query_loop_succeeds_after_failures_witness :
  query_loop (scripted [Responds unavailable; Responds unavailable; Responds main_street])
    source_url (query_args square) 3 None start
  = (Ok main_street,
     answered source_url (query_args square)
       (retried source_url (query_args square)
          (retried source_url (query_args square) start))).
Proof.
  apply (query_loop_succeeds_after_failures
           (scripted [Responds unavailable; Responds unavailable; Responds main_street])
           source_url (query_args square) start [unavailable; unavailable] main_street).
  - simpl. lia.
  - intros [|[|i]] f Hf; try discriminate; injection Hf as <-;
      (split; [reflexivity | left; simpl; lia]).
  - reflexivity.
  - split; [reflexivity|]. eexists. split; [reflexivity | by left].
Defined.

(** A server that cannot be reached. *)
Lemma get_bbox_transport_failure_witness :
  Layer.get_bbox (scripted []) 500 1 ∅ square start
  = (Raise (RequestException "connection refused"),
     answered source_url (query_args square) start).
Proof.
  apply (get_bbox_transport_failure Centroid GetEnvelope X_FIELDNAME Y_FIELDNAME
           (scripted []) source_url "OBJECTID" 500 0%nat ∅ square start
           "connection refused").
  reflexivity.
Defined.

Definition two_points : nat -> string -> list (string * string) -> Reply EsriResponse :=
  scripted [json 200 (points [point 1 "Main" 1 1; point 2 "Oak" 2 2])].

Lemma get_bbox_rows_located_witness :
  exists rows ids' w',
    Layer.get_bbox two_points 500 1 ∅ square start = (Ok (rows, ids'), w') /\
    Forall (located X_FIELDNAME Y_FIELDNAME) rows.
Proof.
  eexists _, _, _. split; [reflexivity|].
  eapply (get_bbox_rows_located Centroid GetEnvelope X_FIELDNAME Y_FIELDNAME
            two_points source_url "OBJECTID" 500 1%nat ∅ square start).
  reflexivity.
Defined.

(** A feature without attributes of its own, after one that is kept. *)
Definition nameless : Feature :=
  mkFeature (Some {[ "STREET" := VStr "Elm" ]})
            (Some (mkEsriGeometry (Some 3%Q) (Some 3%Q) None None None)).

Lemma collect_rows_missing_objectid_witness :
  collect_rows Centroid GetEnvelope X_FIELDNAME Y_FIELDNAME "OBJECTID"
    (Some "esriGeometryPoint") ([point 1 "Main" 1 1] ++ nameless :: [point 2 "Oak" 2 2])
    ∅ [] start
  = (Raise (KeyError "OBJECTID"), start).
Proof.
  eapply (collect_rows_missing_objectid Centroid GetEnvelope X_FIELDNAME Y_FIELDNAME
            "OBJECTID" (Some "esriGeometryPoint") [point 1 "Main" 1 1] nameless
            [point 2 "Oak" 2 2] ∅ [] start).
  - reflexivity.
  - reflexivity.
Defined.





(** A tile with two features under a cap of 500. *)
Lemma get_bbox_below_cap_witness :
  exists rows ids w1,
    fetch_tile Centroid GetEnvelope X_FIELDNAME Y_FIELDNAME two_points source_url
      "OBJECTID" ∅ square start
    = (Ok ([point 1 "Main" 1 1; point 2 "Oak" 2 2], (rows, ids)), w1) /\
    Layer.get_bbox two_points 500 1 ∅ square start = (Ok (rows, ids), w1).
Proof.
  eexists _, _, _. split; [reflexivity|].
  eapply (get_bbox_below_cap Centroid GetEnvelope X_FIELDNAME Y_FIELDNAME
            two_points source_url "OBJECTID" 500 0%nat ∅ square start
            [point 1 "Main" 1 1; point 2 "Oak" 2 2]).
  - reflexivity.
  - simpl. lia.
Defined.

(** The same tile under a cap of two. *)
Lemma get_bbox_four_quadrants_witness :
  exists rows ids w1 mean_x mean_y,
    fetch_tile Centroid GetEnvelope X_FIELDNAME Y_FIELDNAME two_points source_url
      "OBJECTID" ∅ square start
    = (Ok ([point 1 "Main" 1 1; point 2 "Oak" 2 2], (rows, ids)), w1) /\
    mean X_FIELDNAME rows w1 = (Ok mean_x, w1) /\
    mean Y_FIELDNAME rows w1 = (Ok mean_y, w1) /\
    Layer.get_bbox two_points 2 1 ∅ square start
    = visit Centroid GetEnvelope X_FIELDNAME Y_FIELDNAME two_points source_url
        "OBJECTID" 2 0 (quadrants square mean_x mean_y) rows ids w1.
Proof.
  eexists _, _, _.
  edestruct (get_bbox_four_quadrants Centroid GetEnvelope X_FIELDNAME Y_FIELDNAME
               two_points source_url "OBJECTID" 2 0%nat ∅ square start
               [point 1 "Main" 1 1; point 2 "Oak" 2 2])
    as (mean_x & mean_y & Hx & Hy & Hrun).
  - reflexivity.
  - simpl. lia.
  - intros Hnil. apply (f_equal List.length) in Hnil. vm_compute in Hnil. discriminate.
  - exists mean_x, mean_y. split; [reflexivity|]. by split; [|split].
Defined.

(** *** The metadata and the file *)

Abbreviation layer_metadata :=
  (layer_metadata GetEnvelope Transform X_FIELDNAME Y_FIELDNAME GEOM_FIELDNAME).

Definition root_only : nat -> string -> list (string * string) -> Reply EsriResponse :=
  scripted [json 200 (layer_root 500)].

Definition root_response : EsriResponse := mkEsriResponse 200 "" (Some (layer_root 500)).

Lemma layer_metadata_header_witness :
  exists layer w',
    layer_metadata root_only source_url start = (Ok layer, w') /\
    li_field_names layer = ["OBJECTID"; "STREET"; "OA:x"; "OA:y"; "OA:geom"] /\
    exists metadata fields,
      esri_json root_response = Some metadata /\
      p_fields metadata = Some fields /\
      (field_name <$> fields) `prefix_of` li_field_names layer /\
      (forall name,
         name ∈ li_field_names layer <->
         name ∈ field_name <$> fields \/
         name ∈ [X_FIELDNAME; Y_FIELDNAME; GEOM_FIELDNAME]) /\
      (NoDup (field_name <$> fields) -> NoDup (li_field_names layer)).
Proof.
  eexists _, _. split; [reflexivity|]. split; [reflexivity|].
  eapply (layer_metadata_header GetEnvelope Transform X_FIELDNAME Y_FIELDNAME
            GEOM_FIELDNAME root_only source_url start root_response).
  - reflexivity.
  - reflexivity.
Defined.

(** A layer whose object-id field is not the first of its fields. *)
Definition street_first : Payload :=
  mkPayload None
    (Some [mkField "STREET" "esriFieldTypeString"; mkField "FID" "esriFieldTypeOID";
           mkField "OBJECTID" "esriFieldTypeOID"])
    (Some "esriGeometryPoint") None (Some (mkExtent 0%Q 0%Q 4%Q 4%Q 4326)) None.

Lemma layer_metadata_first_objectid_witness :
  exists layer w',
    layer_metadata (scripted [json 200 street_first]) source_url start = (Ok layer, w') /\
    li_objectid_fieldname layer = "FID" /\
    li_max_record_count layer = 500 /\
    exists metadata fields before field after,
      esri_json (mkEsriResponse 200 "" (Some street_first)) = Some metadata /\
      p_fields metadata = Some fields /\
      fields = before ++ field :: after /\
      Forall (fun f => field_type f <> "esriFieldTypeOID") before /\
      field_type field = "esriFieldTypeOID" /\
      li_objectid_fieldname layer = field_name field /\
      field_name field <> "" /\
      li_max_record_count layer = default 500 (p_maxRecordCount metadata).
Proof.
  eexists _, _. split; [reflexivity|]. split; [reflexivity|]. split; [reflexivity|].
  eapply (layer_metadata_first_objectid GetEnvelope Transform X_FIELDNAME Y_FIELDNAME
            GEOM_FIELDNAME (scripted [json 200 street_first]) source_url start
            (mkEsriResponse 200 "" (Some street_first))).
  - reflexivity.
  - reflexivity.
Defined.

(** A layer root that answers with an error object. *)
Definition token_required : Payload :=
  mkPayload (Some (mkErrorObject (Some 499) (Some "Token Required")))
            None None None None None.

Lemma layer_metadata_download_errors_witness :
  layer_metadata (scripted [json 200 token_required]) source_url start
  = (Raise (DownloadError (ProblemQueryingFieldNames "Token Required") None),
     asked source_url start).
Proof.
  destruct (layer_metadata_download_errors GetEnvelope Transform X_FIELDNAME Y_FIELDNAME
              GEOM_FIELDNAME (scripted [json 200 token_required]) source_url start
              (mkEsriResponse 200 "" (Some token_required)) eq_refl) as [_ Hpayload].
  destruct (Hpayload token_required eq_refl eq_refl) as [Herror _].
  exact (Herror (mkErrorObject (Some 499) (Some "Token Required")) "Token Required"
           eq_refl eq_refl).
Defined.

Definition csv_path : string := "/work/esri/us-ca-oakland-58000000.csv".

(** The work directory after an earlier run. *)
Definition fetched : World :=
  mkWorld {[ csv_path := csv_header ["OBJECTID"] ]} {[ "/work/esri" ]} 0 [].

Lemma esri_download_one_skips_existing_witness :
  let run := Layer.download_one root_only (Some "us-ca-oakland") 5 "/work/esri"
               source_url fetched in
  fst run = Ok csv_path /\
  requests (snd run) = requests fetched /\
  files (snd run) = files fetched /\
  dirs (snd run) = dirs fetched.
Proof.
  apply (esri_download_one_skips_existing Centroid GetEnvelope ExportToWkt Transform
           X_FIELDNAME Y_FIELDNAME GEOM_FIELDNAME csv_header csv_row Urls.urlparse
           Urls.text_digest root_only (Some "us-ca-oakland") 5%nat "/work/esri"
           source_url fetched csv_path (emit (EvLog "Downloading") fetched)).
  - reflexivity.
  - reflexivity.
Defined.

Definition two_point_layer : nat -> string -> list (string * string) -> Reply EsriResponse :=
  scripted [json 200 (layer_root 500);
            json 200 (points [point 1 "Main" 1 1; point 2 "Oak" 2 2])].

Lemma two_point_layer_without_geometry : serves_without two_point_layer "geometry".
Proof.
  intros n url args r payload features feature Hget Hjson Hfeatures Hin.
  destruct n as [|[|n]].
  - injection Hget as <-. injection Hjson as <-. discriminate.
  - injection Hget as <-. injection Hjson as <-. injection Hfeatures as <-.
    apply elem_of_cons in Hin as [->|Hin]; [reflexivity|].
    apply list_elem_of_singleton in Hin as ->. reflexivity.
  - unfold two_point_layer, scripted in Hget. by destruct n.
Qed.

Lemma esri_download_one_header_only_witness :
  exists w',
    Layer.download_one two_point_layer (Some "us-ca-oakland") 5 "/work/esri"
      source_url start = (Ok csv_path, w') /\
    exists layer,
      fst (layer_metadata two_point_layer source_url (emit (EvLog "Downloading") start))
      = Ok layer /\
      files w' = <[csv_path := csv_header (li_field_names layer)]> (files start).
Proof.
  eexists. split; [reflexivity|].
  eapply (esri_download_one_header_only Centroid GetEnvelope ExportToWkt Transform
            X_FIELDNAME Y_FIELDNAME GEOM_FIELDNAME csv_header csv_row Urls.urlparse
            Urls.text_digest two_point_layer (Some "us-ca-oakland") 5%nat "/work/esri"
            source_url start csv_path).
  - discriminate.
  - discriminate.
  - exact two_point_layer_without_geometry.
  - reflexivity.
  - reflexivity.
Defined.


End Traversals.

(** ** Runs of the cache *)

Lemma compare_cache_details_no_file_witness :
  compare_cache_details Urls.digest Urls.urlparse Urls.abspath
    "/work/http/addresses.zip" "/work/cached" ∅ Net.workdir
  = (Raise (Exception "cached file /work/http/addresses.zip is missing"), Net.workdir) /\
  compare_cache_details Urls.digest Urls.urlparse Urls.abspath
    "/work/http" "/work/cached" ∅ Net.workdir
  = (Raise (OSError "/work/http"), Net.workdir).
Proof.
  split.
  - exact (compare_cache_details_no_file Urls.digest Urls.urlparse Urls.abspath
             "/work/http/addresses.zip" "/work/cached" ∅ Net.workdir eq_refl).
  - exact (compare_cache_details_no_file Urls.digest Urls.urlparse Urls.abspath
             "/work/http" "/work/cached" ∅ Net.workdir eq_refl).
Defined.

(** The work directory of [Transfers.downloaded], with the directories
    above it. *)
Definition cached_once : World :=
  mkWorld {[ "/work/http/addresses.zip" := [x50; x4b] ]} {[ "/work"; "/work/http" ]} 0 [].

Lemma compare_cache_details_again_witness :
  exists result w1,
    compare_cache_details Urls.digest Urls.urlparse Urls.abspath
      "/work/http/addresses.zip" "/work/cached" ∅ cached_once = (Ok result, w1) /\
    files w1 !! "/work/cached/addresses.zip" = Some [x50; x4b] /\
    compare_cache_details Urls.digest Urls.urlparse Urls.abspath
      "/work/cached/addresses.zip" "/work/cached" ∅ w1 = (Ok result, w1).
Proof.
  exists ("file:///work/cached/addresses.zip", Urls.digest [x50; x4b]),
         (promoted "/work/http/addresses.zip" "/work/cached" [x50; x4b] cached_once).
  split; [vm_compute; reflexivity|]. split; [vm_compute; reflexivity|].
  apply (compare_cache_details_again Urls.digest Urls.urlparse Urls.abspath
           "/work/http/addresses.zip" "/work/cached" ∅ ∅ cached_once [x50; x4b]).
  - reflexivity.
  - reflexivity.
  - vm_compute. discriminate.
  - intros cache (Hc & _). vm_compute in Hc. discriminate.
  - intros cache (Hc & _). vm_compute in Hc. discriminate.
  - vm_compute. reflexivity.
  - vm_compute. reflexivity.
Defined.

Lemma mkdirsp_makes_directory_witness :
  "/work/esri" ∈ dirs (set_dirs (union {[ "/work/esri" ]}) Net.workdir) /\
  files (set_dirs (union {[ "/work/esri" ]}) Net.workdir) = files Net.workdir /\
  dirs Net.workdir ⊆ dirs (set_dirs (union {[ "/work/esri" ]}) Net.workdir) /\
  mkdirsp "/work/esri" (set_dirs (union {[ "/work/esri" ]}) Net.workdir)
  = (Ok tt, set_dirs (union {[ "/work/esri" ]}) Net.workdir).
Proof.
  apply (mkdirsp_makes_directory "/work/esri" Net.workdir). reflexivity.
Defined.
